(** * STM32 LTDC frame-buffer driver: a shallow embedding and its properties

    The definitions below follow [drivers/video/fbdev/stm32-ltdc.c]
    function by function.  Machine integers are [Z] with the 32-bit
    wrap-around written out, the memory-mapped register file is a finite
    map from byte offsets to 32-bit values, and every call into the kernel
    (clock framework, ioremap, IRQ core, DMA allocator, fbdev core) is an
    event of a log whose outcome is supplied by a [platform] record. *)

From Stdlib Require Import ZArith Lia Bool List String.
From stdpp Require Import base option gmap.

Open Scope Z_scope.

(** ** 32-bit machine arithmetic *)

Module U32.

Definition modulus : Z := 4294967296.

(** Conversion to [u32] / [unsigned int] / 32-bit [unsigned long]. *)
Definition u32 (x : Z) : Z := x mod modulus.

(** [a < b] after the usual arithmetic conversions when one operand is
    unsigned: both sides are converted to [u32] first. *)
Definition ult (a b : Z) : bool := u32 a <? u32 b.

(** [a > b] on unsigned operands. *)
Definition ugt (a b : Z) : bool := u32 b <? u32 a.

(** [a << n] on a [u32]. *)
Definition shl (a n : Z) : Z := u32 (Z.shiftl a n).

End U32.

Import U32.

(** ** Error numbers ([errno-base.h]) *)

Definition ENOENT : Z := 2.
Definition ENXIO  : Z := 6.
Definition ENOMEM : Z := 12.
Definition ENODEV : Z := 19.
Definition EINVAL : Z := 22.

(** ** Register offsets and bits (lines 39-54) *)

Definition LTDC_L1CFBAR : Z := 0xac.
Definition LTDC_L1CFBLR : Z := 0xb0.
Definition LTDC_L1PFCR  : Z := 0x94.
Definition LTDC_L1DCCR  : Z := 0x9c.
Definition LTDC_L1CR    : Z := 0x84.
Definition LTDC_BCCR    : Z := 0x2c.
Definition LTDC_IER     : Z := 0x34.
Definition LTDC_ICR     : Z := 0x3C.
Definition LTDC_GCR     : Z := 0x18.
Definition LTDC_SSCR    : Z := 0x8.
Definition LTDC_BPCR    : Z := 0xc.
Definition LTDC_AWCR    : Z := 0x10.
Definition LTDC_TWCR    : Z := 0x14.

Definition CNTL_LCDEN : Z := 1.
Definition LTDC_ARGB  : Z := 0.

Definition FB_VISUAL_TRUECOLOR   : Z := 2.
Definition FB_VISUAL_PSEUDOCOLOR : Z := 3.
Definition FB_TYPE_PACKED_PIXELS : Z := 0.
Definition FB_ACCEL_NONE         : Z := 0.
Definition FB_ACTIVATE_NOW       : Z := 0.

(** ** Data model *)

(** [struct fb_videomode]: every numeric field is a [u32]. *)
Record fb_videomode := {
  name         : string;
  refresh      : Z;
  xres         : Z;
  yres         : Z;
  pixclock     : Z;
  left_margin  : Z;
  right_margin : Z;
  upper_margin : Z;
  lower_margin : Z;
  hsync_len    : Z;
  vsync_len    : Z;
  sync         : Z;
  vmode        : Z
}.

(** [struct ltdc_panel] (lines 56-68); [width] and [height] are
    [signed short], [bpp] is an 8-bit bit-field. *)
Record ltdc_panel := {
  mode         : fb_videomode;
  width        : Z;
  height       : Z;
  bpp          : Z;
  fixedtimings : Z;
  grayscale    : Z
}.

Definition zero_mode : fb_videomode :=
  {| name := ""; refresh := 0; xres := 0; yres := 0; pixclock := 0;
     left_margin := 0; right_margin := 0; upper_margin := 0;
     lower_margin := 0; hsync_len := 0; vsync_len := 0; sync := 0;
     vmode := 0 |}.

Definition set_mode_name (s : string) (m : fb_videomode) : fb_videomode :=
  {| name := s; refresh := refresh m; xres := xres m; yres := yres m;
     pixclock := pixclock m; left_margin := left_margin m;
     right_margin := right_margin m; upper_margin := upper_margin m;
     lower_margin := lower_margin m; hsync_len := hsync_len m;
     vsync_len := vsync_len m; sync := sync m; vmode := vmode m |}.

(** What [devm_kzalloc] hands back: an all-zero panel. *)
Definition zero_panel : ltdc_panel :=
  {| mode := zero_mode; width := 0; height := 0; bpp := 0;
     fixedtimings := 0; grayscale := 0 |}.

Definition set_panel_mode (m : fb_videomode) (p : ltdc_panel) : ltdc_panel :=
  {| mode := m; width := width p; height := height p; bpp := bpp p;
     fixedtimings := fixedtimings p; grayscale := grayscale p |}.

Definition set_panel_bpp (b : Z) (p : ltdc_panel) : ltdc_panel :=
  {| mode := mode p; width := width p; height := height p; bpp := b mod 256;
     fixedtimings := fixedtimings p; grayscale := grayscale p |}.

Definition set_panel_width (v : Z) (p : ltdc_panel) : ltdc_panel :=
  {| mode := mode p; width := v; height := height p; bpp := bpp p;
     fixedtimings := fixedtimings p; grayscale := grayscale p |}.

Definition set_panel_height (v : Z) (p : ltdc_panel) : ltdc_panel :=
  {| mode := mode p; width := width p; height := v; bpp := bpp p;
     fixedtimings := fixedtimings p; grayscale := grayscale p |}.

(** ** Panel mode resolver: [ltdcfb_of_init] and what it calls *)

Module Resolver.

(** Modelled from the spec: [PICOS2KHZ] comes from [linux/fb.h], which is
    not among the sources.  The spec says "compute a pixel-clock frequency
    (kHz) from the mode's pixel clock (picoseconds)"; the macro is
    [1000000000UL / a]. *)
Definition PICOS2KHZ (a : Z) : Z := 1000000000 / a.

(** Modelled from the spec: [fls_long] and [rounddown_pow_of_two] come
    from [linux/bitops.h] and [linux/log2.h], which are not among the
    sources.  The spec says "round down to the nearest power of two"; for
    a run-time argument the macro is [1UL << (fls_long(n) - 1)], where
    [fls_long] is the 1-based index of the most significant set bit and 0
    for 0.  [log2.h] leaves the result for [n = 0] undefined: the shift
    count is then -1.  The embedding yields 0 there, which is what a
    register-controlled left shift by -1 gives on the ARM core of the
    STM32 (the count is read modulo 256, and a count above 31 gives 0). *)
Definition fls_long (n : Z) : Z := if n =? 0 then 0 else Z.log2 n + 1.

Definition rounddown_pow_of_two (n : Z) : Z := shl 1 (fls_long n - 1).

(** Lines 498-502: the bandwidth branch of [ltdcfb_of_init].  The C
    expression divides by [PICOS2KHZ(pixclock)], which is 0 for a pixel
    clock above 1000000000 and itself a division by zero for a pixel clock
    of 0; [Z]'s division is total and yields 0 in both cases, so this
    definition stands for the code only where [0 < pixclock <= 1000000000],
    and every property of it below is stated under that hypothesis or at
    such a pixel clock. *)
Definition bpp_of_bandwidth (max_bandwidth pixclock : Z) : Z :=
  let bpp := u32 (u32 (max_bandwidth / (1000 / 8)) / PICOS2KHZ pixclock) in
  let bpp := u32 (rounddown_pow_of_two bpp) in
  if ugt bpp 32 then 32 else bpp.

(** The panel node behind the endpoint: whether it is "panel-dpi", and
    what the chain [of_get_display_timing] / [videomode_from_timing] /
    [fb_videomode_from_videomode] yields (an error code or a mode). *)
Record dt_panel := {
  compatible_panel_dpi : bool;
  panel_timing         : Z + fb_videomode
}.

(** The device-tree node of the controller and the outcome of the two
    allocations made while reading it. *)
Record dt_node := {
  panel_kzalloc        : bool;
  next_endpoint        : bool;
  remote_port_parent   : option dt_panel;
  name_kzalloc         : bool;
  max_memory_bandwidth : option Z
}.

(** Lines 412-430: [mode] is written only when the whole chain succeeds. *)
Definition ltdcfb_of_get_dpi_panel_mode (panel : dt_panel)
    (mode : fb_videomode) : Z * fb_videomode :=
  match panel_timing panel with
  | inl err => (err, mode)
  | inr m => (0, m)
  end.

(** [printf]'s "%u" on a [u32]: decimal digits, most significant first,
    no padding.  Ten digits are enough for 32 bits. *)
Fixpoint decimal (fuel : nat) (n : Z) (acc : string) : string :=
  match fuel with
  | O => acc
  | S k =>
      let acc := String (Ascii.ascii_of_nat (48 + Z.to_nat (n mod 10))) acc in
      if n / 10 =? 0 then acc else decimal k (n / 10) acc
  end.

Definition print_u (n : Z) : string := decimal 10 (u32 n) EmptyString.

(** Lines 432-436: the text [snprintf] produces for "%ux%u@%u"; the
    value the function returns is the length of that text. *)
Definition ltdcfb_snprintf_mode (mode : fb_videomode) : string :=
  String.append (print_u (xres mode))
    (String.append "x"
       (String.append (print_u (yres mode))
          (String.append "@" (print_u (refresh mode))))).

(** Lines 438-467.  [name_kzalloc] is whether the [len + 1] bytes for the
    name are granted; the name stored is the formatted text, whatever name
    the mode carried before. *)
Definition ltdcfb_of_get_mode (dt : dt_node) (mode : fb_videomode)
  : Z * fb_videomode :=
  match remote_port_parent dt with
  | None => (- ENODEV, mode)
  | Some panel =>
      let '(err, mode) :=
        if compatible_panel_dpi panel
        then ltdcfb_of_get_dpi_panel_mode panel mode
        else (- ENOENT, mode) in
      if negb (err =? 0) then (err, mode)
      else if negb (name_kzalloc dt) then (- ENOMEM, mode)
      else (0, set_mode_name (ltdcfb_snprintf_mode mode) mode)
  end.

(** Lines 469-512.  The result is the return value and the panel that
    [fb->panel] points to afterwards ([None] while it is unallocated). *)
Definition ltdcfb_of_init (dt : dt_node) : Z * option ltdc_panel :=
  if negb (panel_kzalloc dt) then (- ENOMEM, None)
  else
    let panel := zero_panel in
    if negb (next_endpoint dt) then (- ENODEV, Some panel)
    else
      let '(err, m) := ltdcfb_of_get_mode dt (mode panel) in
      let panel := set_panel_mode m panel in
      if negb (err =? 0) then (err, Some panel)
      else
        let bpp :=
          match max_memory_bandwidth dt with
          | Some max_bandwidth =>
              bpp_of_bandwidth max_bandwidth (pixclock (mode panel))
          | None => 32
          end in
        let panel := set_panel_bpp bpp panel in
        let panel := set_panel_width (-1) panel in
        let panel := set_panel_height (-1) panel in
        (0, Some panel).

(** The reference computation, written after the spec's sentences and
    not after the code: [floor(8 * B / (kHz * 1000))], the largest power
    of two not above it (found by doubling), at most 32. *)
Definition spec_bpp_raw (B P : Z) : Z := (8 * B) / (PICOS2KHZ P * 1000).

Fixpoint spec_pow2_search (fuel : nat) (p n : Z) : Z :=
  match fuel with
  | O => p
  | S k => if 2 * p <=? n then spec_pow2_search k (2 * p) n else p
  end.

Definition spec_round_down_pow2 (n : Z) : Z := spec_pow2_search 64 1 n.

Definition spec_resolve_bpp (B P : Z) : Z :=
  Z.min 32 (spec_round_down_pow2 (spec_bpp_raw B P)).

End Resolver.

(** ** Frame-buffer context *)

(** [struct fb_bitfield]. *)
Record fb_bitfield := {
  bf_offset    : Z;
  bf_length    : Z;
  bf_msb_right : Z
}.

(** [struct fb_var_screeninfo]. *)
Record fb_var_screeninfo := {
  var_xres           : Z;
  var_yres           : Z;
  var_xres_virtual   : Z;
  var_yres_virtual   : Z;
  var_xoffset        : Z;
  var_yoffset        : Z;
  var_bits_per_pixel : Z;
  var_grayscale      : Z;
  var_red            : fb_bitfield;
  var_green          : fb_bitfield;
  var_blue           : fb_bitfield;
  var_transp         : fb_bitfield;
  var_nonstd         : Z;
  var_activate       : Z;
  var_height         : Z;
  var_width          : Z;
  var_accel_flags    : Z;
  var_pixclock       : Z;
  var_left_margin    : Z;
  var_right_margin   : Z;
  var_upper_margin   : Z;
  var_lower_margin   : Z;
  var_hsync_len      : Z;
  var_vsync_len      : Z;
  var_sync           : Z;
  var_vmode          : Z
}.

(** [struct fb_fix_screeninfo], the fields the driver touches. *)
Record fb_fix_screeninfo := {
  fix_smem_start  : Z;
  fix_smem_len    : Z;
  fix_type        : Z;
  fix_type_aux    : Z;
  fix_visual      : Z;
  fix_xpanstep    : Z;
  fix_ypanstep    : Z;
  fix_ywrapstep   : Z;
  fix_line_length : Z;
  fix_mmio_start  : Z;
  fix_mmio_len    : Z;
  fix_accel       : Z
}.

(** [struct ltdc_fb] (lines 70-80) with the embedded [struct fb_info]
    flattened to the members used: [fb.var], [fb.fix] and
    [fb.screen_base] (0 is [NULL]).  [panel] is the structure [fb->panel] points to. *)
Record ltdc_fb := {
  fb_var      : fb_var_screeninfo;
  fb_fix      : fb_fix_screeninfo;
  screen_base : Z;
  panel       : ltdc_panel;
  irq         : Z;
  error_irq   : Z
}.

Definition zero_bitfield : fb_bitfield :=
  {| bf_offset := 0; bf_length := 0; bf_msb_right := 0 |}.

Definition zero_var : fb_var_screeninfo :=
  {| var_xres := 0; var_yres := 0; var_xres_virtual := 0;
     var_yres_virtual := 0; var_xoffset := 0; var_yoffset := 0;
     var_bits_per_pixel := 0; var_grayscale := 0;
     var_red := zero_bitfield; var_green := zero_bitfield;
     var_blue := zero_bitfield; var_transp := zero_bitfield;
     var_nonstd := 0; var_activate := 0; var_height := 0; var_width := 0;
     var_accel_flags := 0; var_pixclock := 0; var_left_margin := 0;
     var_right_margin := 0; var_upper_margin := 0; var_lower_margin := 0;
     var_hsync_len := 0; var_vsync_len := 0; var_sync := 0;
     var_vmode := 0 |}.

Definition zero_fix : fb_fix_screeninfo :=
  {| fix_smem_start := 0; fix_smem_len := 0; fix_type := 0;
     fix_type_aux := 0; fix_visual := 0; fix_xpanstep := 0;
     fix_ypanstep := 0; fix_ywrapstep := 0; fix_line_length := 0;
     fix_mmio_start := 0; fix_mmio_len := 0; fix_accel := 0 |}.

(** The context as [ltdcfb_probe] passes it to [ltdcfb_register]: fresh
    from [kzalloc], with the panel [ltdcfb_of_init] resolved. *)
Definition probed_fb (p : ltdc_panel) : ltdc_fb :=
  {| fb_var := zero_var; fb_fix := zero_fix; screen_base := 0; panel := p;
     irq := 0; error_irq := 0 |}.

Definition set_var (v : fb_var_screeninfo) (fb : ltdc_fb) : ltdc_fb :=
  {| fb_var := v; fb_fix := fb_fix fb; screen_base := screen_base fb;
     panel := panel fb; irq := irq fb; error_irq := error_irq fb |}.

Definition set_fix (f : fb_fix_screeninfo) (fb : ltdc_fb) : ltdc_fb :=
  {| fb_var := fb_var fb; fb_fix := f; screen_base := screen_base fb;
     panel := panel fb; irq := irq fb; error_irq := error_irq fb |}.

Definition set_screen_base (b : Z) (fb : ltdc_fb) : ltdc_fb :=
  {| fb_var := fb_var fb; fb_fix := fb_fix fb; screen_base := b;
     panel := panel fb; irq := irq fb; error_irq := error_irq fb |}.

Definition set_panel (p : ltdc_panel) (fb : ltdc_fb) : ltdc_fb :=
  {| fb_var := fb_var fb; fb_fix := fb_fix fb; screen_base := screen_base fb;
     panel := p; irq := irq fb; error_irq := error_irq fb |}.

(** The two interrupt members are [u32]: a store converts. *)
Definition set_irq (n : Z) (fb : ltdc_fb) : ltdc_fb :=
  {| fb_var := fb_var fb; fb_fix := fb_fix fb; screen_base := screen_base fb;
     panel := panel fb; irq := u32 n; error_irq := error_irq fb |}.

Definition set_error_irq (n : Z) (fb : ltdc_fb) : ltdc_fb :=
  {| fb_var := fb_var fb; fb_fix := fb_fix fb; screen_base := screen_base fb;
     panel := panel fb; irq := irq fb; error_irq := u32 n |}.

Definition set_line_length_visual (l v : Z) (f : fb_fix_screeninfo)
  : fb_fix_screeninfo :=
  {| fix_smem_start := fix_smem_start f; fix_smem_len := fix_smem_len f;
     fix_type := fix_type f; fix_type_aux := fix_type_aux f;
     fix_visual := v; fix_xpanstep := fix_xpanstep f;
     fix_ypanstep := fix_ypanstep f; fix_ywrapstep := fix_ywrapstep f;
     fix_line_length := l; fix_mmio_start := fix_mmio_start f;
     fix_mmio_len := fix_mmio_len f; fix_accel := fix_accel f |}.

Definition set_mmio (start len : Z) (f : fb_fix_screeninfo)
  : fb_fix_screeninfo :=
  {| fix_smem_start := fix_smem_start f; fix_smem_len := fix_smem_len f;
     fix_type := fix_type f; fix_type_aux := fix_type_aux f;
     fix_visual := fix_visual f; fix_xpanstep := fix_xpanstep f;
     fix_ypanstep := fix_ypanstep f; fix_ywrapstep := fix_ywrapstep f;
     fix_line_length := fix_line_length f; fix_mmio_start := start;
     fix_mmio_len := len; fix_accel := fix_accel f |}.

(** Lines 313-314 and 321-326 of [ltdcfb_register]. *)
Definition set_smem_and_type (start len : Z) (f : fb_fix_screeninfo)
  : fb_fix_screeninfo :=
  {| fix_smem_start := start; fix_smem_len := len;
     fix_type := FB_TYPE_PACKED_PIXELS; fix_type_aux := 0;
     fix_visual := fix_visual f; fix_xpanstep := 0;
     fix_ypanstep := 0; fix_ywrapstep := 0;
     fix_line_length := fix_line_length f;
     fix_mmio_start := fix_mmio_start f;
     fix_mmio_len := fix_mmio_len f; fix_accel := FB_ACCEL_NONE |}.

(** Lines 331-350 of [ltdcfb_register]: the panel copied into [var]. *)
Definition var_of_panel (p : ltdc_panel) (v : fb_var_screeninfo)
  : fb_var_screeninfo :=
  {| var_xres := xres (mode p); var_yres := yres (mode p);
     var_xres_virtual := xres (mode p); var_yres_virtual := yres (mode p);
     var_xoffset := var_xoffset v; var_yoffset := var_yoffset v;
     var_bits_per_pixel := bpp p; var_grayscale := grayscale p;
     var_red := var_red v; var_green := var_green v;
     var_blue := var_blue v; var_transp := var_transp v;
     var_nonstd := 0; var_activate := FB_ACTIVATE_NOW;
     var_height := u32 (height p); var_width := u32 (width p);
     var_accel_flags := 0; var_pixclock := pixclock (mode p);
     var_left_margin := left_margin (mode p);
     var_right_margin := right_margin (mode p);
     var_upper_margin := upper_margin (mode p);
     var_lower_margin := lower_margin (mode p);
     var_hsync_len := hsync_len (mode p);
     var_vsync_len := vsync_len (mode p);
     var_sync := sync (mode p); var_vmode := vmode (mode p) |}.

Definition set_var_bitfields (r g b t : fb_bitfield) (v : fb_var_screeninfo)
  : fb_var_screeninfo :=
  {| var_xres := var_xres v; var_yres := var_yres v;
     var_xres_virtual := var_xres_virtual v;
     var_yres_virtual := var_yres_virtual v;
     var_xoffset := var_xoffset v; var_yoffset := var_yoffset v;
     var_bits_per_pixel := var_bits_per_pixel v;
     var_grayscale := var_grayscale v;
     var_red := r; var_green := g; var_blue := b; var_transp := t;
     var_nonstd := var_nonstd v; var_activate := var_activate v;
     var_height := var_height v; var_width := var_width v;
     var_accel_flags := var_accel_flags v; var_pixclock := var_pixclock v;
     var_left_margin := var_left_margin v;
     var_right_margin := var_right_margin v;
     var_upper_margin := var_upper_margin v;
     var_lower_margin := var_lower_margin v;
     var_hsync_len := var_hsync_len v; var_vsync_len := var_vsync_len v;
     var_sync := var_sync v; var_vmode := var_vmode v |}.

(** ** Events and the world the driver runs in *)

(** One constructor per kernel service the driver calls, carrying the
    arguments that matter and the outcome. *)
Inductive event :=
| Devm_clk_get (ptr : Z)
| Clk_prepare_enable (ret : Z)
| Clk_unprepare
| Clk_put
| Platform_get_resource (found : bool)
| Ioremap (ok : bool)
| Iounmap
| Platform_get_irq_byname (nm : string) (ret : Z)
| Request_irq (n : Z) (ret : Z)
| Dma_alloc_wc (size : Z) (ok : bool)
| Dma_free_wc (size : Z)
| Fill_pattern (words : Z) (colour : Z)
| Fb_alloc_cmap (ret : Z)
| Fb_dealloc_cmap
| Readl (off : Z) (val : Z)
| Writel (val : Z) (off : Z)
| Fb_set_var
| Register_framebuffer (ret : Z)
| Pr_err (msg : string)
| Dev_err (msg : string)
| Dev_info (msg : string).

(** The driver context, the register file behind [fb->regs] and the log
    of events so far (oldest first). *)
Record world := {
  ctx  : ltdc_fb;
  mmio : gmap Z Z;
  log  : list event
}.

Definition emit (e : event) (w : world) : world :=
  {| ctx := ctx w; mmio := mmio w; log := log w ++ [e] |}.

Definition update (f : ltdc_fb -> ltdc_fb) (w : world) : world :=
  {| ctx := f (ctx w); mmio := mmio w; log := log w |}.

(** A register holds the last value written to it; one never written
    reads as its reset value 0. *)
Definition peek (off : Z) (w : world) : Z := u32 (default 0 (mmio w !! off)).

Definition readl (off : Z) (w : world) : Z * world :=
  (peek off w, emit (Readl off (peek off w)) w).

Definition writel (val off : Z) (w : world) : world :=
  {| ctx := ctx w; mmio := <[off := u32 val]> (mmio w);
     log := log w ++ [Writel (u32 val) off] |}.

(** ** Driver operations *)

(** Lines 86-99.  [unsigned long] is 32 bits wide on the STM32; [writel]
    stores 32 bits in any case. *)
Definition ltdcfb_set_start (w : world) : world :=
  let fb := ctx w in
  let ustart := u32 (fix_smem_start (fb_fix fb)) in
  let ustart :=
    u32 (ustart + u32 (var_yoffset (fb_var fb) * fix_line_length (fb_fix fb))) in
  let lstart :=
    u32 (ustart + u32 (var_yres (fb_var fb) * fix_line_length (fb_fix fb))) in
  let len :=
    Z.lor (u32 (fix_line_length (fb_fix fb) + 3))
          (shl (fix_line_length (fb_fix fb)) 16) in
  let w := writel lstart LTDC_L1CFBAR w in
  let w := writel len LTDC_L1CFBLR w in
  writel LTDC_ARGB LTDC_L1PFCR w.

(** Lines 101-108. *)
Definition ltdcfb_disable (w : world) : world :=
  let '(val, w) := readl LTDC_L1CR w in
  let val := Z.land val (u32 (Z.lnot CNTL_LCDEN)) in
  writel val LTDC_L1CR w.

(** Lines 110-117. *)
Definition ltdcfb_enable (w : world) : world :=
  let '(val, w) := readl LTDC_L1CR w in
  let val := Z.lor val CNTL_LCDEN in
  writel val LTDC_L1CR w.

Definition clear_msb_right (b : fb_bitfield) : fb_bitfield :=
  {| bf_offset := bf_offset b; bf_length := bf_length b; bf_msb_right := 0 |}.

(** Lines 119-146.  The result is the return value and [*var] afterwards. *)
Definition ltdcfb_set_bitfields (var : fb_var_screeninfo)
  : Z * fb_var_screeninfo :=
  let ret := 0 in
  let red := clear_msb_right (var_red var) in
  let green := clear_msb_right (var_green var) in
  let blue := clear_msb_right (var_blue var) in
  let transp := clear_msb_right (var_transp var) in
  if var_bits_per_pixel var =? 32 then
    let blue := {| bf_offset := 0; bf_length := 8; bf_msb_right := 0 |} in
    let green :=
      {| bf_offset := u32 (bf_offset blue + bf_length blue);
         bf_length := 8; bf_msb_right := 0 |} in
    let red :=
      {| bf_offset := u32 (bf_offset green + bf_length green);
         bf_length := 8; bf_msb_right := 0 |} in
    let transp :=
      {| bf_offset := u32 (bf_offset red + bf_length red);
         bf_length := 8; bf_msb_right := 0 |} in
    (ret, set_var_bitfields red green blue transp var)
  else
    let ret := - EINVAL in
    (ret, set_var_bitfields red green blue transp var).

(** Lines 148-161.  [info] is only read; the candidate [*var] is an in-out
    argument, so the result carries the return value, the candidate and
    the world afterwards. *)
Definition ltdcfb_check_var (var : fb_var_screeninfo) (w : world)
  : Z * fb_var_screeninfo * world :=
  let fb := ctx w in
  let ret := - EINVAL in
  let ret :=
    if ugt (u32 (u32 (var_xres_virtual var
                      * (u32 (var_bits_per_pixel var) / 8))
                 * var_yres_virtual var))
           (fix_smem_len (fb_fix fb))
    then - EINVAL else ret in
  let '(r, var) := ltdcfb_set_bitfields var in
  (r, var, w).

(** Lines 163-180. *)
Definition ltdcfb_set_par (w : world) : Z * world :=
  let fb := ctx w in
  let line_length :=
    u32 (var_xres_virtual (fb_var fb) * var_bits_per_pixel (fb_var fb)) / 8 in
  let visual :=
    if u32 (var_bits_per_pixel (fb_var fb)) <=? 8
    then FB_VISUAL_PSEUDOCOLOR else FB_VISUAL_TRUECOLOR in
  let w :=
    update (fun fb =>
              set_fix (set_line_length_visual line_length visual (fb_fix fb)) fb)
           w in
  let w := ltdcfb_set_start w in
  (0, w).

(** Lines 229-236. *)
Definition ltdc_interrupt (w : world) : world := writel 0xf LTDC_ICR w.

(** ** Registration *)

(** What the platform answers to each request of [ltdcfb_register].
    [devm_clk_get] is the returned pointer read as a [long]; interrupt
    numbers and return values are [int]. *)
Record platform := {
  devm_clk_get          : Z;
  clk_prepare_enable    : Z;
  platform_get_resource : option (Z * Z);
  ioremap               : bool;
  ltdc_irq              : Z;
  ltdc_error_irq        : Z;
  request_irq           : Z;
  request_error_irq     : Z;
  dma_alloc_wc          : option (Z * Z);
  fb_alloc_cmap         : Z;
  register_framebuffer  : Z
}.

(** [linux/err.h]: a pointer in the last 4095 addresses encodes an errno. *)
Definition MAX_ERRNO : Z := 4095.
Definition IS_ERR (ptr : Z) : bool := (- MAX_ERRNO <=? ptr) && (ptr <? 0).
Definition PTR_ERR (ptr : Z) : Z := ptr.

(** The labels at the end of [ltdcfb_register] (lines 402-409); each one
    falls through into the next. *)
Definition out (ret : Z) (w : world) : Z * world := (ret, w).
Definition free_clk (ret : Z) (w : world) : Z * world :=
  out ret (emit Clk_put w).
Definition clk_unprep (ret : Z) (w : world) : Z * world :=
  free_clk ret (emit Clk_unprepare w).
Definition unmap (ret : Z) (w : world) : Z * world :=
  clk_unprep ret (emit Iounmap w).

(** Lines 368-378: the four timing words, in [u32] arithmetic. *)
Definition sscr_value (m : fb_videomode) : Z :=
  Z.lor (u32 (vsync_len m - 1)) (shl (u32 (hsync_len m - 1)) 16).

Definition bpcr_value (m : fb_videomode) : Z :=
  Z.lor (u32 (vsync_len m + upper_margin m - 1))
        (shl (u32 (hsync_len m + left_margin m - 1)) 16).

Definition awcr_value (m : fb_videomode) : Z :=
  Z.lor (u32 (vsync_len m + upper_margin m + 272 - 1))
        (shl (u32 (hsync_len m + left_margin m + 480 - 1)) 16).

Definition twcr_value (m : fb_videomode) : Z :=
  Z.lor (u32 (vsync_len m + upper_margin m + 272 + lower_margin m - 1))
        (shl (u32 (hsync_len m + left_margin m + 480 + right_margin m - 1)) 16).

(** Lines 305-359: the context filled in once the buffer is there. *)
Definition fill_context (base dma framesize : Z) (fb : ltdc_fb) : ltdc_fb :=
  let fb := set_screen_base base fb in
  let fb := set_fix (set_smem_and_type (u32 dma) framesize (fb_fix fb)) fb in
  let fb := set_panel (set_panel_width 480 (panel fb)) fb in
  let fb := set_panel (set_panel_width 272 (panel fb)) fb in
  let fb := set_var (var_of_panel (panel fb) (fb_var fb)) fb in
  set_var (snd (ltdcfb_set_bitfields (fb_var fb))) fb.

(** Lines 365-388: interrupts on, timing, controller and layer on. *)
Definition program_controller (w : world) : world :=
  let m := mode (panel (ctx w)) in
  let w := writel 0xf LTDC_IER w in
  let w := writel (sscr_value m) LTDC_SSCR w in
  let w := writel (bpcr_value m) LTDC_BPCR w in
  let w := writel (awcr_value m) LTDC_AWCR w in
  let w := writel (twcr_value m) LTDC_TWCR w in
  let w := writel 1 LTDC_GCR w in
  let w := ltdcfb_enable w in
  let w := emit Fb_set_var w in
  ltdcfb_set_start w.

(** Lines 238-410.  [fb_set_var] and [register_framebuffer] belong to the
    fbdev core: their calls are logged, and the callbacks the core may
    invoke from them are the operations above. *)
Definition ltdcfb_register (p : platform) (w : world) : Z * world :=
  let framesize := u32 (480 * 272 * 4) in
  let w := emit (Devm_clk_get (devm_clk_get p)) w in
  if IS_ERR (devm_clk_get p) then out (PTR_ERR (devm_clk_get p)) w else
  let ret := clk_prepare_enable p in
  let w := emit (Clk_prepare_enable ret) w in
  if negb (ret =? 0) then free_clk ret w else
  match platform_get_resource p with
  | None =>
      let w := emit (Platform_get_resource false) w in
      clk_unprep (- ENXIO) (emit (Dev_err "resources unusable") w)
  | Some (r_start, r_end) =>
  let w := emit (Platform_get_resource true) w in
  let w :=
    update (fun fb =>
              set_fix (set_mmio r_start (r_end - r_start + 1) (fb_fix fb)) fb)
           w in
  let w := emit (Ioremap (ioremap p)) w in
  if negb (ioremap p) then
    clk_unprep (- ENOMEM) (emit (Pr_err "unable to remap registers") w)
  else
  let w := emit (Platform_get_irq_byname "ltdc-irq" (ltdc_irq p)) w in
  let w := update (set_irq (ltdc_irq p)) w in
  let w :=
    emit (Platform_get_irq_byname "ltdc-error-irq" (ltdc_error_irq p)) w in
  let w := update (set_error_irq (ltdc_error_irq p)) w in
  if ult (irq (ctx w)) 0 || ult (error_irq (ctx w)) 0 then
    clk_unprep (- ENXIO)
               (emit (Pr_err "error looking up IRQs for device") w)
  else
  let ret := request_irq p in
  let w := emit (Request_irq (irq (ctx w)) ret) w in
  if ret <? 0 then
    clk_unprep (- ENXIO) (emit (Pr_err "error requesting IRQ") w)
  else
  let ret := request_error_irq p in
  let w := emit (Request_irq (error_irq (ctx w)) ret) w in
  if ret <? 0 then
    clk_unprep (- ENXIO) (emit (Pr_err "error requesting error IRQ") w)
  else
  match dma_alloc_wc p with
  | None =>
      let w := emit (Dma_alloc_wc framesize false) w in
      let w := update (set_screen_base 0) w in
      clk_unprep (- ENOMEM) (emit (Pr_err "unable to allocate framebuffer") w)
  | Some (base, dma) =>
  let w := emit (Dma_alloc_wc framesize true) w in
  let w := emit (Fill_pattern (128 * 480) 0xffff0000) w in
  let w := update (fill_context base dma framesize) w in
  let ret := fb_alloc_cmap p in
  let w := emit (Fb_alloc_cmap ret) w in
  if negb (ret =? 0) then unmap ret w else
  let w := program_controller w in
  let w := emit (Dev_info "display") w in
  let ret := register_framebuffer p in
  let w := emit (Register_framebuffer ret) w in
  if ret =? 0 then out ret w else
  let w := emit (Dev_info "cannot register framebuffer") w in
  let w := emit Fb_dealloc_cmap w in
  let w := emit (Dma_free_wc (fix_smem_len (fb_fix (ctx w)))) w in
  unmap ret w
  end
  end.

(** The three values [ltdcfb_set_start] writes, as functions of the
    context (lines 88-94). *)
Definition start_address (fb : ltdc_fb) : Z :=
  u32 (u32 (u32 (fix_smem_start (fb_fix fb))
            + u32 (var_yoffset (fb_var fb) * fix_line_length (fb_fix fb)))
       + u32 (var_yres (fb_var fb) * fix_line_length (fb_fix fb))).

Definition length_word (fb : ltdc_fb) : Z :=
  Z.lor (u32 (fix_line_length (fb_fix fb) + 3))
        (shl (fix_line_length (fb_fix fb)) 16).

(** The spec's pan address, [buffer.base + yoffset * stride], as a 32-bit
    word. *)
Definition pan_address (fb : ltdc_fb) : Z :=
  u32 (fix_smem_start (fb_fix fb)
       + var_yoffset (fb_var fb) * fix_line_length (fb_fix fb)).

(** The spec's [apply_mode]: [ltdcfb_set_par] for its effect. *)
Definition apply_mode (w : world) : world := snd (ltdcfb_set_par w).

(** The context once every acquisition of [ltdcfb_register] has succeeded
    (lines 265-359), given the register window and the buffer addresses. *)
Definition setup_context (p : platform) (r_start r_end base dma : Z)
    (fb : ltdc_fb) : ltdc_fb :=
  let fb := set_fix (set_mmio r_start (r_end - r_start + 1) (fb_fix fb)) fb in
  let fb := set_irq (ltdc_irq p) fb in
  let fb := set_error_irq (ltdc_error_irq p) fb in
  fill_context base dma (u32 (480 * 272 * 4)) fb.

(** ** The spec's timing formulas

    Written after section 4.2 of the spec, over unbounded integers; [|]
    binds looser than [<<], as in C. *)

Module TimingSpec.

Definition sync_size (m : fb_videomode) : Z :=
  Z.lor (vsync_len m - 1) (Z.shiftl (hsync_len m - 1) 16).

Definition back_porch (m : fb_videomode) : Z :=
  Z.lor (vsync_len m + upper_margin m - 1)
        (Z.shiftl (hsync_len m + left_margin m - 1) 16).

Definition active_width (m : fb_videomode) : Z :=
  Z.lor (vsync_len m + upper_margin m + yres m - 1)
        (Z.shiftl (hsync_len m + left_margin m + xres m - 1) 16).

Definition total_width (m : fb_videomode) : Z :=
  Z.lor (vsync_len m + upper_margin m + yres m + lower_margin m - 1)
        (Z.shiftl
           (hsync_len m + left_margin m + xres m + right_margin m - 1) 16).

(** The same two sums with the active area fixed at 480 by 272. *)
Definition active_width_480x272 (m : fb_videomode) : Z :=
  Z.lor (vsync_len m + upper_margin m + 272 - 1)
        (Z.shiftl (hsync_len m + left_margin m + 480 - 1) 16).

Definition total_width_480x272 (m : fb_videomode) : Z :=
  Z.lor (vsync_len m + upper_margin m + 272 + lower_margin m - 1)
        (Z.shiftl
           (hsync_len m + left_margin m + 480 + right_margin m - 1) 16).

End TimingSpec.

(** The report of line 279. *)
Definition lookup_error : event := Pr_err "error looking up IRQs for device".

(** ** Resources held, read off the log *)

Inductive resource :=
| R_clk
| R_clk_prepared
| R_regs
| R_irq (n : Z)
| R_buffer
| R_cmap
| R_framebuffer.

#[global] Instance resource_eq_dec : EqDecision resource.
Proof. solve_decision. Defined.

(** What a successful call hands to the driver.  [clk_prepare_enable]
    does two things, it prepares the clock and it enables it; the resource
    [R_clk_prepared] is the preparation.  The enable is followed apart, by
    [clk_enable_count] below. *)
Definition acquired (e : event) : option resource :=
  match e with
  | Devm_clk_get ptr => if IS_ERR ptr then None else Some R_clk
  | Clk_prepare_enable ret => if ret =? 0 then Some R_clk_prepared else None
  | Ioremap true => Some R_regs
  | Request_irq n ret => if ret <? 0 then None else Some (R_irq n)
  | Dma_alloc_wc _ true => Some R_buffer
  | Fb_alloc_cmap ret => if ret =? 0 then Some R_cmap else None
  | Register_framebuffer ret => if ret =? 0 then Some R_framebuffer else None
  | _ => None
  end.

(** What a call gives back.  [clk_unprepare] undoes the preparation and
    nothing else: it does not disable the clock. *)
Definition released (e : event) : option resource :=
  match e with
  | Clk_put => Some R_clk
  | Clk_unprepare => Some R_clk_prepared
  | Iounmap => Some R_regs
  | Dma_free_wc _ => Some R_buffer
  | Fb_dealloc_cmap => Some R_cmap
  | _ => None
  end.

Definition drop (r : resource) (h : list resource) : list resource :=
  filter (fun r' => r' <> r) h.

Definition step_held (h : list resource) (e : event) : list resource :=
  match acquired e, released e with
  | Some r, _ => r :: h
  | None, Some r => drop r h
  | None, None => h
  end.

(** Resources still held after a log, most recent first. *)
Definition held (l : list event) : list resource := fold_left step_held l [].

(** The releases of a log, in the order they happen. *)
Definition releases (l : list event) : list resource :=
  omap released l.

(** The acquisitions of a log, in the order they happen. *)
Definition acquisitions (l : list event) : list resource :=
  omap acquired l.

(** The clock's enable count after a log.  A successful
    [clk_prepare_enable] raises it; the driver calls neither [clk_disable]
    nor [clk_disable_unprepare], so none of its events lowers it. *)
Definition enables_clock (e : event) : bool :=
  match e with
  | Clk_prepare_enable ret => ret =? 0
  | _ => false
  end.

Fixpoint clk_enable_count (l : list event) : nat :=
  match l with
  | [] => O
  | e :: l => ((if enables_clock e then 1 else 0) + clk_enable_count l)%nat
  end.

(** ** The fbdev core between two [ltdcfb_set_par] calls *)


(** The same platform with other results for the two interrupt look-ups. *)
Definition with_irqs (a b : Z) (p : platform) : platform :=
  {| devm_clk_get := devm_clk_get p;
     clk_prepare_enable := clk_prepare_enable p;
     platform_get_resource := platform_get_resource p;
     ioremap := ioremap p; ltdc_irq := a; ltdc_error_irq := b;
     request_irq := request_irq p;
     request_error_irq := request_error_irq p;
     dma_alloc_wc := dma_alloc_wc p; fb_alloc_cmap := fb_alloc_cmap p;
     register_framebuffer := register_framebuffer p |}.

(** ** Concrete inputs used by the examples *)

Module Inputs.

Import Resolver.

(** The 480x272 panel of the spec's worked scenario, 9 MHz pixel clock. *)
Definition mode_480x272 : fb_videomode :=
  {| name := "480x272@60"; refresh := 60; xres := 480; yres := 272;
     pixclock := 111111; left_margin := 13; right_margin := 32;
     upper_margin := 2; lower_margin := 2; hsync_len := 41;
     vsync_len := 10; sync := 0; vmode := 0 |}.

(** An 800x480 panel, 33.3 MHz pixel clock. *)
Definition mode_800x480 : fb_videomode :=
  {| name := "800x480@60"; refresh := 60; xres := 800; yres := 480;
     pixclock := 30030; left_margin := 46; right_margin := 210;
     upper_margin := 23; lower_margin := 22; hsync_len := 1;
     vsync_len := 1; sync := 0; vmode := 0 |}.

Definition dt_with (m : fb_videomode) (bw : option Z) : dt_node :=
  {| panel_kzalloc := true; next_endpoint := true;
     remote_port_parent :=
       Some {| compatible_panel_dpi := true; panel_timing := inr m |};
     name_kzalloc := true; max_memory_bandwidth := bw |}.

Definition panel_of (m : fb_videomode) (depth : Z) : ltdc_panel :=
  {| mode := m; width := -1; height := -1; bpp := depth;
     fixedtimings := 0; grayscale := 0 |}.

(** A platform on which every request succeeds. *)
Definition good_platform : platform :=
  {| devm_clk_get := 0x20001000; clk_prepare_enable := 0;
     platform_get_resource := Some (0x40016800, 0x40016bff);
     ioremap := true; ltdc_irq := 88; ltdc_error_irq := 89;
     request_irq := 0; request_error_irq := 0;
     dma_alloc_wc := Some (0xc0000000, 0xc0000000);
     fb_alloc_cmap := 0; register_framebuffer := 0 |}.

(** The same platform, except that attaching the line interrupt fails
    with [-EBUSY]. *)
Definition irq_busy_platform : platform :=
  {| devm_clk_get := 0x20001000; clk_prepare_enable := 0;
     platform_get_resource := Some (0x40016800, 0x40016bff);
     ioremap := true; ltdc_irq := 88; ltdc_error_irq := 89;
     request_irq := -16; request_error_irq := 0;
     dma_alloc_wc := Some (0xc0000000, 0xc0000000);
     fb_alloc_cmap := 0; register_framebuffer := 0 |}.

(** The same platform, except that both interrupt look-ups fail with
    [-ENXIO]. *)
Definition no_irq_platform : platform :=
  {| devm_clk_get := 0x20001000; clk_prepare_enable := 0;
     platform_get_resource := Some (0x40016800, 0x40016bff);
     ioremap := true; ltdc_irq := -6; ltdc_error_irq := -6;
     request_irq := 0; request_error_irq := 0;
     dma_alloc_wc := Some (0xc0000000, 0xc0000000);
     fb_alloc_cmap := 0; register_framebuffer := 0 |}.

(** The same platform, except that the line look-up fails with [-ENXIO]
    and the error look-up with [-ENODEV]. *)
Definition lost_irq_platform : platform :=
  {| devm_clk_get := 0x20001000; clk_prepare_enable := 0;
     platform_get_resource := Some (0x40016800, 0x40016bff);
     ioremap := true; ltdc_irq := -6; ltdc_error_irq := -19;
     request_irq := 0; request_error_irq := 0;
     dma_alloc_wc := Some (0xc0000000, 0xc0000000);
     fb_alloc_cmap := 0; register_framebuffer := 0 |}.

Definition fresh_world (p : ltdc_panel) : world :=
  {| ctx := probed_fb p; mmio := ∅; log := [] |}.

End Inputs.

(** * The rest of the driver *)

(** ** Reading packed register words *)

(** The two 16-bit halves of a register word: the vertical count (or the
    line length) sits in the low half, the horizontal count (or the pitch)
    in the high half. *)
Definition lo16 (x : Z) : Z := Z.land x 0xffff.
Definition hi16 (x : Z) : Z := Z.shiftr x 16.

(** The register offsets written by a log, in the order of the writes. *)
Definition write_offsets (l : list event) : list Z :=
  omap (fun e => match e with Writel _ off => Some off | _ => None end) l.

(** The order in which lines 366-388 program the controller. *)
Definition programming_order : list Z :=
  [LTDC_IER; LTDC_SSCR; LTDC_BPCR; LTDC_AWCR; LTDC_TWCR; LTDC_GCR;
   LTDC_L1CR; LTDC_L1CFBAR; LTDC_L1CFBLR; LTDC_L1PFCR].

(** ** The remaining frame-buffer operations *)

(** Lines 182-187. *)
Definition ltdcfb_setcolreg (regno red green blue transp : Z) (w : world)
  : Z * world :=
  (- EINVAL, w).

(** Lines 189-199: the body is commented out. *)
Definition ltdcfb_blank (blank_mode : Z) (w : world) : Z * world := (0, w).

(** ** What a run of [ltdcfb_register] depends on *)

(** Every request of [ltdcfb_register] whose failure the function checks
    for is granted.  The two interrupt look-ups are not among them. *)
Definition all_granted (p : platform) : Prop :=
  IS_ERR (devm_clk_get p) = false
  /\ clk_prepare_enable p = 0
  /\ is_Some (platform_get_resource p)
  /\ ioremap p = true
  /\ 0 <= request_irq p
  /\ 0 <= request_error_irq p
  /\ is_Some (dma_alloc_wc p)
  /\ fb_alloc_cmap p = 0
  /\ register_framebuffer p = 0.

(** The same device-tree node with another "max-memory-bandwidth". *)
Definition with_bandwidth (bw : option Z) (dt : Resolver.dt_node)
  : Resolver.dt_node :=
  {| Resolver.panel_kzalloc := Resolver.panel_kzalloc dt;
     Resolver.next_endpoint := Resolver.next_endpoint dt;
     Resolver.remote_port_parent := Resolver.remote_port_parent dt;
     Resolver.name_kzalloc := Resolver.name_kzalloc dt;
     Resolver.max_memory_bandwidth := bw |}.

(** ** Probe, remove and mmap *)

(** Calls made outside [ltdcfb_register] and the layer operations, next to
    the events of the driver proper. *)
Inductive sys_event :=
| Drv (e : event)
| Dma_set_mask_and_coherent (ret : Z)
| Kzalloc_fb (ok : bool)
| Kfree_fb
| Dev_set_drvdata
| Unregister_framebuffer
| Dma_mmap_wc (cpu_addr dma_addr size ret : Z).

(** The device as the platform-driver entry points see it: the context
    behind the driver data, the register file and everything that has been
    called so far (oldest first). *)
Record sys := {
  sys_ctx : ltdc_fb;
  regs    : gmap Z Z;
  trace   : list sys_event
}.

Definition sys_emit (e : sys_event) (s : sys) : sys :=
  {| sys_ctx := sys_ctx s; regs := regs s; trace := trace s ++ [e] |}.

Definition set_sys_ctx (fb : ltdc_fb) (s : sys) : sys :=
  {| sys_ctx := fb; regs := regs s; trace := trace s |}.

(** Runs an operation of the driver on the context and the registers and
    appends the events it logs to the trace. *)
Definition in_driver (f : world -> Z * world) (s : sys) : Z * sys :=
  let '(ret, w) := f {| ctx := sys_ctx s; mmio := regs s; log := [] |} in
  (ret,
   {| sys_ctx := ctx w; regs := mmio w;
      trace := trace s ++ map Drv (log w) |}).

(** What the platform answers to [ltdcfb_probe] before registration. *)
Record probe_platform := {
  dma_set_mask_and_coherent : Z;
  fb_kzalloc                : bool;
  of_node                   : option Resolver.dt_node;
  bus                       : platform
}.

(** Lines 514-556.  [fb->panel] is what [ltdcfb_of_init] left there, an
    all-zero structure standing for the pointer when it left none. *)
Definition ltdcfb_probe (pp : probe_platform) (s : sys) : Z * sys :=
  let ret := dma_set_mask_and_coherent pp in
  let s := sys_emit (Dma_set_mask_and_coherent ret) s in
  if negb (ret =? 0) then (ret, s) else
  let s := sys_emit (Kzalloc_fb (fb_kzalloc pp)) s in
  if negb (fb_kzalloc pp) then
    (- ENOMEM,
     sys_emit (Drv (Dev_err "could not allocate new fb context")) s)
  else
  let s := set_sys_ctx (probed_fb zero_panel) s in
  match of_node pp with
  | None =>
      (- ENODEV, sys_emit (Drv (Dev_err "could not find OF node")) s)
  | Some dt =>
  let '(ret, pn) := Resolver.ltdcfb_of_init dt in
  let s := set_sys_ctx (set_panel (default zero_panel pn) (sys_ctx s)) s in
  if negb (ret =? 0) then
    (- ENODEV,
     sys_emit (Drv (Dev_err "could not initialize OF configuration")) s)
  else
  let '(ret, s) := in_driver (ltdcfb_register (bus pp)) s in
  if ret =? 0 then (ret, sys_emit Dev_set_drvdata s) else
  let s := sys_emit (Drv (Dev_err "failed probing Framebuffer device")) s in
  let s := sys_emit Kfree_fb s in
  (ret, s)
  end.

(** Lines 558-576.  [cmap_len] is [fb->fb.cmap.len], a member the fbdev
    core maintains. *)
Definition ltdcfb_remove (cmap_len : Z) (s : sys) : Z * sys :=
  let '(_, s) := in_driver (fun w => (0, ltdcfb_disable w)) s in
  let s := sys_emit Unregister_framebuffer s in
  let s :=
    if negb (cmap_len =? 0) then sys_emit (Drv Fb_dealloc_cmap) s else s in
  let s :=
    if negb (screen_base (sys_ctx s) =? 0)
    then sys_emit (Drv (Dma_free_wc (fix_smem_len (fb_fix (sys_ctx s))))) s
    else s in
  let s := sys_emit (Drv Iounmap) s in
  let s := sys_emit (Drv Clk_unprepare) s in
  let s := sys_emit (Drv Clk_put) s in
  let s := sys_emit Kfree_fb s in
  (0, s).

(** [struct vm_area_struct], the members [ltdcfb_mmap] reads; all three
    are [unsigned long]. *)
Record vm_area_struct := {
  vm_start : Z;
  vm_end   : Z;
  vm_pgoff : Z
}.

(** Lines 201-215.  [PAGE_SHIFT] comes from [asm/page.h], which is not
    among the sources, and is a parameter; [dma_mmap_wc_ret] is what
    [dma_mmap_wc] answers when it is called. *)
Definition ltdcfb_mmap (PAGE_SHIFT dma_mmap_wc_ret : Z)
    (vma : vm_area_struct) (s : sys) : Z * sys :=
  let fb := sys_ctx s in
  let off := shl (vm_pgoff vma) PAGE_SHIFT in
  let ret := - EINVAL in
  let len := u32 (fix_smem_len (fb_fix fb)) in
  if (off <=? len) && (u32 (vm_end vma - vm_start vma) <=? u32 (len - off))
  then
    let ret := dma_mmap_wc_ret in
    (ret,
     sys_emit (Dma_mmap_wc (screen_base fb)
                           (u32 (fix_smem_start (fb_fix fb) + off))
                           (u32 (len - off)) ret) s)
  else (ret, s).

(** *** Resources at this level *)

Inductive sys_resource :=
| Res (r : resource)
| R_context.

#[global] Instance sys_resource_eq_dec : EqDecision sys_resource.
Proof. solve_decision. Defined.

Definition sys_acquired (e : sys_event) : option sys_resource :=
  match e with
  | Drv e => Res <$> acquired e
  | Kzalloc_fb true => Some R_context
  | _ => None
  end.

Definition sys_released (e : sys_event) : option sys_resource :=
  match e with
  | Drv e => Res <$> released e
  | Kfree_fb => Some R_context
  | Unregister_framebuffer => Some (Res R_framebuffer)
  | _ => None
  end.

Definition sys_drop (r : sys_resource) (h : list sys_resource)
  : list sys_resource :=
  filter (fun r' => r' <> r) h.

Definition sys_step (h : list sys_resource) (e : sys_event)
  : list sys_resource :=
  match sys_acquired e, sys_released e with
  | Some r, _ => r :: h
  | None, Some r => sys_drop r h
  | None, None => h
  end.

(** Resources still held after a trace, most recent first. *)
Definition sys_held (t : list sys_event) : list sys_resource :=
  fold_left sys_step t [].

(** The releases of a trace, in the order they happen. *)
Definition sys_releases (t : list sys_event) : list sys_resource :=
  omap sys_released t.

(** The acquisitions of a trace, in the order they happen. *)
Definition sys_acquisitions (t : list sys_event) : list sys_resource :=
  omap sys_acquired t.

(** The events of the driver proper within a trace, and the clock's
    enable count after it: none of the calls made outside the driver
    proper touches the clock. *)
Definition driver_events (t : list sys_event) : list event :=
  omap (fun e => match e with Drv e => Some e | _ => None end) t.

Definition sys_clk_enable_count (t : list sys_event) : nat :=
  clk_enable_count (driver_events t).

(** A device nothing has been called on yet. *)
Definition cold (r : gmap Z Z) : sys :=
  {| sys_ctx := probed_fb zero_panel; regs := r; trace := [] |}.

Module MoreInputs.

Import Inputs.

Definition good_probe_platform : probe_platform :=
  {| dma_set_mask_and_coherent := 0; fb_kzalloc := true;
     of_node := Some (dt_with mode_480x272 None);
     bus := good_platform |}.

(** The device tree names a panel that is not "panel-dpi". *)
Definition wrong_panel_platform : probe_platform :=
  {| dma_set_mask_and_coherent := 0; fb_kzalloc := true;
     of_node :=
       Some {| Resolver.panel_kzalloc := true;
               Resolver.next_endpoint := true;
               Resolver.remote_port_parent :=
                 Some {| Resolver.compatible_panel_dpi := false;
                         Resolver.panel_timing := inr mode_480x272 |};
               Resolver.name_kzalloc := true;
               Resolver.max_memory_bandwidth := None |};
     bus := good_platform |}.

Definition irq_busy_probe_platform : probe_platform :=
  {| dma_set_mask_and_coherent := 0; fb_kzalloc := true;
     of_node := Some (dt_with mode_480x272 None);
     bus := irq_busy_platform |}.

End MoreInputs.

(** The world [ltdcfb_probe] hands to [ltdcfb_register]: the context fresh
    from [kzalloc] with the panel of [ltdcfb_of_init], the registers as
    they are, nothing logged. *)
Definition probe_world (pn : option ltdc_panel) (r : gmap Z Z) : world :=
  {| ctx := set_panel (default zero_panel pn) (probed_fb zero_panel);
     mmio := r; log := [] |}.

(** A 32-bit read of a register of the device. *)
Definition sys_peek (off : Z) (s : sys) : Z := u32 (default 0 (regs s !! off)).

(** * The Ethernet glue: [dwmac-stm32.c] *)

Module Dwmac.

(** Line 30. *)
Definition MII_PHY_SEL_MASK : Z := Z.shiftl 1 23.

(** Reading a [u32] through an [s32] member. *)
Definition s32 (x : Z) : Z :=
  if u32 x <? 2147483648 then u32 x else u32 x - modulus.

(** [struct stm32_priv_data] (lines 32-38); the clocks and the regmap are
    pointers read as [long]. *)
Record stm32_priv_data := {
  tx_clk  : Z;
  rx_clk  : Z;
  regmap  : Z;
  phy_sel : Z
}.

(** [struct plat_stmmacenet_data], the members the glue reads:
    whether [interface] is [PHY_INTERFACE_MODE_MII], and [bsp_priv]. *)
Record plat_stmmacenet_data := {
  interface_is_mii : bool;
  bsp_priv         : stm32_priv_data
}.

Inductive call :=
| Stmmac_get_platform_resources (ret : Z)
| Stmmac_probe_config_dt (ptr : Z)
| Devm_kzalloc (ok : bool)
| Clk_get (nm : string) (ptr : Z)
| Syscon_regmap_lookup (ptr : Z)
| Of_property_read_u32_index (ret : Z)
| Dev_error (msg : string)
| Clk_prepare_enable (clk : Z)
| Clk_disable_unprepare (clk : Z)
| Stmmac_dvr_probe (ret : Z).

(** Lines 40-54.  The register update of line 47 is commented out, so
    [val] is computed and dropped; the results of [clk_prepare_enable] are
    not looked at. *)
Definition stm32_dwmac_init (plat_dat : plat_stmmacenet_data)
    (t : list call) : Z * list call :=
  let dwmac := bsp_priv plat_dat in
  let val :=
    if 0 <? phy_sel dwmac
    then (if interface_is_mii plat_dat then 0 else 1)
    else 0 in
  let t := t ++ [Clk_prepare_enable (tx_clk dwmac)] in
  let t := t ++ [Clk_prepare_enable (rx_clk dwmac)] in
  (0, t).

(** Lines 56-62. *)
Definition stm32_dwmac_exit (plat_dat : plat_stmmacenet_data)
    (t : list call) : list call :=
  let dwmac := bsp_priv plat_dat in
  let t := t ++ [Clk_disable_unprepare (tx_clk dwmac)] in
  t ++ [Clk_disable_unprepare (rx_clk dwmac)].

(** What the platform answers to [stm32_dwmac_probe]. *)
Record answers := {
  get_platform_resources : Z;
  probe_config_dt        : Z;
  config_is_mii          : bool;
  dwmac_kzalloc          : bool;
  get_tx_clk             : Z;
  get_rx_clk             : Z;
  syscon_regmap          : Z;
  syscon_offset          : Z * Z;
  dvr_probe              : Z
}.

(** Lines 64-118.  [syscon_offset] is the return value of
    [of_property_read_u32_index] and the cell it read; the cell is stored
    only when the return value is 0.  The result carries the platform data
    once [bsp_priv] has been set (line 107). *)
Definition stm32_dwmac_probe (a : answers) (t : list call)
  : Z * option plat_stmmacenet_data * list call :=
  let ret := get_platform_resources a in
  let t := t ++ [Stmmac_get_platform_resources ret] in
  if negb (ret =? 0) then (ret, None, t) else
  let t := t ++ [Stmmac_probe_config_dt (probe_config_dt a)] in
  if IS_ERR (probe_config_dt a) then (PTR_ERR (probe_config_dt a), None, t)
  else
  let t := t ++ [Devm_kzalloc (dwmac_kzalloc a)] in
  if negb (dwmac_kzalloc a) then (- ENOMEM, None, t) else
  let t := t ++ [Clk_get "tx-clk" (get_tx_clk a)] in
  let t := t ++ [Clk_get "rx-clk" (get_rx_clk a)] in
  let dwmac :=
    {| tx_clk := get_tx_clk a; rx_clk := get_rx_clk a; regmap := 0;
       phy_sel := 0 |} in
  if IS_ERR (tx_clk dwmac) || IS_ERR (rx_clk dwmac) then
    (- ENODEV, None,
     t ++ [Dev_error "could not get stmmaceth/tx-clk/rx-clk clocks"])
  else
  let t := t ++ [Syscon_regmap_lookup (syscon_regmap a)] in
  let '(sel, t) :=
    if IS_ERR (syscon_regmap a) then
      (-1, t ++ [Dev_error "can't get MII syscon"])
    else
      let t := t ++ [Of_property_read_u32_index (fst (syscon_offset a))] in
      if negb (fst (syscon_offset a) =? 0)
      then (-1, t ++ [Dev_error "can't get MII syscon offset"])
      else (s32 (snd (syscon_offset a)), t) in
  let dwmac :=
    {| tx_clk := get_tx_clk a; rx_clk := get_rx_clk a;
       regmap := syscon_regmap a; phy_sel := sel |} in
  let plat_dat :=
    {| interface_is_mii := config_is_mii a; bsp_priv := dwmac |} in
  let '(ret, t) := stm32_dwmac_init plat_dat t in
  if negb (ret =? 0) then (ret, Some plat_dat, t) else
  let ret := dvr_probe a in
  let t := t ++ [Stmmac_dvr_probe ret] in
  let t := if negb (ret =? 0) then stm32_dwmac_exit plat_dat t else t in
  (ret, Some plat_dat, t).

(** The clocks a log enables, and those it disables, in order. *)
Definition enables (t : list call) : list Z :=
  omap (fun c => match c with Clk_prepare_enable k => Some k | _ => None end)
       t.

Definition disables (t : list call) : list Z :=
  omap (fun c => match c with Clk_disable_unprepare k => Some k | _ => None
                 end) t.

Definition good_answers : answers :=
  {| get_platform_resources := 0; probe_config_dt := 0x20002000;
     config_is_mii := false; dwmac_kzalloc := true;
     get_tx_clk := 0x20003000; get_rx_clk := 0x20003040;
     syscon_regmap := 0x20004000; syscon_offset := (0, 4);
     dvr_probe := 0 |}.

(** No syscon, and the MAC core refuses the device. *)
Definition refused_answers : answers :=
  {| get_platform_resources := 0; probe_config_dt := 0x20002000;
     config_is_mii := false; dwmac_kzalloc := true;
     get_tx_clk := 0x20003000; get_rx_clk := 0x20003040;
     syscon_regmap := -19; syscon_offset := (0, 4);
     dvr_probe := -22 |}.

End Dwmac.

(** * Properties *)

(** ** Facts about 32-bit arithmetic *)

Module U32Facts.

Lemma u32_range x : 0 <= u32 x < modulus.
Proof. unfold u32, modulus. apply Z.mod_pos_bound. lia. Qed.

Lemma u32_small x : 0 <= x < modulus -> u32 x = x.
Proof. intros H. unfold u32. now apply Z.mod_small. Qed.

Lemma u32_idem x : u32 (u32 x) = u32 x.
Proof. apply u32_small, u32_range. Qed.

Lemma u32_land_ones x : u32 x = Z.land x (Z.ones 32).
Proof. unfold u32, modulus. now rewrite Z.land_ones by lia. Qed.

Lemma u32_testbit x i :
  0 <= i -> Z.testbit (u32 x) i = (i <? 32) && Z.testbit x i.
Proof.
  intros Hi. unfold u32, modulus. change 4294967296 with (2 ^ 32).
  destruct (Z.ltb_spec i 32).
  - now rewrite Z.mod_pow2_bits_low by lia.
  - now rewrite Z.mod_pow2_bits_high by lia.
Qed.

Lemma ult_zero_r a : ult a 0 = false.
Proof.
  unfold ult. change (u32 0) with 0.
  apply Z.ltb_ge. apply u32_range.
Qed.

Lemma ugt_spec a b :
  0 <= a < modulus -> 0 <= b < modulus -> ugt a b = (b <? a).
Proof. intros Ha Hb. unfold ugt. now rewrite !u32_small. Qed.

Lemma u32_lor a b :
  0 <= a < modulus -> 0 <= b < modulus -> 0 <= Z.lor a b < modulus.
Proof.
  intros Ha Hb. rewrite <- (u32_small a), <- (u32_small b) by assumption.
  rewrite !u32_land_ones, <- Z.land_lor_distr_l, <- u32_land_ones.
  apply u32_range.
Qed.

End U32Facts.

Import U32Facts.

(** ** The panel mode resolver *)

Module ResolverFacts.

Import Resolver Inputs.

Lemma PICOS2KHZ_pos P : 0 < P <= 1000000000 -> 1 <= PICOS2KHZ P.
Proof.
  intros HP. unfold PICOS2KHZ.
  apply Z.div_le_lower_bound; lia.
Qed.

(** The code's rearranged quotient is the spec's quotient. *)
Lemma raw_rearranged B P :
  0 <= B < modulus -> 0 < P <= 1000000000 ->
  u32 (u32 (B / (1000 / 8)) / PICOS2KHZ P) = spec_bpp_raw B P.
Proof.
  intros HB HP. pose proof (PICOS2KHZ_pos P HP) as HK.
  unfold spec_bpp_raw. set (K := PICOS2KHZ P) in *.
  change (1000 / 8) with 125.
  assert (H125 : 0 <= B / 125 <= B).
  { split; [apply Z.div_pos; lia |].
    apply Z.div_le_upper_bound; lia. }
  unfold modulus in *.
  rewrite (u32_small (B / 125)) by (unfold modulus; lia).
  assert (HQ : 0 <= B / 125 / K <= B / 125).
  { split; [apply Z.div_pos; lia |].
    apply Z.div_le_upper_bound; nia. }
  rewrite u32_small by (unfold modulus; lia).
  rewrite Z.div_div by lia.
  replace (K * 1000) with (8 * (125 * K)) by lia.
  rewrite Z.div_mul_cancel_l by lia.
  reflexivity.
Qed.

Lemma raw_below_modulus B P :
  0 <= B < modulus -> 0 < P <= 1000000000 ->
  0 <= spec_bpp_raw B P < modulus.
Proof.
  intros HB HP. rewrite <- raw_rearranged by assumption. apply u32_range.
Qed.

(** For a non-zero 32-bit argument the macro is [2 ^ log2 n]. *)
Lemma rounddown_pow_of_two_log2 n :
  1 <= n < modulus -> rounddown_pow_of_two n = 2 ^ Z.log2 n.
Proof.
  intros Hn. unfold rounddown_pow_of_two, fls_long, shl.
  destruct (Z.eqb_spec n 0) as [-> | _]; [lia |].
  replace (Z.log2 n + 1 - 1) with (Z.log2 n) by lia.
  rewrite Z.shiftl_1_l.
  apply u32_small.
  pose proof (Z.log2_spec n ltac:(lia)) as [Hlo _].
  pose proof (Z.log2_nonneg n).
  assert (0 < 2 ^ Z.log2 n) by (apply Z.pow_pos_nonneg; lia).
  lia.
Qed.

(** The doubling search of the reference finds [2 ^ log2 n]. *)
Lemma spec_pow2_search_log2 fuel : forall k n,
  0 <= k -> 2 ^ k <= n < 2 ^ (k + Z.of_nat fuel) ->
  spec_pow2_search fuel (2 ^ k) n = 2 ^ Z.log2 n.
Proof.
  induction fuel as [| fuel IH]; intros k n Hk Hn.
  - replace (k + Z.of_nat 0) with k in Hn by lia. lia.
  - cbn [spec_pow2_search].
    assert (E : 2 * 2 ^ k = 2 ^ (k + 1)) by (rewrite Z.pow_add_r; lia).
    rewrite E.
    destruct (Z.leb_spec (2 ^ (k + 1)) n) as [Hle | Hlt].
    + apply IH; [lia |].
      replace (k + 1 + Z.of_nat fuel) with (k + Z.of_nat (S fuel)) by lia.
      lia.
    + f_equal. symmetry. apply Z.log2_unique; [lia |].
      replace (k + 1) with (Z.succ k) in Hlt by lia. lia.
Qed.

Lemma spec_round_down_pow2_log2 n :
  1 <= n < modulus -> spec_round_down_pow2 n = 2 ^ Z.log2 n.
Proof.
  intros Hn. unfold spec_round_down_pow2.
  change 1 with (2 ^ 0) at 1.
  apply spec_pow2_search_log2; [lia |].
  change (2 ^ 0) with 1. change (2 ^ (0 + Z.of_nat 64)) with (2 ^ 64).
  unfold modulus in Hn. lia.
Qed.

(** The reference rounding really is the largest power of two that does
    not exceed its argument. *)
Lemma spec_round_down_pow2_largest n :
  1 <= n < modulus ->
  spec_round_down_pow2 n <= n < 2 * spec_round_down_pow2 n
  /\ exists k, 0 <= k /\ spec_round_down_pow2 n = 2 ^ k.
Proof.
  intros Hn. rewrite spec_round_down_pow2_log2 by assumption.
  pose proof (Z.log2_spec n ltac:(lia)) as [Hlo Hhi].
  pose proof (Z.log2_nonneg n) as Hk.
  rewrite Z.pow_succ_r in Hhi by assumption.
  split; [lia |]. exists (Z.log2 n). split; [assumption | reflexivity].
Qed.

(** Lines 498-502 against the reference, wherever the raw value is one
    or more. *)
Lemma bpp_of_bandwidth_spec B P :
  0 <= B < modulus -> 0 < P <= 1000000000 -> 1 <= spec_bpp_raw B P ->
  bpp_of_bandwidth B P = spec_resolve_bpp B P
  /\ 1 <= bpp_of_bandwidth B P <= 32.
Proof.
  intros HB HP Hraw.
  pose proof (raw_below_modulus B P HB HP) as Hlt.
  unfold bpp_of_bandwidth, spec_resolve_bpp.
  rewrite raw_rearranged by assumption.
  set (n := spec_bpp_raw B P) in *.
  rewrite rounddown_pow_of_two_log2, spec_round_down_pow2_log2 by lia.
  pose proof (Z.log2_spec n ltac:(lia)) as [Hlo _].
  pose proof (Z.log2_nonneg n).
  assert (0 < 2 ^ Z.log2 n) by (apply Z.pow_pos_nonneg; lia).
  rewrite (u32_small (2 ^ Z.log2 n)) by lia.
  rewrite ugt_spec by (unfold modulus in *; lia).
  destruct (Z.ltb_spec 32 (2 ^ Z.log2 n)); lia.
Qed.

Lemma of_init_success dt pn :
  ltdcfb_of_init dt = (0, Some pn) ->
  bpp pn =
    match max_memory_bandwidth dt with
    | Some B => bpp_of_bandwidth B (pixclock (mode pn)) mod 256
    | None => 32
    end.
Proof.
  unfold ltdcfb_of_init.
  destruct (panel_kzalloc dt); cbn [negb]; [| discriminate].
  destruct (next_endpoint dt); cbn [negb]; [| discriminate].
  destruct (ltdcfb_of_get_mode dt (mode zero_panel)) as [err m].
  destruct (Z.eqb_spec err 0) as [-> | Hne]; cbn [negb].
  - intros [= <-]. cbn. now destruct (max_memory_bandwidth dt).
  - intros [= E _]. congruence.
Qed.

(** X23: where the raw depth is at least one, the depth [ltdcfb_of_init]
    stores is the reference value: given a bandwidth budget [B] (a [u32])
    and a pixel clock [P] with [0 < P <= 1000000000] and
    [1 <= floor(8B / (PICOS2KHZ(P) * 1000))], it is that quotient rounded
    down to a power of two and capped at 32; without a budget it is 32. *)
Theorem of_init_bpp_matches_reference dt pn :
  ltdcfb_of_init dt = (0, Some pn) ->
  (forall B,
      max_memory_bandwidth dt = Some B ->
      0 <= B < modulus ->
      0 < pixclock (mode pn) <= 1000000000 ->
      1 <= spec_bpp_raw B (pixclock (mode pn)) ->
      bpp pn = spec_resolve_bpp B (pixclock (mode pn)))
  /\ (max_memory_bandwidth dt = None -> bpp pn = 32).
Proof.
  intros Hinit. apply of_init_success in Hinit. split.
  - intros B HB Hrange HP Hraw. rewrite HB in Hinit.
    destruct (bpp_of_bandwidth_spec B _ Hrange HP Hraw) as [Heq Hb].
    rewrite Hinit, <- Heq. apply Z.mod_small. lia.
  - intros Hnone. now rewrite Hnone in Hinit.
Qed.

Lemma of_init_bpp_matches_reference_witness :
  ltdcfb_of_init (dt_with mode_480x272 (Some 18000000))
  = (0, Some (panel_of mode_480x272 16))
  /\ bpp (panel_of mode_480x272 16)
     = spec_resolve_bpp 18000000 (pixclock mode_480x272)
  /\ ltdcfb_of_init (dt_with mode_480x272 None)
     = (0, Some (panel_of mode_480x272 32))
  /\ bpp (panel_of mode_480x272 32) = 32.
Proof.
  split; [reflexivity |]. split; [| split; [reflexivity |]].
  - apply (proj1 (of_init_bpp_matches_reference
                    (dt_with mode_480x272 (Some 18000000))
                    (panel_of mode_480x272 16) eq_refl)
             18000000); vm_compute; intuition congruence.
  - apply (proj2 (of_init_bpp_matches_reference
                    (dt_with mode_480x272 None)
                    (panel_of mode_480x272 32) eq_refl)).
    reflexivity.
Defined.

(** C1, where the code departs from it.  The 480x272 panel (pixel clock
    111111 ps, 9000 kHz) with a budget of 1000 bytes per second: the raw
    depth of line 498 is 0, so line 500 hands 0 to [rounddown_pow_of_two],
    whose shift count is then -1; nothing checks the outcome, and
    [ltdcfb_of_init] returns 0 with depth 0 stored.  That is no power of
    two, and not the reference value, which is 1 when the rounding of the
    spec is applied to 0 and a power of two between 1 and 32 in any
    case. *)
Theorem of_init_stores_zero_depth :
  let dt := dt_with mode_480x272 (Some 1000) in
  max_memory_bandwidth dt = Some 1000
  /\ pixclock mode_480x272 = 111111
  /\ PICOS2KHZ (pixclock mode_480x272) = 9000
  /\ u32 (u32 (1000 / (1000 / 8)) / PICOS2KHZ (pixclock mode_480x272)) = 0
  /\ spec_bpp_raw 1000 (pixclock mode_480x272) = 0
  /\ fls_long 0 - 1 = -1
  /\ bpp_of_bandwidth 1000 (pixclock mode_480x272) = 0
  /\ ltdcfb_of_init dt = (0, Some (panel_of mode_480x272 0))
  /\ spec_resolve_bpp 1000 (pixclock mode_480x272) = 1
  /\ (forall k, 0 <= k -> bpp (panel_of mode_480x272 0) <> 2 ^ k).
Proof.
  cbn zeta. do 9 (split; [vm_compute; reflexivity |]).
  intros k Hk. change (bpp (panel_of mode_480x272 0)) with 0.
  pose proof (Z.pow_pos_nonneg 2 k ltac:(lia) Hk). lia.
Qed.

(** C2, as stated, fails: with a budget of 0 bytes per second the raw
    depth is 0, yet [ltdcfb_of_init] reports success. *)
Lemma zero_budget_is_accepted :
  spec_bpp_raw 0 (pixclock mode_480x272) < 1
  /\ max_memory_bandwidth (dt_with mode_480x272 (Some 0)) = Some 0
  /\ fst (ltdcfb_of_init (dt_with mode_480x272 (Some 0))) = 0.
Proof. vm_compute. repeat split; congruence. Qed.

(** C2, amended: a budget whose raw depth is below one is not rejected.
    Once the panel and its mode have been read, [ltdcfb_of_init] returns
    0 for such a budget just as for any other. *)
Theorem of_init_accepts_small_budget dt m B :
  panel_kzalloc dt = true ->
  next_endpoint dt = true ->
  ltdcfb_of_get_mode dt zero_mode = (0, m) ->
  max_memory_bandwidth dt = Some B ->
  0 <= B < modulus ->
  0 < pixclock m <= 1000000000 ->
  spec_bpp_raw B (pixclock m) < 1 ->
  fst (ltdcfb_of_init dt) = 0
  /\ exists pn, snd (ltdcfb_of_init dt) = Some pn /\ mode pn = m.
Proof.
  intros Hk He Hm HB _ _ _. unfold ltdcfb_of_init.
  rewrite Hk, He. cbn [negb zero_panel mode]. rewrite Hm. cbn [negb Z.eqb].
  rewrite HB. split; [reflexivity |]. eexists. split; reflexivity.
Qed.

Lemma of_init_accepts_small_budget_witness :
  fst (ltdcfb_of_init (dt_with mode_480x272 (Some 1000))) = 0
  /\ exists pn,
       snd (ltdcfb_of_init (dt_with mode_480x272 (Some 1000))) = Some pn
       /\ mode pn = mode_480x272.
Proof.
  apply (of_init_accepts_small_budget
           (dt_with mode_480x272 (Some 1000)) mode_480x272 1000);
    vm_compute; intuition congruence.
Defined.

End ResolverFacts.

(** ** How the operations act on the three parts of the world *)

Module WorldFacts.

Lemma ctx_emit e w : ctx (emit e w) = ctx w.
Proof. reflexivity. Qed.
Lemma mmio_emit e w : mmio (emit e w) = mmio w.
Proof. reflexivity. Qed.
Lemma log_emit e w : log (emit e w) = log w ++ [e].
Proof. reflexivity. Qed.

Lemma ctx_update f w : ctx (update f w) = f (ctx w).
Proof. reflexivity. Qed.
Lemma mmio_update f w : mmio (update f w) = mmio w.
Proof. reflexivity. Qed.
Lemma log_update f w : log (update f w) = log w.
Proof. reflexivity. Qed.

Lemma ctx_writel v off w : ctx (writel v off w) = ctx w.
Proof. reflexivity. Qed.
Lemma mmio_writel v off w :
  mmio (writel v off w) = <[off := u32 v]> (mmio w).
Proof. reflexivity. Qed.
Lemma log_writel v off w :
  log (writel v off w) = log w ++ [Writel (u32 v) off].
Proof. reflexivity. Qed.

Lemma peek_writel_eq v off w : peek off (writel v off w) = u32 v.
Proof.
  unfold peek. rewrite mmio_writel, lookup_insert_eq. cbn.
  apply U32Facts.u32_idem.
Qed.

Lemma peek_writel_ne v off off' w :
  off <> off' -> peek off' (writel v off w) = peek off' w.
Proof.
  intros Hne. unfold peek. now rewrite mmio_writel, lookup_insert_ne.
Qed.

Lemma peek_emit e off w : peek off (emit e w) = peek off w.
Proof. reflexivity. Qed.

Lemma peek_range off w : 0 <= peek off w < modulus.
Proof. apply U32Facts.u32_range. Qed.

Lemma ctx_enable w : ctx (ltdcfb_enable w) = ctx w.
Proof. reflexivity. Qed.
Lemma ctx_disable w : ctx (ltdcfb_disable w) = ctx w.
Proof. reflexivity. Qed.
Lemma ctx_set_start w : ctx (ltdcfb_set_start w) = ctx w.
Proof. reflexivity. Qed.
Lemma ctx_program_controller w : ctx (program_controller w) = ctx w.
Proof. reflexivity. Qed.

Lemma mmio_enable w :
  mmio (ltdcfb_enable w)
  = <[LTDC_L1CR := u32 (Z.lor (peek LTDC_L1CR w) CNTL_LCDEN)]> (mmio w).
Proof. reflexivity. Qed.

Lemma mmio_disable w :
  mmio (ltdcfb_disable w)
  = <[LTDC_L1CR :=
        u32 (Z.land (peek LTDC_L1CR w) (u32 (Z.lnot CNTL_LCDEN)))]> (mmio w).
Proof. reflexivity. Qed.

Lemma log_set_start w :
  log (ltdcfb_set_start w)
  = log w ++ [Writel (u32 (start_address (ctx w))) LTDC_L1CFBAR;
              Writel (u32 (length_word (ctx w))) LTDC_L1CFBLR;
              Writel (u32 LTDC_ARGB) LTDC_L1PFCR].
Proof.
  unfold ltdcfb_set_start. rewrite !log_writel, <- !app_assoc. reflexivity.
Qed.

Lemma mmio_set_start w :
  mmio (ltdcfb_set_start w)
  = <[LTDC_L1PFCR := u32 LTDC_ARGB]>
      (<[LTDC_L1CFBLR := u32 (length_word (ctx w))]>
         (<[LTDC_L1CFBAR := u32 (start_address (ctx w))]> (mmio w))).
Proof. reflexivity. Qed.

Lemma log_program_controller w :
  log (program_controller w)
  = log w ++
    [Writel (u32 0xf) LTDC_IER;
     Writel (u32 (sscr_value (mode (panel (ctx w))))) LTDC_SSCR;
     Writel (u32 (bpcr_value (mode (panel (ctx w))))) LTDC_BPCR;
     Writel (u32 (awcr_value (mode (panel (ctx w))))) LTDC_AWCR;
     Writel (u32 (twcr_value (mode (panel (ctx w))))) LTDC_TWCR;
     Writel (u32 1) LTDC_GCR;
     Readl LTDC_L1CR (peek LTDC_L1CR w);
     Writel (u32 (Z.lor (peek LTDC_L1CR w) CNTL_LCDEN)) LTDC_L1CR;
     Fb_set_var;
     Writel (u32 (start_address (ctx w))) LTDC_L1CFBAR;
     Writel (u32 (length_word (ctx w))) LTDC_L1CFBLR;
     Writel (u32 LTDC_ARGB) LTDC_L1PFCR].
Proof.
  unfold program_controller. rewrite log_set_start.
  unfold ltdcfb_enable, readl.
  cbn [log emit writel ctx]. rewrite <- !app_assoc.
  rewrite !peek_writel_ne by (vm_compute; discriminate).
  reflexivity.
Qed.

(** The timing registers after [program_controller]. *)
Lemma program_controller_timing w :
  let m := mode (panel (ctx w)) in
  mmio (program_controller w) !! LTDC_SSCR = Some (u32 (sscr_value m))
  /\ mmio (program_controller w) !! LTDC_BPCR = Some (u32 (bpcr_value m))
  /\ mmio (program_controller w) !! LTDC_AWCR = Some (u32 (awcr_value m))
  /\ mmio (program_controller w) !! LTDC_TWCR = Some (u32 (twcr_value m)).
Proof.
  intros m. unfold program_controller.
  rewrite mmio_set_start, mmio_emit, mmio_enable, !mmio_writel.
  cbn [ctx writel]. fold m.
  repeat split;
    repeat (rewrite lookup_insert_ne by (vm_compute; discriminate));
    apply lookup_insert_eq.
Qed.

End WorldFacts.

(** ** Registration *)

Module RegisterFacts.

Import WorldFacts.

Lemma IS_ERR_zero ptr : IS_ERR ptr = true -> ptr <> 0.
Proof. unfold IS_ERR. intros H ->. cbn in H. discriminate. Qed.

(** A registration that returns 0 went through every step: the world is
    the one [program_controller] leaves, plus two log entries. *)
Lemma register_success p w w' :
  ltdcfb_register p w = (0, w') ->
  exists r_start r_end base dma w0,
    platform_get_resource p = Some (r_start, r_end)
    /\ dma_alloc_wc p = Some (base, dma)
    /\ ctx w0 = setup_context p r_start r_end base dma (ctx w)
    /\ mmio w0 = mmio w
    /\ w' = emit (Register_framebuffer 0)
                 (emit (Dev_info "display") (program_controller w0)).
Proof.
  unfold ltdcfb_register, unmap, clk_unprep, free_clk, out, PTR_ERR.
  destruct (IS_ERR (devm_clk_get p)) eqn:Hclk.
  { intros [= E _]. now apply IS_ERR_zero in Hclk. }
  destruct (Z.eqb_spec (clk_prepare_enable p) 0) as [Hprep | Hprep];
    cbn [negb]; [| intros [= E _]; contradiction].
  destruct (platform_get_resource p) as [[r_start r_end] |];
    [| intros [= E _]; discriminate].
  destruct (ioremap p); cbn [negb]; [| intros [= E _]; discriminate].
  rewrite !U32Facts.ult_zero_r. cbn [orb].
  destruct (request_irq p <? 0); [intros [= E _]; discriminate |].
  destruct (request_error_irq p <? 0); [intros [= E _]; discriminate |].
  destruct (dma_alloc_wc p) as [[base dma] |];
    [| intros [= E _]; discriminate].
  destruct (Z.eqb_spec (fb_alloc_cmap p) 0) as [Hcmap | Hcmap];
    cbn [negb]; [| intros [= E _]; contradiction].
  destruct (Z.eqb_spec (register_framebuffer p) 0) as [Hreg | Hreg];
    [| intros [= E _]; contradiction].
  intros [= E <-]. rewrite Hreg.
  exists r_start, r_end, base, dma. eexists.
  refine (conj eq_refl (conj eq_refl (conj _ (conj _ eq_refl))));
    reflexivity.
Qed.

Lemma setup_context_mode p r_start r_end base dma fb :
  mode (panel (setup_context p r_start r_end base dma fb))
  = mode (panel fb).
Proof. reflexivity. Qed.

Lemma register_success_timing p w w' :
  ltdcfb_register p w = (0, w') ->
  let m := mode (panel (ctx w)) in
  mmio w' !! LTDC_SSCR = Some (u32 (sscr_value m))
  /\ mmio w' !! LTDC_BPCR = Some (u32 (bpcr_value m))
  /\ mmio w' !! LTDC_AWCR = Some (u32 (awcr_value m))
  /\ mmio w' !! LTDC_TWCR = Some (u32 (twcr_value m)).
Proof.
  intros Hreg m.
  destruct (register_success p w w' Hreg)
    as (r_start & r_end & base & dma & w0 & _ & _ & Hctx & _ & ->).
  rewrite !mmio_emit.
  pose proof (program_controller_timing w0) as H. cbn zeta in H.
  rewrite Hctx, setup_context_mode in H. exact H.
Qed.

End RegisterFacts.

(** ** The timing registers *)

Module TimingFacts.

Import WorldFacts RegisterFacts Inputs.

(** Packing two [u32] halves and truncating is truncating the packed
    unbounded value: the intermediate wrap-arounds are invisible. *)
Lemma pack_wrap a b :
  u32 (Z.lor (u32 a) (shl (u32 b) 16)) = u32 (Z.lor a (Z.shiftl b 16)).
Proof.
  apply Z.bits_inj'. intros i Hi. unfold shl.
  rewrite !U32Facts.u32_testbit, !Z.lor_spec, !U32Facts.u32_testbit by lia.
  rewrite !Z.shiftl_spec by lia.
  destruct (Z.ltb_spec i 32) as [Hlt | Hge]; cbn [andb]; [| reflexivity].
  destruct (Z.lt_ge_cases (i - 16) 0) as [Hneg | Hpos].
  - now rewrite !(fun x => Z.testbit_neg_r x (i - 16)) by lia.
  - rewrite U32Facts.u32_testbit by lia.
    destruct (Z.ltb_spec (i - 16) 32); [reflexivity | lia].
Qed.

(** With both halves inside 16 bits nothing is truncated at all. *)
Lemma pack_small a b :
  0 <= a < 65536 -> 0 <= b < 65536 ->
  u32 (Z.lor a (Z.shiftl b 16)) = Z.lor a (Z.shiftl b 16).
Proof.
  intros Ha Hb. apply U32Facts.u32_small. apply U32Facts.u32_lor.
  - unfold modulus. lia.
  - rewrite Z.shiftl_mul_pow2 by lia. change (2 ^ 16) with 65536.
    unfold modulus. lia.
Qed.

Lemma sscr_value_spec m : u32 (sscr_value m) = u32 (TimingSpec.sync_size m).
Proof. apply pack_wrap. Qed.

Lemma bpcr_value_spec m : u32 (bpcr_value m) = u32 (TimingSpec.back_porch m).
Proof. apply pack_wrap. Qed.

Lemma awcr_value_spec m :
  u32 (awcr_value m) = u32 (TimingSpec.active_width_480x272 m).
Proof. apply pack_wrap. Qed.

Lemma twcr_value_spec m :
  u32 (twcr_value m) = u32 (TimingSpec.total_width_480x272 m).
Proof. apply pack_wrap. Qed.

(** C4: after a successful registration of a mode with positive sync
    lengths and back porches, the sync-size register (0x08) holds
    (vsync_len - 1) | (hsync_len - 1) << 16 and the back-porch register
    (0x0C) holds (vsync_len + upper_margin - 1) |
    (hsync_len + left_margin - 1) << 16, as 32-bit words; when the sums
    fit 16 bits the words are the formulas themselves; and for
    hsync 41, vsync 10, left 13, upper 2 they are 0x00280009 and
    0x0035000B. *)
Theorem sync_and_back_porch_registers p w w' :
  ltdcfb_register p w = (0, w') ->
  let m := mode (panel (ctx w)) in
  0 < vsync_len m -> 0 < hsync_len m ->
  0 < upper_margin m -> 0 < left_margin m ->
  (mmio w' !! LTDC_SSCR = Some (u32 (TimingSpec.sync_size m))
   /\ mmio w' !! LTDC_BPCR = Some (u32 (TimingSpec.back_porch m)))
  /\ (vsync_len m + upper_margin m <= 65536 ->
      hsync_len m + left_margin m <= 65536 ->
      mmio w' !! LTDC_SSCR = Some (TimingSpec.sync_size m)
      /\ mmio w' !! LTDC_BPCR = Some (TimingSpec.back_porch m))
  /\ (hsync_len m = 41 -> vsync_len m = 10 ->
      left_margin m = 13 -> upper_margin m = 2 ->
      mmio w' !! LTDC_SSCR = Some 0x00280009
      /\ mmio w' !! LTDC_BPCR = Some 0x0035000B).
Proof.
  intros Hreg m Hv Hh Hu Hl.
  destruct (register_success_timing p w w' Hreg) as (Hs & Hb & _ & _).
  fold m in Hs, Hb. rewrite sscr_value_spec in Hs.
  rewrite bpcr_value_spec in Hb.
  split; [now split |]. split.
  - intros Hvu Hhl. rewrite Hs, Hb.
    unfold TimingSpec.sync_size, TimingSpec.back_porch.
    rewrite !pack_small by lia. now split.
  - intros E1 E2 E3 E4. rewrite Hs, Hb.
    unfold TimingSpec.sync_size, TimingSpec.back_porch.
    rewrite E1, E2, E3, E4. now split.
Qed.

Lemma sync_and_back_porch_registers_witness :
  let w' :=
    snd (ltdcfb_register good_platform
           (fresh_world (panel_of mode_480x272 32))) in
  mmio w' !! LTDC_SSCR = Some 0x00280009
  /\ mmio w' !! LTDC_BPCR = Some 0x0035000B.
Proof.
  intros w'.
  refine (proj2 (proj2 (sync_and_back_porch_registers
                          good_platform
                          (fresh_world (panel_of mode_480x272 32)) w'
                          _ _ _ _ _)) _ _ _ _);
    vm_compute; reflexivity.
Defined.

(** C3, as stated, fails: for an 800x480 mode the two registers are not
    the cumulative sums of the mode's own resolution. *)
Lemma active_width_ignores_resolution :
  let w' :=
    snd (ltdcfb_register good_platform
           (fresh_world (panel_of mode_800x480 32))) in
  fst (ltdcfb_register good_platform
         (fresh_world (panel_of mode_800x480 32))) = 0
  /\ mmio w' !! LTDC_AWCR = Some (Z.lor 295 (Z.shiftl 526 16))
  /\ TimingSpec.active_width mode_800x480 = Z.lor 503 (Z.shiftl 846 16)
  /\ mmio w' !! LTDC_AWCR <> Some (TimingSpec.active_width mode_800x480)
  /\ mmio w' !! LTDC_TWCR = Some (Z.lor 317 (Z.shiftl 736 16))
  /\ TimingSpec.total_width mode_800x480 = Z.lor 525 (Z.shiftl 1056 16)
  /\ mmio w' !! LTDC_TWCR <> Some (TimingSpec.total_width mode_800x480).
Proof. vm_compute. repeat split; congruence. Qed.

(** C3, amended: after a successful registration the active-width
    register (0x10) and the total-width register (0x14) hold the
    cumulative sums taken with an active area of 272 lines by 480 pixels,
    whatever the mode's resolution; they are the sums over the mode's own
    fields when the mode is 480x272. *)
Theorem active_and_total_width_registers p w w' :
  ltdcfb_register p w = (0, w') ->
  let m := mode (panel (ctx w)) in
  (mmio w' !! LTDC_AWCR = Some (u32 (TimingSpec.active_width_480x272 m))
   /\ mmio w' !! LTDC_TWCR = Some (u32 (TimingSpec.total_width_480x272 m)))
  /\ (xres m = 480 -> yres m = 272 ->
      mmio w' !! LTDC_AWCR = Some (u32 (TimingSpec.active_width m))
      /\ mmio w' !! LTDC_TWCR = Some (u32 (TimingSpec.total_width m))).
Proof.
  intros Hreg m.
  destruct (register_success_timing p w w' Hreg) as (_ & _ & Ha & Ht).
  fold m in Ha, Ht. rewrite awcr_value_spec in Ha.
  rewrite twcr_value_spec in Ht.
  split; [now split |].
  intros Hx Hy. rewrite Ha, Ht.
  unfold TimingSpec.active_width, TimingSpec.total_width,
    TimingSpec.active_width_480x272, TimingSpec.total_width_480x272.
  rewrite Hx, Hy. now split.
Qed.

Lemma active_and_total_width_registers_witness :
  let w' :=
    snd (ltdcfb_register good_platform
           (fresh_world (panel_of mode_480x272 32))) in
  mmio w' !! LTDC_AWCR
    = Some (u32 (TimingSpec.active_width mode_480x272))
  /\ mmio w' !! LTDC_TWCR
    = Some (u32 (TimingSpec.total_width mode_480x272)).
Proof.
  intros w'.
  refine (proj2 (active_and_total_width_registers
                   good_platform
                   (fresh_world (panel_of mode_480x272 32)) w' _) _ _);
    vm_compute; reflexivity.
Defined.

End TimingFacts.

(** ** The layer: enable bit and scan-out window *)

Module LayerFacts.

Import WorldFacts RegisterFacts Inputs.

Lemma testbit_one i : 0 <= i -> Z.testbit 1 i = (i =? 0).
Proof.
  intros Hi. change 1 with (2 ^ 0) at 1.
  rewrite Z.pow2_bits_eqb by lia.
  destruct (Z.eqb_spec 0 i), (Z.eqb_spec i 0); congruence.
Qed.

Lemma peek_testbit off w i :
  0 <= i ->
  Z.testbit (peek off w) i
  = (i <? 32) && Z.testbit (default 0 (mmio w !! off)) i.
Proof. intros Hi. unfold peek. now apply U32Facts.u32_testbit. Qed.

Lemma peek_enable w :
  peek LTDC_L1CR (ltdcfb_enable w)
  = u32 (Z.lor (peek LTDC_L1CR w) CNTL_LCDEN).
Proof.
  unfold peek at 1. rewrite mmio_enable, lookup_insert_eq. cbn [default].
  apply U32Facts.u32_idem.
Qed.

Lemma peek_disable w :
  peek LTDC_L1CR (ltdcfb_disable w)
  = u32 (Z.land (peek LTDC_L1CR w) (u32 (Z.lnot CNTL_LCDEN))).
Proof.
  unfold peek at 1. rewrite mmio_disable, lookup_insert_eq. cbn [default].
  apply U32Facts.u32_idem.
Qed.

(** Bit by bit: [ltdcfb_enable] sets bit 0 and keeps the others. *)
Lemma enable_bits w i :
  0 <= i ->
  Z.testbit (peek LTDC_L1CR (ltdcfb_enable w)) i
  = Z.testbit (peek LTDC_L1CR w) i || (i =? 0).
Proof.
  intros Hi. rewrite peek_enable. unfold CNTL_LCDEN.
  rewrite U32Facts.u32_testbit, Z.lor_spec, testbit_one by lia.
  rewrite peek_testbit by lia.
  destruct (Z.ltb_spec i 32), (Z.eqb_spec i 0); cbn; try reflexivity;
    try lia; now rewrite ?orb_false_r, ?orb_true_r.
Qed.

(** Bit by bit: [ltdcfb_disable] clears bit 0 and keeps the others. *)
Lemma disable_bits w i :
  0 <= i ->
  Z.testbit (peek LTDC_L1CR (ltdcfb_disable w)) i
  = Z.testbit (peek LTDC_L1CR w) i && negb (i =? 0).
Proof.
  intros Hi. rewrite peek_disable. unfold CNTL_LCDEN.
  rewrite U32Facts.u32_testbit, Z.land_spec by lia.
  rewrite U32Facts.u32_testbit, Z.lnot_spec, testbit_one by lia.
  rewrite peek_testbit by lia.
  destruct (Z.ltb_spec i 32), (Z.eqb_spec i 0); cbn; try reflexivity;
    try lia; now rewrite ?andb_true_r, ?andb_false_r.
Qed.

Lemma peek_eq_of_bits off off' w w' :
  (forall i, 0 <= i ->
     Z.testbit (peek off w) i = Z.testbit (peek off' w') i) ->
  peek off w = peek off' w'.
Proof. intros H. now apply Z.bits_inj'. Qed.

(** Writing the register twice in a row keeps the second value only. *)
Lemma mmio_enable_twice w :
  mmio (ltdcfb_enable (ltdcfb_enable w)) = mmio (ltdcfb_enable w).
Proof.
  rewrite (mmio_enable (ltdcfb_enable w)), peek_enable.
  rewrite (mmio_enable w), insert_insert_eq. f_equal.
  rewrite <- !peek_enable. apply peek_eq_of_bits. intros i Hi.
  rewrite !enable_bits by lia. now destruct (Z.testbit _ i), (i =? 0).
Qed.

Lemma mmio_disable_twice w :
  mmio (ltdcfb_disable (ltdcfb_disable w)) = mmio (ltdcfb_disable w).
Proof.
  rewrite (mmio_disable (ltdcfb_disable w)), peek_disable.
  rewrite (mmio_disable w), insert_insert_eq. f_equal.
  rewrite <- !peek_disable. apply peek_eq_of_bits. intros i Hi.
  rewrite !disable_bits by lia. now destruct (Z.testbit _ i), (i =? 0).
Qed.

(** C6, as stated, fails: when the layer is enabled to begin with,
    enable-then-disable leaves the enable bit clear, not as it was. *)
Lemma enable_disable_drops_set_bit :
  let w := {| ctx := probed_fb zero_panel;
              mmio := {[ LTDC_L1CR := 1 ]}; log := [] |} in
  Z.testbit (peek LTDC_L1CR w) 0 = true
  /\ Z.testbit (peek LTDC_L1CR (ltdcfb_disable (ltdcfb_enable w))) 0 = false.
Proof. vm_compute. split; reflexivity. Qed.

(** C6, amended: for every content of the layer control register,
    enable followed by disable leaves the enable bit clear (which is its
    prior value exactly when the layer was disabled before) and every
    other bit, every other register and the context as they were; and
    each of the two operations, applied twice, leaves the registers as
    one application does. *)
Theorem enable_disable_round_trip w :
  let w' := ltdcfb_disable (ltdcfb_enable w) in
  Z.testbit (peek LTDC_L1CR w') 0 = false
  /\ (forall i, 0 < i ->
        Z.testbit (peek LTDC_L1CR w') i = Z.testbit (peek LTDC_L1CR w) i)
  /\ (Z.testbit (peek LTDC_L1CR w) 0 = false ->
        peek LTDC_L1CR w' = peek LTDC_L1CR w)
  /\ (forall off, off <> LTDC_L1CR -> mmio w' !! off = mmio w !! off)
  /\ ctx w' = ctx w
  /\ mmio (ltdcfb_enable (ltdcfb_enable w)) = mmio (ltdcfb_enable w)
  /\ mmio (ltdcfb_disable (ltdcfb_disable w)) = mmio (ltdcfb_disable w).
Proof.
  intros w'. subst w'.
  assert (Hbits : forall i, 0 <= i ->
            Z.testbit (peek LTDC_L1CR (ltdcfb_disable (ltdcfb_enable w))) i
            = Z.testbit (peek LTDC_L1CR w) i && negb (i =? 0)).
  { intros i Hi. rewrite disable_bits, enable_bits by lia.
    now destruct (Z.testbit _ i), (i =? 0). }
  split; [rewrite Hbits by lia; apply andb_false_r |].
  split.
  { intros i Hi. rewrite Hbits by lia.
    destruct (Z.eqb_spec i 0); [lia | apply andb_true_r]. }
  split.
  { intros H0. apply peek_eq_of_bits. intros i Hi. rewrite Hbits by lia.
    destruct (Z.eqb_spec i 0) as [-> | _]; cbn [negb].
    - now rewrite H0.
    - apply andb_true_r. }
  split.
  { intros off Hoff. rewrite mmio_disable, mmio_enable.
    now rewrite !lookup_insert_ne by congruence. }
  split; [reflexivity |].
  split; [apply mmio_enable_twice | apply mmio_disable_twice].
Qed.

(** What [ltdcfb_set_start] writes, for every context: three words, to
    the address, length and pixel-format registers in that order; the
    address is [start_address], which has one whole frame added. *)
Lemma set_start_writes w :
  log (ltdcfb_set_start w)
  = log w ++ [Writel (start_address (ctx w)) LTDC_L1CFBAR;
              Writel (length_word (ctx w)) LTDC_L1CFBLR;
              Writel LTDC_ARGB LTDC_L1PFCR]
  /\ start_address (ctx w)
     = u32 (pan_address (ctx w)
            + var_yres (fb_var (ctx w)) * fix_line_length (fb_fix (ctx w))).
Proof.
  split.
  - rewrite log_set_start.
    rewrite (U32Facts.u32_small (start_address (ctx w)))
      by apply U32Facts.u32_range.
    rewrite (U32Facts.u32_small (length_word (ctx w)))
      by (apply U32Facts.u32_lor; apply U32Facts.u32_range).
    reflexivity.
  - unfold start_address, pan_address, u32.
    set (s := fix_smem_start _). set (yl := var_yoffset _ * _).
    set (rl := var_yres _ * _).
    rewrite (Zplus_mod_idemp_r rl ((s mod modulus + yl mod modulus)
                                    mod modulus)).
    now rewrite <- (Zplus_mod s yl).
Qed.

(** C5, on a registered 480x272 display after [ltdcfb_set_par], with
    [yoffset = 0]: the word written to the layer address register is
    0xC007F800, the first byte after the buffer, where the spec's pan
    address is the buffer base 0xC0000000; the length word and the order of
    the three writes are as the spec has them. *)
Theorem set_start_points_past_the_frame :
  let w0 := snd (ltdcfb_register good_platform
                   (fresh_world (panel_of mode_480x272 32))) in
  let w1 := snd (ltdcfb_set_par w0) in
  var_yoffset (fb_var (ctx w1)) = 0
  /\ pan_address (ctx w1) = 0xC0000000
  /\ fix_smem_start (fb_fix (ctx w1)) + fix_smem_len (fb_fix (ctx w1))
     = 0xC007F800
  /\ log w1 = log w0 ++ [Writel 0xC007F800 LTDC_L1CFBAR;
                         Writel (Z.lor 1923 (Z.shiftl 1920 16)) LTDC_L1CFBLR;
                         Writel 0 LTDC_L1PFCR]
  /\ mmio w1 !! LTDC_L1CFBAR = Some 0xC007F800.
Proof. vm_compute. repeat split; reflexivity. Qed.

End LayerFacts.

(** ** Mode checking and mode setting *)

Module ModeFacts.

Import WorldFacts RegisterFacts Inputs.

(** [ltdcfb_check_var] returns what [ltdcfb_set_bitfields] returns: the
    size comparison never reaches the result. *)
Lemma check_var_result var w :
  ltdcfb_check_var var w
  = (fst (ltdcfb_set_bitfields var), snd (ltdcfb_set_bitfields var), w).
Proof.
  unfold ltdcfb_check_var. now destruct (ltdcfb_set_bitfields var).
Qed.

Lemma set_bitfields_ret var :
  fst (ltdcfb_set_bitfields var)
  = if var_bits_per_pixel var =? 32 then 0 else - EINVAL.
Proof.
  unfold ltdcfb_set_bitfields. now destruct (var_bits_per_pixel var =? 32).
Qed.

Lemma set_bitfields_geometry var :
  let var' := snd (ltdcfb_set_bitfields var) in
  var_xres_virtual var' = var_xres_virtual var
  /\ var_yres_virtual var' = var_yres_virtual var
  /\ var_xres var' = var_xres var
  /\ var_yres var' = var_yres var
  /\ var_yoffset var' = var_yoffset var
  /\ var_bits_per_pixel var' = var_bits_per_pixel var.
Proof.
  unfold ltdcfb_set_bitfields.
  destruct (var_bits_per_pixel var =? 32); cbn; repeat split.
Qed.

(** C7, at a candidate of 800x480 at 32 bits per pixel against the
    522240-byte buffer of a registered display: the candidate needs
    1536000 bytes, the comparison of line 153 holds, and
    [ltdcfb_check_var] still returns 0.  Registers, buffer and context are
    untouched, as the spec requires. *)
Theorem check_var_accepts_oversized_mode :
  let w0 := snd (ltdcfb_register good_platform
                   (fresh_world (panel_of mode_480x272 32))) in
  let cand := var_of_panel (panel_of mode_800x480 32) (fb_var (ctx w0)) in
  fix_smem_len (fb_fix (ctx w0)) = 522240
  /\ var_xres_virtual cand * (var_bits_per_pixel cand / 8)
     * var_yres_virtual cand = 1536000
  /\ ugt (u32 (u32 (var_xres_virtual cand
                    * (u32 (var_bits_per_pixel cand) / 8))
               * var_yres_virtual cand))
         (fix_smem_len (fb_fix (ctx w0))) = true
  /\ fst (fst (ltdcfb_check_var cand w0)) = 0
  /\ snd (ltdcfb_check_var cand w0) = w0.
Proof. vm_compute. repeat split; reflexivity. Qed.



(** A second [ltdcfb_set_par] finds the context as the first left it. *)
Lemma set_par_again w : ctx (apply_mode (apply_mode w)) = ctx (apply_mode w).
Proof. reflexivity. Qed.

(** The context after [ltdcfb_set_par] depends on the context alone. *)
Lemma set_par_context_only w w2 :
  ctx w = ctx w2 -> ctx (apply_mode w) = ctx (apply_mode w2).
Proof.
  intros H. unfold apply_mode, ltdcfb_set_par. cbn [snd].
  rewrite !ctx_set_start, !ctx_update. now rewrite H.
Qed.

Lemma set_par_repeated n w :
  ctx (Nat.iter (S n) apply_mode w) = ctx (apply_mode w).
Proof.
  induction n as [| n IH]; [reflexivity |].
  change (Nat.iter (S (S n)) apply_mode w)
    with (apply_mode (Nat.iter (S n) apply_mode w)).
  rewrite (set_par_context_only _ _ IH). apply set_par_again.
Qed.

(** The part of the context a successful registration fixes. *)
Lemma register_success_context p w w' :
  ltdcfb_register p w = (0, w') ->
  fix_smem_len (fb_fix (ctx w')) = 480 * 272 * 4
  /\ var_xres_virtual (fb_var (ctx w')) = xres (mode (panel (ctx w)))
  /\ var_yres (fb_var (ctx w')) = yres (mode (panel (ctx w)))
  /\ var_bits_per_pixel (fb_var (ctx w')) = bpp (panel (ctx w)).
Proof.
  intros Hreg.
  destruct (register_success p w w' Hreg)
    as (r_start & r_end & base & dma & w0 & _ & _ & Hctx & _ & ->).
  rewrite !ctx_emit, ctx_program_controller, Hctx.
  unfold setup_context, fill_context.
  cbn [fb_var fb_fix set_var set_fix].
  match goal with
  | |- context [ltdcfb_set_bitfields ?v] =>
      destruct (set_bitfields_geometry v) as (Hxv & _ & _ & Hy & _ & Hd)
  end.
  rewrite Hxv, Hy, Hd. repeat split.
Qed.






End ModeFacts.

(** ** Acquisition, unwinding and the interrupt look-up *)

Module LifecycleFacts.

Import WorldFacts RegisterFacts Inputs.

Ltac log_simpl :=
  cbn [snd fst];
  repeat (rewrite log_emit || rewrite log_update
          || rewrite log_program_controller);
  rewrite <- ?app_assoc; cbn [app].

(** The path taken when attaching the line interrupt fails: the log
    grows by exactly these events, and the result is [-ENXIO]. *)
Lemma request_irq_failure_path p w r_start r_end :
  IS_ERR (devm_clk_get p) = false ->
  clk_prepare_enable p = 0 ->
  platform_get_resource p = Some (r_start, r_end) ->
  ioremap p = true ->
  request_irq p < 0 ->
  fst (ltdcfb_register p w) = - ENXIO
  /\ log (snd (ltdcfb_register p w))
     = log w ++
       [Devm_clk_get (devm_clk_get p); Clk_prepare_enable 0;
        Platform_get_resource true; Ioremap true;
        Platform_get_irq_byname "ltdc-irq" (ltdc_irq p);
        Platform_get_irq_byname "ltdc-error-irq" (ltdc_error_irq p);
        Request_irq (u32 (ltdc_irq p)) (request_irq p);
        Pr_err "error requesting IRQ"; Clk_unprepare; Clk_put].
Proof.
  intros Hclk Hprep Hres Hmap Hirq.
  unfold ltdcfb_register, unmap, clk_unprep, free_clk, out.
  rewrite Hclk, Hprep, Hres, Hmap. cbn [negb Z.eqb].
  rewrite !U32Facts.ult_zero_r. cbn [orb].
  destruct (Z.ltb_spec (request_irq p) 0); [| lia].
  split; [reflexivity |]. log_simpl. reflexivity.
Qed.

(** C9, when attaching the line interrupt fails with [-EBUSY]: clock,
    prepared clock and register mapping have been acquired; the unwind
    gives back the prepared clock and the clock only, so the register
    mapping is still held when [-ENXIO] is returned. *)
Theorem irq_failure_leaves_registers_mapped :
  let r := ltdcfb_register irq_busy_platform
             (fresh_world (panel_of mode_480x272 32)) in
  fst r = - ENXIO
  /\ acquisitions (log (snd r)) = [R_clk; R_clk_prepared; R_regs]
  /\ releases (log (snd r)) = [R_clk_prepared; R_clk]
  /\ held (log (snd r)) = [R_regs].
Proof. vm_compute. repeat split; reflexivity. Qed.

(** The same unwind after a failed buffer allocation leaves both
    interrupts attached as well. *)
Lemma dma_failure_leaves_interrupts_attached :
  let p :=
    {| devm_clk_get := 0x20001000; clk_prepare_enable := 0;
       platform_get_resource := Some (0x40016800, 0x40016bff);
       ioremap := true; ltdc_irq := 88; ltdc_error_irq := 89;
       request_irq := 0; request_error_irq := 0;
       dma_alloc_wc := None;
       fb_alloc_cmap := 0; register_framebuffer := 0 |} in
  let r := ltdcfb_register p (fresh_world (panel_of mode_480x272 32)) in
  fst r = - ENOMEM
  /\ releases (log (snd r)) = [R_clk_prepared; R_clk]
  /\ held (log (snd r)) = [R_irq 89; R_irq 88; R_regs].
Proof. vm_compute. repeat split; reflexivity. Qed.

(** Whatever the platform answers, the events [ltdcfb_register] adds to
    the log do not include the look-up error message. *)
Lemma register_log p w :
  exists l,
    log (snd (ltdcfb_register p w)) = log w ++ l /\ ~ In lookup_error l.
Proof.
  unfold ltdcfb_register, unmap, clk_unprep, free_clk, out, lookup_error.
  destruct (IS_ERR (devm_clk_get p)).
  { log_simpl. eexists. split; [reflexivity |].
    cbn [In]. intuition discriminate. }
  destruct (negb (clk_prepare_enable p =? 0)).
  { log_simpl. eexists. split; [reflexivity |].
    cbn [In]. intuition discriminate. }
  destruct (platform_get_resource p) as [[r_start r_end] |].
  2: { log_simpl. eexists. split; [reflexivity |].
       cbn [In]. intuition discriminate. }
  destruct (negb (ioremap p)).
  { log_simpl. eexists. split; [reflexivity |].
    cbn [In]. intuition discriminate. }
  rewrite !U32Facts.ult_zero_r. cbn [orb].
  destruct (request_irq p <? 0).
  { log_simpl. eexists. split; [reflexivity |].
    cbn [In]. intuition discriminate. }
  destruct (request_error_irq p <? 0).
  { log_simpl. eexists. split; [reflexivity |].
    cbn [In]. intuition discriminate. }
  destruct (dma_alloc_wc p) as [[base dma] |].
  2: { log_simpl. eexists. split; [reflexivity |].
       cbn [In]. intuition discriminate. }
  destruct (negb (fb_alloc_cmap p =? 0)).
  { log_simpl. eexists. split; [reflexivity |].
    cbn [In]. intuition discriminate. }
  destruct (register_framebuffer p =? 0);
    log_simpl; (eexists; split; [reflexivity |]);
    cbn [In]; intuition discriminate.
Qed.

(** Once clock and registers are there, the two look-ups are followed by
    [request_irq] on the stored, unsigned line number and, unless that
    request fails, by [request_irq] on the stored, unsigned error number. *)
Lemma register_requests_irq p w :
  IS_ERR (devm_clk_get p) = false ->
  clk_prepare_enable p = 0 ->
  is_Some (platform_get_resource p) ->
  ioremap p = true ->
  exists l1 l2,
    log (snd (ltdcfb_register p w))
    = log w ++ l1 ++
      [Platform_get_irq_byname "ltdc-irq" (ltdc_irq p);
       Platform_get_irq_byname "ltdc-error-irq" (ltdc_error_irq p);
       Request_irq (u32 (ltdc_irq p)) (request_irq p)] ++ l2
    /\ (0 <= request_irq p ->
        exists l3,
          l2 = Request_irq (u32 (ltdc_error_irq p)) (request_error_irq p)
               :: l3).
Proof.
  intros Hclk Hprep [[r_start r_end] Hres] Hmap.
  exists [Devm_clk_get (devm_clk_get p); Clk_prepare_enable 0;
          Platform_get_resource true; Ioremap true].
  unfold ltdcfb_register, unmap, clk_unprep, free_clk, out.
  rewrite Hclk, Hprep, Hres, Hmap. cbn [negb Z.eqb].
  rewrite !U32Facts.ult_zero_r. cbn [orb].
  destruct (Z.ltb_spec (request_irq p) 0).
  { log_simpl. eexists. split; [reflexivity | lia]. }
  destruct (request_error_irq p <? 0).
  { log_simpl. eexists. split; [reflexivity | eauto]. }
  destruct (dma_alloc_wc p) as [[base dma] |].
  2: { log_simpl. eexists. split; [reflexivity | eauto]. }
  destruct (negb (fb_alloc_cmap p =? 0)).
  { log_simpl. eexists. split; [reflexivity | eauto]. }
  destruct (register_framebuffer p =? 0); log_simpl; eexists;
    (split; [reflexivity | eauto]).
Qed.

(** The value [ltdcfb_register] returns does not depend on what the two
    look-ups returned. *)
Lemma register_result_ignores_lookups a b p w :
  fst (ltdcfb_register (with_irqs a b p) w) = fst (ltdcfb_register p w).
Proof.
  unfold ltdcfb_register, unmap, clk_unprep, free_clk, out, PTR_ERR.
  cbn [with_irqs devm_clk_get clk_prepare_enable platform_get_resource
       ioremap ltdc_irq ltdc_error_irq request_irq request_error_irq
       dma_alloc_wc fb_alloc_cmap register_framebuffer].
  destruct (IS_ERR (devm_clk_get p)); [reflexivity |].
  destruct (negb (clk_prepare_enable p =? 0)); [reflexivity |].
  destruct (platform_get_resource p) as [[r_start r_end] |]; [| reflexivity].
  destruct (negb (ioremap p)); [reflexivity |].
  rewrite !U32Facts.ult_zero_r. cbn [orb].
  destruct (request_irq p <? 0); [reflexivity |].
  destruct (request_error_irq p <? 0); [reflexivity |].
  destruct (dma_alloc_wc p) as [[base dma] |]; [| reflexivity].
  destruct (negb (fb_alloc_cmap p =? 0)); [reflexivity |].
  destruct (register_framebuffer p =? 0); reflexivity.
Qed.

(** C10: the two interrupt members are [u32]: a store keeps the result of
    the look-up wrapped to 32 bits (a negative result [n] becomes
    [n + 4294967296]), and [irq < 0] and [error_irq < 0] are false whatever
    is stored.  So [ltdcfb_register] never reports the look-up error, and
    what it returns does not depend on the results of the two look-ups.
    Once the clock and the registers are there it goes on, whatever the
    look-ups returned, to [request_irq] on the wrapped line number and,
    unless that request fails, to [request_irq] on the wrapped error
    number. *)
Theorem irq_lookup_error_unreachable p w :
  (forall n fb,
      irq (set_irq n fb) = u32 n
      /\ error_irq (set_error_irq n fb) = u32 n
      /\ ult (irq (set_irq n fb)) 0 = false
      /\ ult (error_irq (set_error_irq n fb)) 0 = false)
  /\ (forall n, - modulus <= n < 0 -> u32 n = n + modulus /\ 0 <= u32 n)
  /\ (~ In lookup_error (log w) ->
      ~ In lookup_error (log (snd (ltdcfb_register p w))))
  /\ (forall a b,
        fst (ltdcfb_register (with_irqs a b p) w)
        = fst (ltdcfb_register p w))
  /\ (IS_ERR (devm_clk_get p) = false ->
      clk_prepare_enable p = 0 ->
      is_Some (platform_get_resource p) ->
      ioremap p = true ->
      exists l1 l2,
        log (snd (ltdcfb_register p w))
        = log w ++ l1 ++
          [Platform_get_irq_byname "ltdc-irq" (ltdc_irq p);
           Platform_get_irq_byname "ltdc-error-irq" (ltdc_error_irq p);
           Request_irq (u32 (ltdc_irq p)) (request_irq p)] ++ l2
        /\ (0 <= request_irq p ->
            exists l3,
              l2 = Request_irq (u32 (ltdc_error_irq p))
                               (request_error_irq p) :: l3)).
Proof.
  split.
  { intros n fb. split; [reflexivity |]. split; [reflexivity |].
    split; apply U32Facts.ult_zero_r. }
  split.
  { intros n Hn. unfold u32, modulus in *.
    rewrite <- (Z.mod_add n 1) by lia.
    rewrite Z.mod_small by lia. lia. }
  split.
  { intros Hw. destruct (register_log p w) as (l & -> & Hl).
    rewrite in_app_iff. tauto. }
  split.
  { intros a b. apply register_result_ignores_lookups. }
  apply register_requests_irq.
Qed.

Lemma irq_lookup_error_unreachable_witness :
  let w := fresh_world (panel_of mode_480x272 32) in
  let r := ltdcfb_register lost_irq_platform w in
  ltdc_irq lost_irq_platform = -6
  /\ ltdc_error_irq lost_irq_platform = -19
  /\ fst r = 0
  /\ ~ In lookup_error (log (snd r))
  /\ In (Request_irq 4294967290 0) (log (snd r))
  /\ In (Request_irq 4294967277 0) (log (snd r)).
Proof.
  intros w r.
  pose proof (irq_lookup_error_unreachable lost_irq_platform w)
    as (_ & _ & Hnever & _ & Hreq).
  destruct (Hreq eq_refl eq_refl ltac:(eexists; reflexivity) eq_refl)
    as (l1 & l2 & Hlog & Herr).
  destruct (Herr ltac:(vm_compute; discriminate)) as (l3 & ->).
  split; [reflexivity |]. split; [reflexivity |].
  split; [reflexivity |].
  split; [apply Hnever; cbn; tauto |].
  subst r. rewrite Hlog. rewrite !in_app_iff. cbn [In].
  split; [right; right; left; right; right; left; reflexivity |].
  right; right; right; left; reflexivity.
Defined.

End LifecycleFacts.

(** * Further properties of the driver *)

(** ** The packed words, read back *)

Module PackingFacts.

Import WorldFacts.

Lemma testbit_above a i :
  0 <= a < 65536 -> 16 <= i -> Z.testbit a i = false.
Proof.
  intros Ha Hi. rewrite <- (Z.mod_small a (2 ^ 16)) by (change (2 ^ 16) with 65536; lia).
  apply Z.mod_pow2_bits_high. lia.
Qed.

Lemma halves_disjoint a b :
  0 <= a < 65536 -> Z.land a (Z.shiftl b 16) = 0.
Proof.
  intros Ha. apply Z.bits_inj'. intros i Hi.
  rewrite Z.land_spec, Z.shiftl_spec, Z.bits_0 by lia.
  destruct (Z.lt_ge_cases i 16).
  - rewrite (Z.testbit_neg_r b) by lia. apply andb_false_r.
  - now rewrite testbit_above by lia.
Qed.

(** Two counts below 65536 packed into a word and truncated to 32 bits
    are the sum [a + b * 65536]. *)
Lemma pack_value a b :
  0 <= a < 65536 -> 0 <= b < 65536 ->
  Z.lor (u32 a) (shl (u32 b) 16) = a + b * 65536.
Proof.
  intros Ha Hb. unfold shl.
  rewrite (U32Facts.u32_small a), (U32Facts.u32_small b)
    by (unfold modulus; lia).
  assert (E : Z.shiftl b 16 = b * 65536)
    by (rewrite Z.shiftl_mul_pow2 by lia; reflexivity).
  rewrite (U32Facts.u32_small (Z.shiftl b 16))
    by (rewrite E; unfold modulus; lia).
  pose proof (halves_disjoint a b Ha) as Hd.
  rewrite <- Z.lxor_lor, <- Z.add_nocarry_lxor by assumption.
  now rewrite E.
Qed.

Lemma unpack a b :
  0 <= a < 65536 -> 0 <= b < 65536 ->
  lo16 (Z.lor (u32 a) (shl (u32 b) 16)) = a
  /\ hi16 (Z.lor (u32 a) (shl (u32 b) 16)) = b.
Proof.
  intros Ha Hb. rewrite pack_value by assumption. unfold lo16, hi16.
  change 0xffff with (Z.ones 16).
  rewrite Z.land_ones, Z.shiftr_div_pow2 by lia. change (2 ^ 16) with 65536.
  split.
  - rewrite Z.mod_add by lia. apply Z.mod_small. lia.
  - rewrite Z.div_add by lia. rewrite Z.div_small by lia. lia.
Qed.

End PackingFacts.

(** ** Timing and length registers, read back *)

Module ReadBackFacts.

Import WorldFacts RegisterFacts PackingFacts Inputs.

Lemma peek_of_lookup off w v :
  mmio w !! off = Some (u32 v) -> peek off w = u32 v.
Proof. intros H. unfold peek. rewrite H. apply U32Facts.u32_idem. Qed.

(** The four timing words of a mode whose cumulative counts fit 16 bits. *)
Lemma timing_words m :
  1 <= vsync_len m -> 1 <= hsync_len m ->
  0 <= upper_margin m -> 0 <= left_margin m ->
  0 <= lower_margin m -> 0 <= right_margin m ->
  vsync_len m + upper_margin m + 272 + lower_margin m <= 65536 ->
  hsync_len m + left_margin m + 480 + right_margin m <= 65536 ->
  u32 (sscr_value m) = (vsync_len m - 1) + (hsync_len m - 1) * 65536
  /\ u32 (bpcr_value m)
     = (vsync_len m + upper_margin m - 1)
       + (hsync_len m + left_margin m - 1) * 65536
  /\ u32 (awcr_value m)
     = (vsync_len m + upper_margin m + 272 - 1)
       + (hsync_len m + left_margin m + 480 - 1) * 65536
  /\ u32 (twcr_value m)
     = (vsync_len m + upper_margin m + 272 + lower_margin m - 1)
       + (hsync_len m + left_margin m + 480 + right_margin m - 1) * 65536.
Proof.
  intros. unfold sscr_value, bpcr_value, awcr_value, twcr_value.
  rewrite !pack_value by lia.
  repeat split; apply U32Facts.u32_small; unfold modulus; lia.
Qed.

Lemma halves_of_sum a b :
  0 <= a < 65536 -> 0 <= b < 65536 ->
  lo16 (a + b * 65536) = a /\ hi16 (a + b * 65536) = b.
Proof.
  intros Ha Hb. rewrite <- (pack_value a b) by assumption.
  now apply unpack.
Qed.

(** X1: after a successful registration of a mode whose cumulative counts
    fit 16 bits, each timing register splits back into its two counts,
    count minus one in each half, and the counts grow from sync size to
    back porch to active width to total width, in both directions. *)
Theorem timing_registers_read_back p w w' :
  ltdcfb_register p w = (0, w') ->
  let m := mode (panel (ctx w)) in
  1 <= vsync_len m -> 1 <= hsync_len m ->
  0 <= upper_margin m -> 0 <= left_margin m ->
  0 <= lower_margin m -> 0 <= right_margin m ->
  vsync_len m + upper_margin m + 272 + lower_margin m <= 65536 ->
  hsync_len m + left_margin m + 480 + right_margin m <= 65536 ->
  (lo16 (peek LTDC_SSCR w') = vsync_len m - 1
   /\ hi16 (peek LTDC_SSCR w') = hsync_len m - 1
   /\ lo16 (peek LTDC_BPCR w') = vsync_len m + upper_margin m - 1
   /\ hi16 (peek LTDC_BPCR w') = hsync_len m + left_margin m - 1
   /\ lo16 (peek LTDC_AWCR w') = vsync_len m + upper_margin m + 272 - 1
   /\ hi16 (peek LTDC_AWCR w') = hsync_len m + left_margin m + 480 - 1
   /\ lo16 (peek LTDC_TWCR w')
      = vsync_len m + upper_margin m + 272 + lower_margin m - 1
   /\ hi16 (peek LTDC_TWCR w')
      = hsync_len m + left_margin m + 480 + right_margin m - 1)
  /\ (lo16 (peek LTDC_SSCR w') <= lo16 (peek LTDC_BPCR w')
        < lo16 (peek LTDC_AWCR w')
      /\ lo16 (peek LTDC_AWCR w') <= lo16 (peek LTDC_TWCR w'))
  /\ (hi16 (peek LTDC_SSCR w') <= hi16 (peek LTDC_BPCR w')
        < hi16 (peek LTDC_AWCR w')
      /\ hi16 (peek LTDC_AWCR w') <= hi16 (peek LTDC_TWCR w')).
Proof.
  intros Hreg m Hv Hh Hu Hl Hlo Hr Hvs Hhs.
  destruct (register_success_timing p w w' Hreg) as (Hs & Hb & Ha & Ht).
  fold m in Hs, Hb, Ha, Ht.
  apply peek_of_lookup in Hs, Hb, Ha, Ht.
  destruct (timing_words m Hv Hh Hu Hl Hlo Hr Hvs Hhs) as (Es & Eb & Ea & Et).
  rewrite Hs, Hb, Ha, Ht, Es, Eb, Ea, Et.
  destruct (halves_of_sum (vsync_len m - 1) (hsync_len m - 1)) as [-> ->];
    [lia | lia |].
  destruct (halves_of_sum (vsync_len m + upper_margin m - 1)
              (hsync_len m + left_margin m - 1)) as [-> ->]; [lia | lia |].
  destruct (halves_of_sum (vsync_len m + upper_margin m + 272 - 1)
              (hsync_len m + left_margin m + 480 - 1)) as [-> ->];
    [lia | lia |].
  destruct (halves_of_sum
              (vsync_len m + upper_margin m + 272 + lower_margin m - 1)
              (hsync_len m + left_margin m + 480 + right_margin m - 1))
    as [-> ->]; [lia | lia |].
  repeat split; lia.
Qed.

Lemma timing_registers_read_back_witness :
  let w' :=
    snd (ltdcfb_register good_platform
           (fresh_world (panel_of mode_480x272 32))) in
  lo16 (peek LTDC_TWCR w') = 10 + 2 + 272 + 2 - 1
  /\ hi16 (peek LTDC_TWCR w') = 41 + 13 + 480 + 32 - 1.
Proof.
  intros w'.
  pose proof (timing_registers_read_back
                good_platform (fresh_world (panel_of mode_480x272 32)) w'
                eq_refl) as H.
  cbn zeta in H.
  destruct H as ((_ & _ & _ & _ & _ & _ & Hlo & Hhi) & _);
    [vm_compute; discriminate ..| ].
  split; [exact Hlo | exact Hhi].
Defined.

(** X2: after [ltdcfb_set_par], when the line length plus 3 fits 16 bits,
    the layer length register holds the line length plus 3 in its low half
    and the line length (the pitch) in its high half. *)
Theorem set_par_length_register w :
  let L := fix_line_length (fb_fix (ctx (apply_mode w))) in
  L + 3 < 65536 ->
  0 <= L
  /\ lo16 (peek LTDC_L1CFBLR (apply_mode w)) = L + 3
  /\ hi16 (peek LTDC_L1CFBLR (apply_mode w)) = L.
Proof.
  intros L HL.
  assert (H0 : 0 <= L).
  { subst L. unfold apply_mode, ltdcfb_set_par. cbn.
    apply Z.div_pos; [apply U32Facts.u32_range | lia]. }
  split; [assumption |].
  assert (E : peek LTDC_L1CFBLR (apply_mode w)
              = Z.lor (u32 (L + 3)) (shl (u32 L) 16)).
  { unfold peek at 1. unfold apply_mode at 1. unfold ltdcfb_set_par.
    cbn [snd]. rewrite mmio_set_start.
    rewrite lookup_insert_ne by (vm_compute; discriminate).
    rewrite lookup_insert_eq. cbn [from_option id]. rewrite U32Facts.u32_idem.
    unfold length_word. rewrite ctx_update.
    rewrite U32Facts.u32_small
      by (apply U32Facts.u32_lor; apply U32Facts.u32_range).
    rewrite (U32Facts.u32_small L) by (unfold modulus; lia).
    reflexivity. }
  rewrite E. apply unpack; lia.
Qed.

Lemma set_par_length_register_witness :
  let w := snd (ltdcfb_register good_platform
                  (fresh_world (panel_of mode_480x272 32))) in
  lo16 (peek LTDC_L1CFBLR (apply_mode w)) = 1920 + 3
  /\ hi16 (peek LTDC_L1CFBLR (apply_mode w)) = 1920.
Proof.
  intros w.
  refine (proj2 (set_par_length_register w _)).
  vm_compute. reflexivity.
Defined.

End ReadBackFacts.

(** ** Bit-field layout, mode checking and mode setting *)

Module OpsFacts.

Import WorldFacts Inputs.

(** X3: [ltdcfb_set_bitfields] at 32 bits per pixel returns 0 and lays
    blue, green, red and transparency out as four adjacent 8-bit fields
    that tile bits 0 to 31; at any other depth it returns [-EINVAL] and
    keeps every offset and length; in both cases [msb_right] is cleared in
    the four fields, and a second application changes nothing more. *)
Theorem set_bitfields_contract var :
  let r := fst (ltdcfb_set_bitfields var) in
  let var' := snd (ltdcfb_set_bitfields var) in
  (var_bits_per_pixel var = 32 ->
     r = 0
     /\ bf_offset (var_blue var') = 0
     /\ bf_offset (var_green var')
        = bf_offset (var_blue var') + bf_length (var_blue var')
     /\ bf_offset (var_red var')
        = bf_offset (var_green var') + bf_length (var_green var')
     /\ bf_offset (var_transp var')
        = bf_offset (var_red var') + bf_length (var_red var')
     /\ bf_offset (var_transp var') + bf_length (var_transp var')
        = var_bits_per_pixel var'
     /\ bf_length (var_blue var') = 8 /\ bf_length (var_green var') = 8
     /\ bf_length (var_red var') = 8 /\ bf_length (var_transp var') = 8)
  /\ (var_bits_per_pixel var <> 32 ->
        r = - EINVAL
        /\ bf_offset (var_red var') = bf_offset (var_red var)
        /\ bf_length (var_red var') = bf_length (var_red var)
        /\ bf_offset (var_green var') = bf_offset (var_green var)
        /\ bf_length (var_green var') = bf_length (var_green var)
        /\ bf_offset (var_blue var') = bf_offset (var_blue var)
        /\ bf_length (var_blue var') = bf_length (var_blue var)
        /\ bf_offset (var_transp var') = bf_offset (var_transp var)
        /\ bf_length (var_transp var') = bf_length (var_transp var))
  /\ bf_msb_right (var_red var') = 0 /\ bf_msb_right (var_green var') = 0
  /\ bf_msb_right (var_blue var') = 0 /\ bf_msb_right (var_transp var') = 0
  /\ ltdcfb_set_bitfields var' = (r, var').
Proof.
  intros r var'. subst r var'. unfold ltdcfb_set_bitfields.
  destruct (Z.eqb_spec (var_bits_per_pixel var) 32) as [E | E].
  - cbn. rewrite E. cbn. repeat split; try reflexivity; congruence.
  - cbn. destruct (Z.eqb_spec (var_bits_per_pixel var) 32); [contradiction |].
    repeat split; try reflexivity; congruence.
Qed.

Lemma set_bitfields_contract_witness :
  let var := var_of_panel (panel_of mode_480x272 32) zero_var in
  fst (ltdcfb_set_bitfields var) = 0
  /\ bf_offset (var_red (snd (ltdcfb_set_bitfields var))) = 16
  /\ fst (ltdcfb_set_bitfields zero_var) = - EINVAL.
Proof.
  intros var.
  pose proof (set_bitfields_contract var) as (H32 & _).
  pose proof (set_bitfields_contract zero_var) as (_ & Hother & _).
  destruct (H32 eq_refl) as (Hr & Hb & Hg & Hred & _ & _ & Lb & Lg & _).
  destruct (Hother ltac:(discriminate)) as (Hr' & _).
  split; [exact Hr |]. split; [| exact Hr'].
  rewrite Hred, Hg, Hb, Lb, Lg. reflexivity.
Defined.

(** X4: [ltdcfb_check_var] accepts a candidate exactly when its depth is
    32 bits per pixel, whatever its resolution and however long the buffer
    is; it answers [-EINVAL] otherwise, hands back the candidate with the
    bit-fields [ltdcfb_set_bitfields] gives it, and leaves the driver
    context, the registers and the log as they were. *)
Theorem check_var_contract var w :
  let '(r, var', w') := ltdcfb_check_var var w in
  (r = 0 <-> var_bits_per_pixel var = 32)
  /\ (r = 0 \/ r = - EINVAL)
  /\ var' = snd (ltdcfb_set_bitfields var)
  /\ w' = w.
Proof.
  unfold ltdcfb_check_var.
  destruct (ltdcfb_set_bitfields var) as [r var'] eqn:E.
  assert (Hr : r = fst (ltdcfb_set_bitfields var)) by now rewrite E.
  unfold ltdcfb_set_bitfields in Hr.
  destruct (Z.eqb_spec (var_bits_per_pixel var) 32) as [H32 | H32];
    cbn in Hr; subst r.
  - repeat split; auto.
  - repeat split; auto; try discriminate.
    intros H. contradiction.
Qed.

Lemma three_inserts_again (m : gmap Z Z) a b c x y z :
  <[c := z]> (<[b := y]> (<[a := x]>
    (<[c := z]> (<[b := y]> (<[a := x]> m)))))
  = <[c := z]> (<[b := y]> (<[a := x]> m)).
Proof.
  apply map_eq. intros i. rewrite !lookup_insert.
  repeat case_decide; reflexivity.
Qed.

(** X5: [ltdcfb_set_par] returns 0, writes the layer address, length and
    pixel-format registers once each, in that order, and changes no other
    register: timing, interrupt and layer-control registers keep their
    values; [var] and the buffer description keep theirs too. *)
Theorem set_par_footprint w off :
  off <> LTDC_L1CFBAR -> off <> LTDC_L1CFBLR -> off <> LTDC_L1PFCR ->
  fst (ltdcfb_set_par w) = 0
  /\ mmio (apply_mode w) !! off = mmio w !! off
  /\ (exists l, log (apply_mode w) = log w ++ l
                /\ write_offsets l
                   = [LTDC_L1CFBAR; LTDC_L1CFBLR; LTDC_L1PFCR]
                /\ length l = 3%nat)
  /\ fb_var (ctx (apply_mode w)) = fb_var (ctx w)
  /\ fix_smem_start (fb_fix (ctx (apply_mode w)))
     = fix_smem_start (fb_fix (ctx w))
  /\ fix_smem_len (fb_fix (ctx (apply_mode w)))
     = fix_smem_len (fb_fix (ctx w)).
Proof.
  intros Ha Hl Hf. split; [reflexivity |]. split.
  - unfold apply_mode, ltdcfb_set_par. cbn [snd].
    rewrite mmio_set_start, mmio_update.
    now rewrite !lookup_insert_ne by congruence.
  - split; [| repeat split].
    unfold apply_mode, ltdcfb_set_par. cbn [snd].
    rewrite log_set_start, log_update. eexists.
    split; [reflexivity |]. split; reflexivity.
Qed.

Lemma set_par_footprint_witness :
  let w := snd (ltdcfb_register good_platform
                  (fresh_world (panel_of mode_480x272 32))) in
  mmio (apply_mode w) !! LTDC_L1CR = mmio w !! LTDC_L1CR.
Proof.
  intros w.
  refine (proj1 (proj2 (set_par_footprint w LTDC_L1CR _ _ _)));
    vm_compute; discriminate.
Defined.

(** X6: a second [ltdcfb_set_par] with no change of [var] in between
    leaves the register file and the context exactly as the first did. *)
Theorem set_par_idempotent w :
  mmio (apply_mode (apply_mode w)) = mmio (apply_mode w)
  /\ ctx (apply_mode (apply_mode w)) = ctx (apply_mode w).
Proof.
  split; [| reflexivity].
  unfold apply_mode at 1. unfold ltdcfb_set_par. cbn [snd].
  rewrite mmio_set_start, mmio_update, ctx_update.
  change (mmio (apply_mode w))
    with (<[LTDC_L1PFCR := u32 LTDC_ARGB]>
            (<[LTDC_L1CFBLR := u32 (length_word (ctx (apply_mode w)))]>
               (<[LTDC_L1CFBAR := u32 (start_address (ctx (apply_mode w)))]>
                  (mmio w)))).
  apply three_inserts_again.
Qed.

(** X7: the interrupt handler writes 0xF to the interrupt-clear register
    and nothing else, so the register file and the context come out the
    same whether it runs before or after [ltdcfb_enable], [ltdcfb_disable]
    or [ltdcfb_set_par]. *)
Theorem interrupt_commutes w :
  ctx (ltdc_interrupt w) = ctx w
  /\ mmio (ltdc_interrupt w) = <[LTDC_ICR := 0xf]> (mmio w)
  /\ mmio (ltdc_interrupt (ltdcfb_enable w))
     = mmio (ltdcfb_enable (ltdc_interrupt w))
  /\ mmio (ltdc_interrupt (ltdcfb_disable w))
     = mmio (ltdcfb_disable (ltdc_interrupt w))
  /\ mmio (ltdc_interrupt (apply_mode w))
     = mmio (apply_mode (ltdc_interrupt w))
  /\ ctx (ltdc_interrupt (apply_mode w))
     = ctx (apply_mode (ltdc_interrupt w)).
Proof.
  assert (Hp : peek LTDC_L1CR (ltdc_interrupt w) = peek LTDC_L1CR w).
  { unfold ltdc_interrupt. apply peek_writel_ne. vm_compute. discriminate. }
  split; [reflexivity |]. split; [reflexivity |]. split; [| split].
  - rewrite (mmio_enable (ltdc_interrupt w)), Hp.
    unfold ltdc_interrupt. rewrite !mmio_writel, mmio_enable.
    apply insert_insert_ne. vm_compute. discriminate.
  - rewrite (mmio_disable (ltdc_interrupt w)), Hp.
    unfold ltdc_interrupt. rewrite !mmio_writel, mmio_disable.
    apply insert_insert_ne. vm_compute. discriminate.
  - split; [| reflexivity].
    unfold apply_mode, ltdcfb_set_par, ltdc_interrupt. cbn [snd].
    rewrite !mmio_writel, !mmio_set_start, !mmio_update, !ctx_update.
    rewrite mmio_writel, ctx_writel.
    rewrite (insert_insert_ne _ LTDC_ICR LTDC_L1PFCR)
      by (vm_compute; discriminate).
    rewrite (insert_insert_ne _ LTDC_ICR LTDC_L1CFBLR)
      by (vm_compute; discriminate).
    rewrite (insert_insert_ne _ LTDC_ICR LTDC_L1CFBAR)
      by (vm_compute; discriminate).
    reflexivity.
Qed.

End OpsFacts.

(** ** Registration, path by path *)

Module RegisterPaths.

Import WorldFacts RegisterFacts Inputs.

(** One goal per way through [ltdcfb_register]: nine failures, in the
    order of the source, and the success. *)
Ltac register_paths p :=
  unfold ltdcfb_register, unmap, clk_unprep, free_clk, out, PTR_ERR;
  destruct (IS_ERR (devm_clk_get p)) eqn:Hclk;
  [| destruct (Z.eqb_spec (clk_prepare_enable p) 0) as [Hprep | Hprep];
     cbn [negb];
     [ destruct (platform_get_resource p) as [[r_start r_end] |] eqn:Hres;
       [ destruct (ioremap p) eqn:Hmap; cbn [negb];
         [ rewrite !U32Facts.ult_zero_r; cbn [orb];
           destruct (Z.ltb_spec (request_irq p) 0) as [Hirq | Hirq];
           [| destruct (Z.ltb_spec (request_error_irq p) 0)
                as [Heirq | Heirq];
              [| destruct (dma_alloc_wc p) as [[base dma] |] eqn:Hdma;
                 [ destruct (Z.eqb_spec (fb_alloc_cmap p) 0)
                     as [Hcmap | Hcmap]; cbn [negb];
                   [ destruct (Z.eqb_spec (register_framebuffer p) 0)
                       as [Hreg | Hreg] |]
                 |] ] ]
         |]
       |]
     |] ].

Lemma register_zero_granted p w :
  fst (ltdcfb_register p w) = 0 -> all_granted p.
Proof.
  unfold all_granted. register_paths p; cbn [fst]; intros E;
    try (exfalso;
         first [ now apply IS_ERR_zero in Hclk
               | contradiction | discriminate ]).
  repeat split; try assumption; try lia; eauto.
Qed.

Lemma granted_register_zero p w :
  all_granted p -> fst (ltdcfb_register p w) = 0.
Proof.
  intros (H1 & H2 & H3 & H4 & H5 & H6 & H7 & H8 & H9).
  register_paths p; cbn [fst];
    try (exfalso;
         first [ congruence | contradiction | lia
               | now destruct H3 | now destruct H7 ]).
  assumption.
Qed.

(** X8: [ltdcfb_register] returns 0 exactly when the clock, its
    preparation, the register window, its mapping, both interrupt
    requests, the buffer, the colour map and the frame-buffer registration
    are all granted; the results of the two interrupt look-ups play no
    part. *)
Theorem register_succeeds_iff p w :
  fst (ltdcfb_register p w) = 0 <-> all_granted p.
Proof.
  split.
  - apply register_zero_granted.
  - apply granted_register_zero.
Qed.

Ltac path_log :=
  cbn [snd fst];
  repeat (rewrite log_emit || rewrite log_update
          || rewrite log_program_controller);
  rewrite <- ?app_assoc; cbn [app].

Ltac path_absurd :=
  exfalso;
  first [ match goal with
          | H : IS_ERR _ = true |- _ => now apply IS_ERR_zero in H
          end
        | contradiction | discriminate | lia ].

(** X9: a run of [ltdcfb_register] either writes no register at all, or
    writes ten, once each and in this order: interrupt enable, sync size,
    back porch, active width, total width, global control, layer control,
    layer address, layer length, layer pixel format.  The four timing words
    are thus in place before the controller and the layer are switched on;
    a run that returns 0 is of the second kind. *)
Theorem register_write_order p w :
  exists l,
    log (snd (ltdcfb_register p w)) = log w ++ l
    /\ ((write_offsets l = [] /\ mmio (snd (ltdcfb_register p w)) = mmio w)
        \/ write_offsets l = programming_order)
    /\ (fst (ltdcfb_register p w) = 0 -> write_offsets l = programming_order).
Proof.
  register_paths p; path_log; (eexists; split; [reflexivity |]).
  all: split;
    [ first [ left; split; reflexivity | right; reflexivity ]
    | cbn [fst]; intros E; first [ reflexivity | path_absurd ] ].
Qed.

Lemma register_write_order_witness :
  exists l,
    log (snd (ltdcfb_register good_platform
                (fresh_world (panel_of mode_480x272 32)))) = l
    /\ write_offsets l = programming_order.
Proof.
  destruct (register_write_order good_platform
              (fresh_world (panel_of mode_480x272 32)))
    as (l & Hl & _ & Hw).
  exists l. split; [exact Hl | apply Hw; reflexivity].
Defined.

Lemma ltb_false a : 0 <= a -> (a <? 0) = false.
Proof. intros H. now apply Z.ltb_ge. Qed.

Lemma ltb_true a : a < 0 -> (a <? 0) = true.
Proof. intros H. now apply Z.ltb_lt. Qed.

Lemma eqb_false a : a <> 0 -> (a =? 0) = false.
Proof. intros H. now apply Z.eqb_neq. Qed.

Lemma step_held_acquire h e r : acquired e = Some r -> step_held h e = r :: h.
Proof. intros H. unfold step_held. now rewrite H. Qed.

Lemma step_held_release h e r :
  acquired e = None -> released e = Some r -> step_held h e = drop r h.
Proof. intros H1 H2. unfold step_held. now rewrite H1, H2. Qed.

Lemma step_held_skip h e :
  acquired e = None -> released e = None -> step_held h e = h.
Proof. intros H1 H2. unfold step_held. now rewrite H1, H2. Qed.

Lemma drop_nil r : drop r [] = [].
Proof. reflexivity. Qed.

Lemma drop_cons_eq r h : drop r (r :: h) = drop r h.
Proof. unfold drop. rewrite filter_cons. now case_decide. Qed.

Lemma drop_cons_ne r r' h : r' <> r -> drop r (r' :: h) = r' :: drop r h.
Proof. intros H. unfold drop. rewrite filter_cons. now case_decide. Qed.

Ltac use_facts :=
  repeat match goal with
  | H : IS_ERR _ = _ |- _ => rewrite H
  | H : 0 <= ?a |- context [?a <? 0] => rewrite (ltb_false a H)
  | H : ?a < 0 |- context [?a <? 0] => rewrite (ltb_true a H)
  | H : ?a = 0 |- context [?a =? 0] => rewrite H
  | H : ?a <> 0 |- context [?a =? 0] => rewrite (eqb_false a H)
  end.

Ltac held_side := cbn [acquired released]; use_facts; reflexivity.

(** Runs [step_held] over an explicit list of events, one event at a
    time, then carries out the [drop]s. *)
Ltac held_eval :=
  cbn [ctx emit update irq error_irq set_irq set_error_irq];
  repeat match goal with
  | |- context [fold_left step_held (?e :: ?l) ?h] =>
      change (fold_left step_held (e :: l) h)
        with (fold_left step_held l (step_held h e));
      first [ rewrite (step_held_skip h e) by held_side
            | erewrite (step_held_acquire h e) by held_side
            | erewrite (step_held_release h e) by held_side ]
  end;
  cbn [fold_left];
  repeat (rewrite drop_nil || rewrite drop_cons_eq
          || rewrite drop_cons_ne by discriminate).

(** A run in which everything is granted: the events it adds acquire the
    eight resources in order and release none. *)
Lemma granted_run p w :
  all_granted p ->
  exists l,
    log (snd (ltdcfb_register p w)) = log w ++ l
    /\ (forall h,
          fold_left step_held l h
          = [R_framebuffer; R_cmap; R_buffer;
             R_irq (u32 (ltdc_error_irq p)); R_irq (u32 (ltdc_irq p));
             R_regs; R_clk_prepared; R_clk] ++ h)
    /\ releases l = []
    /\ acquisitions l
       = [R_clk; R_clk_prepared; R_regs; R_irq (u32 (ltdc_irq p));
          R_irq (u32 (ltdc_error_irq p)); R_buffer; R_cmap; R_framebuffer].
Proof.
  intros (G1 & G2 & G3 & G4 & G5 & G6 & G7 & G8 & G9).
  register_paths p; path_log;
    try solve [ congruence | contradiction | lia
              | now destruct G3 | now destruct G7 ].
  eexists. split; [reflexivity |].
  split; [intros h; held_eval; reflexivity |].
  unfold releases, acquisitions.
  cbn [ctx emit update irq error_irq set_irq set_error_irq].
  cbn [omap list_omap released acquired]. use_facts.
  cbn [omap list_omap]. split; reflexivity.
Qed.

(** X10: a successful [ltdcfb_register] on a fresh context releases
    nothing and ends holding, from the most recent: the registered frame
    buffer, the colour map, the buffer, the error interrupt, the line
    interrupt (both under the look-up result wrapped to 32 bits), the
    register mapping, the prepared clock and the clock. *)
Theorem register_success_holdings p w :
  log w = [] ->
  all_granted p ->
  held (log (snd (ltdcfb_register p w)))
  = [R_framebuffer; R_cmap; R_buffer; R_irq (u32 (ltdc_error_irq p));
     R_irq (u32 (ltdc_irq p)); R_regs; R_clk_prepared; R_clk]
  /\ releases (log (snd (ltdcfb_register p w))) = [].
Proof.
  intros Hlog G.
  destruct (granted_run p w G) as (l & Hl & Hh & Hr & _).
  rewrite Hl, Hlog. cbn [app]. unfold held. rewrite Hh.
  split; [reflexivity | exact Hr].
Qed.

Lemma register_success_holdings_witness :
  held (log (snd (ltdcfb_register good_platform
                    (fresh_world (panel_of mode_480x272 32)))))
  = [R_framebuffer; R_cmap; R_buffer; R_irq 89; R_irq 88; R_regs;
     R_clk_prepared; R_clk].
Proof.
  refine (proj1 (register_success_holdings good_platform
                   (fresh_world (panel_of mode_480x272 32)) eq_refl _)).
  unfold all_granted. vm_compute.
  repeat split; solve [reflexivity | discriminate | eauto].
Defined.

Ltac pick_disjunct :=
  solve [ left; reflexivity
        | right; left; reflexivity
        | do 2 right; left; reflexivity
        | do 3 right; left; reflexivity
        | do 4 right; left; reflexivity
        | do 5 right; reflexivity ].

Lemma clk_enable_count_app l1 l2 :
  clk_enable_count (l1 ++ l2)
  = (clk_enable_count l1 + clk_enable_count l2)%nat.
Proof.
  induction l1 as [| e l1 IH]; [reflexivity |].
  cbn [app clk_enable_count]. rewrite IH. apply Nat.add_assoc.
Qed.

(** A run of [ltdcfb_register] raises the clock's enable count by one
    when [clk_prepare_enable] is reached and succeeds, and never lowers
    it. *)
Lemma register_enable_count p w :
  clk_enable_count (log (snd (ltdcfb_register p w)))
  = (clk_enable_count (log w)
     + (if IS_ERR (devm_clk_get p) then 0
        else if Z.eqb (clk_prepare_enable p) 0 then 1 else 0))%nat.
Proof.
  register_paths p; path_log; rewrite clk_enable_count_app; f_equal;
    cbn [clk_enable_count enables_clock]; use_facts; reflexivity.
Qed.

(** X11: what a failed [ltdcfb_register] on a fresh context leaves
    behind.  Of the clock handle, its preparation, the register mapping,
    the interrupts, the buffer and the colour map, what is still held is
    one of six sets: none; the register mapping; the mapping and the line
    interrupt; the mapping and both interrupts; the buffer and both
    interrupts; both interrupts.  It is none exactly when the failure is
    that of the clock, its preparation, the register window or its
    mapping.  The clock's enable is apart from these: no path undoes it,
    so the clock is still enabled, once, after every failure later than a
    successful [clk_prepare_enable].  Nothing at all is left, the enable
    included, exactly when the failure is that of [devm_clk_get] or of
    [clk_prepare_enable]. *)
Theorem register_failure_leftovers p w :
  log w = [] ->
  fst (ltdcfb_register p w) <> 0 ->
  let l := log (snd (ltdcfb_register p w)) in
  let h := held l in
  let i := R_irq (u32 (ltdc_irq p)) in
  let e := R_irq (u32 (ltdc_error_irq p)) in
  (h = [] \/ h = [R_regs] \/ h = [i; R_regs] \/ h = [e; i; R_regs]
   \/ h = [R_buffer; e; i] \/ h = [e; i])
  /\ (h = [] <->
      IS_ERR (devm_clk_get p) = true \/ clk_prepare_enable p <> 0
      \/ platform_get_resource p = None \/ ioremap p = false)
  /\ (clk_enable_count l = 0%nat \/ clk_enable_count l = 1%nat)
  /\ (clk_enable_count l = 0%nat <->
      IS_ERR (devm_clk_get p) = true \/ clk_prepare_enable p <> 0)
  /\ (h = [] /\ clk_enable_count l = 0%nat <->
      IS_ERR (devm_clk_get p) = true \/ clk_prepare_enable p <> 0).
Proof.
  intros Hlog Hret. cbn zeta.
  assert (Hheld :
    let h := held (log (snd (ltdcfb_register p w))) in
    let i := R_irq (u32 (ltdc_irq p)) in
    let e := R_irq (u32 (ltdc_error_irq p)) in
    (h = [] \/ h = [R_regs] \/ h = [i; R_regs] \/ h = [e; i; R_regs]
     \/ h = [R_buffer; e; i] \/ h = [e; i])
    /\ (h = [] <->
        IS_ERR (devm_clk_get p) = true \/ clk_prepare_enable p <> 0
        \/ platform_get_resource p = None \/ ioremap p = false)).
  { revert Hret. cbn zeta. unfold held.
    register_paths p; path_log; rewrite Hlog; cbn [app fst]; intros Hret;
      try contradiction; held_eval.
    all: split; [pick_disjunct |].
    all: split; intros H;
      first [ reflexivity | discriminate H | tauto
            | destruct H as [H | [H | [H | H]]];
              first [ discriminate H | contradiction | congruence ] ]. }
  cbn zeta in Hheld. destruct Hheld as [Hsets Hnone].
  assert (Hcount :
    clk_enable_count (log (snd (ltdcfb_register p w)))
    = if IS_ERR (devm_clk_get p) then 0%nat
      else if clk_prepare_enable p =? 0 then 1%nat else 0%nat).
  { rewrite register_enable_count, Hlog. reflexivity. }
  assert (Hzero :
    clk_enable_count (log (snd (ltdcfb_register p w))) = 0%nat <->
    IS_ERR (devm_clk_get p) = true \/ clk_prepare_enable p <> 0).
  { rewrite Hcount. destruct (IS_ERR (devm_clk_get p)); [tauto |].
    destruct (Z.eqb_spec (clk_prepare_enable p) 0) as [E | E].
    - split; [discriminate | intros [H | H]; [discriminate | contradiction]].
    - tauto. }
  split; [exact Hsets |]. split; [exact Hnone |].
  split.
  { rewrite Hcount. destruct (IS_ERR (devm_clk_get p)); [tauto |].
    destruct (clk_prepare_enable p =? 0); tauto. }
  split; [exact Hzero |].
  split.
  - intros [_ H]. now apply Hzero.
  - intros H. split; [apply Hnone; tauto | now apply Hzero].
Qed.

Lemma register_failure_leftovers_witness :
  let l := log (snd (ltdcfb_register irq_busy_platform
                       (fresh_world (panel_of mode_480x272 32)))) in
  held l = [R_regs] /\ clk_enable_count l = 1%nat.
Proof.
  pose proof (register_failure_leftovers irq_busy_platform
                (fresh_world (panel_of mode_480x272 32)) eq_refl) as H.
  cbn zeta in H.
  destruct H as (Hsets & _ & Hcount & Hzero & _);
    [vm_compute; discriminate |].
  split.
  - destruct Hsets as [H | [H | [H | [H | [H | H]]]]];
      first [ exact H | vm_compute in H; discriminate H ].
  - destruct Hcount as [H | H]; [| exact H].
    apply Hzero in H.
    destruct H as [H | H]; vm_compute in H;
      first [ discriminate H | now exfalso; apply H ].
Defined.

End RegisterPaths.

(** ** The resolver, beyond the reference value *)

Module ResolverMore.

Import Resolver ResolverFacts Inputs.

Lemma bpp_of_bandwidth_range B P : 0 <= bpp_of_bandwidth B P <= 32.
Proof.
  unfold bpp_of_bandwidth.
  set (b := u32 (rounddown_pow_of_two _)).
  pose proof (U32Facts.u32_range (rounddown_pow_of_two
    (u32 (u32 (B / (1000 / 8)) / PICOS2KHZ P)))) as Hb. fold b in Hb.
  rewrite U32Facts.ugt_spec by (unfold modulus in *; lia).
  destruct (Z.ltb_spec 32 b); lia.
Qed.

(** X12: for a device tree whose "max-memory-bandwidth", when there is
    one, is a [u32], and whose mode, when one is read, has a pixel clock
    between 1 and 1000000000 ps (outside that range lines 498-499 divide by
    zero).  When [ltdcfb_of_init] returns 0 the panel exists, carries the
    mode read from the device tree, has its physical width and height
    unset (-1) and a depth between 0 and 32; and neither the return value
    nor the mode depends on the bandwidth property, as long as it is a
    [u32]. *)
Theorem of_init_postcondition dt :
  (forall m, ltdcfb_of_get_mode dt zero_mode = (0, m) ->
             0 < pixclock m <= 1000000000) ->
  (forall B, max_memory_bandwidth dt = Some B -> 0 <= B < modulus) ->
  (forall pn,
      ltdcfb_of_init dt = (0, Some pn) ->
      ltdcfb_of_get_mode dt zero_mode = (0, mode pn)
      /\ 0 < pixclock (mode pn) <= 1000000000
      /\ width pn = -1 /\ height pn = -1
      /\ 0 <= bpp pn <= 32)
  /\ (fst (ltdcfb_of_init dt) = 0 -> is_Some (snd (ltdcfb_of_init dt)))
  /\ (forall bw,
        (forall B, bw = Some B -> 0 <= B < modulus) ->
        fst (ltdcfb_of_init (with_bandwidth bw dt)) = fst (ltdcfb_of_init dt)
        /\ (mode <$> snd (ltdcfb_of_init (with_bandwidth bw dt)))
           = (mode <$> snd (ltdcfb_of_init dt))).
Proof.
  intros Hclock Hbw. split; [| split].
  - intros pn. revert Hclock. unfold ltdcfb_of_init.
    destruct (panel_kzalloc dt); cbn [negb]; [| discriminate].
    destruct (next_endpoint dt); cbn [negb]; [| discriminate].
    change (mode zero_panel) with zero_mode.
    destruct (ltdcfb_of_get_mode dt zero_mode) as [err m].
    destruct (Z.eqb_spec err 0) as [-> | Hne]; cbn [negb].
    + intros Hclock [= <-].
      cbn [bpp width height mode set_panel_height set_panel_width
           set_panel_bpp set_panel_mode zero_panel].
      split; [reflexivity |]. split; [now apply Hclock |].
      split; [reflexivity |]. split; [reflexivity |].
      destruct (max_memory_bandwidth dt) as [B |].
      * pose proof (bpp_of_bandwidth_range B (pixclock m)) as Hb.
        rewrite Z.mod_small by lia. lia.
      * change (32 mod 256) with 32. lia.
    + intros _ [= E _]. congruence.
  - unfold ltdcfb_of_init.
    destruct (panel_kzalloc dt); cbn [negb]; [| discriminate].
    destruct (next_endpoint dt); cbn [negb]; [eauto |].
    + destruct (ltdcfb_of_get_mode dt (mode zero_panel)) as [err m].
      destruct (negb (err =? 0)); cbn; eauto.
    + cbn. eauto.
  - intros bw _.
    assert (Hm : forall m, ltdcfb_of_get_mode (with_bandwidth bw dt) m
                           = ltdcfb_of_get_mode dt m) by reflexivity.
    unfold ltdcfb_of_init. rewrite Hm.
    change (panel_kzalloc (with_bandwidth bw dt)) with (panel_kzalloc dt).
    change (next_endpoint (with_bandwidth bw dt)) with (next_endpoint dt).
    destruct (panel_kzalloc dt); cbn [negb]; [| split; reflexivity].
    destruct (next_endpoint dt); cbn [negb]; [| split; reflexivity].
    destruct (ltdcfb_of_get_mode dt (mode zero_panel)) as [err m].
    destruct (negb (err =? 0)); split; reflexivity.
Qed.

Lemma of_init_postcondition_witness :
  (width (panel_of mode_480x272 16) = -1
   /\ 0 <= bpp (panel_of mode_480x272 16) <= 32)
  /\ fst (ltdcfb_of_init
            (with_bandwidth (Some 36000000)
               (dt_with mode_480x272 (Some 18000000))))
     = fst (ltdcfb_of_init (dt_with mode_480x272 (Some 18000000))).
Proof.
  assert (Hclock : forall m,
    ltdcfb_of_get_mode (dt_with mode_480x272 (Some 18000000)) zero_mode
    = (0, m) -> 0 < pixclock m <= 1000000000).
  { intros m [= <-]. vm_compute. split; [reflexivity | discriminate]. }
  assert (Hbw : forall B,
    max_memory_bandwidth (dt_with mode_480x272 (Some 18000000)) = Some B ->
    0 <= B < modulus).
  { intros B [= <-]. vm_compute. split; [discriminate | reflexivity]. }
  destruct (of_init_postcondition
              (dt_with mode_480x272 (Some 18000000)) Hclock Hbw)
    as (Hpost & _ & Hind).
  destruct (Hpost (panel_of mode_480x272 16) eq_refl)
    as (_ & _ & Hw & _ & Hb).
  split; [split; [exact Hw | exact Hb] |].
  refine (proj1 (Hind (Some 36000000) _)).
  intros B [= <-]. vm_compute. split; [discriminate | reflexivity].
Defined.

(** X13: for a budget and a pixel clock for which the raw depth is at
    least one, the depth [ltdcfb_of_init] derives is a power of two
    between 1 and 32, needs no more than the budget (depth times pixel
    rate is at most eight times the budget), and is the largest such power
    of two unless it is 32. *)
Theorem bpp_of_bandwidth_fits_budget B P :
  0 <= B < modulus -> 0 < P <= 1000000000 -> 1 <= spec_bpp_raw B P ->
  let b := bpp_of_bandwidth B P in
  (exists k, 0 <= k <= 5 /\ b = 2 ^ k)
  /\ b * (PICOS2KHZ P * 1000) <= 8 * B
  /\ (b = 32 \/ 8 * B < 2 * b * (PICOS2KHZ P * 1000)).
Proof.
  intros HB HP Hraw b.
  destruct (bpp_of_bandwidth_spec B P HB HP Hraw) as [Eb Hb]. fold b in Eb, Hb.
  pose proof (raw_below_modulus B P HB HP) as Hlt.
  pose proof (PICOS2KHZ_pos P HP) as HK.
  unfold spec_resolve_bpp in Eb.
  rewrite spec_round_down_pow2_log2 in Eb by lia.
  set (n := spec_bpp_raw B P) in *.
  pose proof (Z.log2_spec n ltac:(lia)) as [Hlo Hhi].
  pose proof (Z.log2_nonneg n) as Hk.
  assert (Hn : n * (PICOS2KHZ P * 1000) <= 8 * B).
  { subst n. unfold spec_bpp_raw. rewrite Z.mul_comm.
    apply Z.mul_div_le. lia. }
  assert (Hn' : 8 * B < (n + 1) * (PICOS2KHZ P * 1000)).
  { subst n. unfold spec_bpp_raw.
    pose proof (Z.mul_succ_div_gt (8 * B) (PICOS2KHZ P * 1000) ltac:(lia)).
    lia. }
  destruct (Z.le_gt_cases (2 ^ Z.log2 n) 32) as [Hsmall | Hbig].
  - rewrite Z.min_r in Eb by lia.
    split; [| split].
    + exists (Z.log2 n). split; [| exact Eb].
      split; [assumption |].
      destruct (Z.le_gt_cases (Z.log2 n) 5) as [|Hgt]; [assumption |].
      assert (2 ^ 6 <= 2 ^ Z.log2 n) by (apply Z.pow_le_mono_r; lia).
      change (2 ^ 6) with 64 in *. lia.
    + rewrite Eb. nia.
    + right. rewrite Eb. rewrite Z.pow_succ_r in Hhi by assumption. nia.
  - rewrite Z.min_l in Eb by lia.
    split; [| split].
    + exists 5. split; [lia | rewrite Eb; reflexivity].
    + rewrite Eb. nia.
    + left. exact Eb.
Qed.

Lemma bpp_of_bandwidth_fits_budget_witness :
  bpp_of_bandwidth 18000000 111111 * (PICOS2KHZ 111111 * 1000)
  <= 8 * 18000000.
Proof.
  refine (proj1 (proj2 (bpp_of_bandwidth_fits_budget 18000000 111111 _ _ _)));
    vm_compute; intuition congruence.
Defined.

(** X14: with the pixel clock fixed, a larger budget never yields a
    smaller depth. *)
Theorem bpp_of_bandwidth_monotone B1 B2 P :
  0 <= B1 <= B2 -> B2 < modulus -> 0 < P <= 1000000000 ->
  1 <= spec_bpp_raw B1 P ->
  bpp_of_bandwidth B1 P <= bpp_of_bandwidth B2 P.
Proof.
  intros HB H2 HP Hraw.
  pose proof (PICOS2KHZ_pos P HP) as HK.
  assert (Hmono : spec_bpp_raw B1 P <= spec_bpp_raw B2 P).
  { unfold spec_bpp_raw. apply Z.div_le_mono; lia. }
  destruct (bpp_of_bandwidth_spec B1 P ltac:(lia) HP Hraw) as [E1 _].
  destruct (bpp_of_bandwidth_spec B2 P ltac:(lia) HP ltac:(lia)) as [E2 _].
  rewrite E1, E2. unfold spec_resolve_bpp.
  pose proof (raw_below_modulus B1 P ltac:(lia) HP).
  pose proof (raw_below_modulus B2 P ltac:(lia) HP).
  rewrite !spec_round_down_pow2_log2 by lia.
  apply Z.min_le_compat_l.
  apply Z.pow_le_mono_r; [lia |]. now apply Z.log2_le_mono.
Qed.

Lemma bpp_of_bandwidth_monotone_witness :
  bpp_of_bandwidth 18000000 111111 <= bpp_of_bandwidth 36000000 111111.
Proof.
  apply bpp_of_bandwidth_monotone; vm_compute; intuition congruence.
Defined.

(** X24: [ltdcfb_of_get_mode] returns 0 only for a "panel-dpi" panel
    whose name allocation is granted, and the mode it then yields is the
    one of the panel's timing under a new name: the text
    "<xres>x<yres>@<refresh>" in decimal, whatever the name was before.
    Without a panel it returns [-ENODEV], for another kind of panel
    [-ENOENT], and when the name cannot be allocated [-ENOMEM]. *)
Theorem of_get_mode_names_mode dt m0 :
  (forall m,
      ltdcfb_of_get_mode dt m0 = (0, m) ->
      name m = ltdcfb_snprintf_mode m
      /\ name_kzalloc dt = true
      /\ exists panel,
           remote_port_parent dt = Some panel
           /\ compatible_panel_dpi panel = true
           /\ (forall t, panel_timing panel = inr t ->
                         m = set_mode_name (ltdcfb_snprintf_mode t) t))
  /\ (remote_port_parent dt = None ->
      ltdcfb_of_get_mode dt m0 = (- ENODEV, m0))
  /\ (forall panel,
        remote_port_parent dt = Some panel ->
        compatible_panel_dpi panel = false ->
        ltdcfb_of_get_mode dt m0 = (- ENOENT, m0))
  /\ (forall panel t,
        remote_port_parent dt = Some panel ->
        compatible_panel_dpi panel = true ->
        panel_timing panel = inr t ->
        ltdcfb_of_get_mode dt m0
        = if name_kzalloc dt
          then (0, set_mode_name (ltdcfb_snprintf_mode t) t)
          else (- ENOMEM, t)).
Proof.
  unfold ltdcfb_of_get_mode, ltdcfb_of_get_dpi_panel_mode.
  split; [| split; [| split]].
  - intros m.
    destruct (remote_port_parent dt) as [panel |]; [| discriminate].
    destruct (compatible_panel_dpi panel) eqn:Hc; [| discriminate].
    destruct (panel_timing panel) as [err | t] eqn:Ht.
    + destruct (Z.eqb_spec err 0) as [-> | Hne]; cbn [negb].
      * destruct (name_kzalloc dt); cbn [negb]; [| discriminate].
        intros [= <-]. split; [reflexivity |]. split; [reflexivity |].
        exists panel. split; [reflexivity |]. split; [exact Hc |].
        intros t Ht'. rewrite Ht in Ht'. discriminate.
      * intros [= E _]. contradiction.
    + cbn [negb Z.eqb].
      destruct (name_kzalloc dt); cbn [negb]; [| discriminate].
      intros [= <-]. split; [reflexivity |]. split; [reflexivity |].
      exists panel. split; [reflexivity |]. split; [exact Hc |].
      intros t' Ht'. rewrite Ht in Ht'. now injection Ht' as <-.
  - now intros ->.
  - intros panel -> ->. reflexivity.
  - intros panel t -> -> ->. cbn [negb Z.eqb].
    now destruct (name_kzalloc dt).
Qed.

Lemma of_get_mode_names_mode_witness :
  let dt := dt_with (set_mode_name "lcd" mode_480x272) None in
  ltdcfb_of_get_mode dt zero_mode = (0, mode_480x272)
  /\ name mode_480x272 = "480x272@60"%string
  /\ print_u 0 = "0"%string
  /\ print_u 4294967295 = "4294967295"%string.
Proof.
  intros dt.
  pose proof (of_get_mode_names_mode dt zero_mode) as (_ & _ & _ & Hok).
  split; [| repeat split].
  exact (Hok _ (set_mode_name "lcd" mode_480x272)
             eq_refl eq_refl eq_refl).
Defined.

End ResolverMore.

(** ** Mapping the buffer *)

Module MmapFacts.

Import Inputs MoreInputs.

(** X15: [ltdcfb_mmap] asks [dma_mmap_wc] for a mapping exactly when the
    requested window, from the (32-bit) byte offset [vm_pgoff << PAGE_SHIFT]
    over [vm_end - vm_start] bytes, lies inside the buffer; the mapping it
    asks for then runs from that offset to the end of the buffer, and its
    result is returned.  In every other case it returns [-EINVAL] and calls
    nothing. *)
Theorem mmap_window PAGE_SHIFT dma_ret vma s :
  let off := shl (vm_pgoff vma) PAGE_SHIFT in
  let len := u32 (fix_smem_len (fb_fix (sys_ctx s))) in
  let req := u32 (vm_end vma - vm_start vma) in
  (off + req <= len ->
     ltdcfb_mmap PAGE_SHIFT dma_ret vma s
     = (dma_ret,
        sys_emit (Dma_mmap_wc (screen_base (sys_ctx s))
                              (u32 (fix_smem_start (fb_fix (sys_ctx s)) + off))
                              (len - off) dma_ret) s))
  /\ (len < off + req ->
        ltdcfb_mmap PAGE_SHIFT dma_ret vma s = (- EINVAL, s)).
Proof.
  intros off len req.
  pose proof (U32Facts.u32_range (Z.shiftl (vm_pgoff vma) PAGE_SHIFT)) as Ho.
  pose proof (U32Facts.u32_range (fix_smem_len (fb_fix (sys_ctx s)))) as Hl.
  pose proof (U32Facts.u32_range (vm_end vma - vm_start vma)) as Hr.
  fold (shl (vm_pgoff vma) PAGE_SHIFT) in Ho. fold off in Ho.
  fold len in Hl. fold req in Hr.
  unfold ltdcfb_mmap. fold off len req.
  split; intros H.
  - rewrite (U32Facts.u32_small (len - off)) by lia.
    destruct (Z.leb_spec off len); [| lia].
    destruct (Z.leb_spec req (len - off)); [| lia].
    reflexivity.
  - destruct (Z.leb_spec off len) as [Hle | Hgt]; [| reflexivity].
    rewrite (U32Facts.u32_small (len - off)) by lia.
    destruct (Z.leb_spec req (len - off)); [lia | reflexivity].
Qed.

Lemma mmap_window_witness :
  let s := snd (ltdcfb_probe good_probe_platform (cold ∅)) in
  fst (ltdcfb_mmap 12 0 {| vm_start := 0x10000; vm_end := 0x11000;
                            vm_pgoff := 1 |} s) = 0
  /\ fst (ltdcfb_mmap 12 0 {| vm_start := 0x10000; vm_end := 0x11000;
                               vm_pgoff := 127 |} s) = - EINVAL.
Proof.
  intros s.
  pose proof (mmap_window 12 0 {| vm_start := 0x10000; vm_end := 0x11000;
                                  vm_pgoff := 1 |} s) as [Hin _].
  pose proof (mmap_window 12 0 {| vm_start := 0x10000; vm_end := 0x11000;
                                  vm_pgoff := 127 |} s) as [_ Hout].
  cbn zeta in Hin, Hout.
  rewrite Hin by (vm_compute; discriminate).
  rewrite Hout by (vm_compute; reflexivity).
  split; reflexivity.
Defined.

End MmapFacts.

(** ** Probe and remove *)

Module ProbeFacts.

Import Resolver WorldFacts RegisterFacts RegisterPaths Inputs MoreInputs.

Lemma sys_drop_res r h :
  sys_drop (Res r) (map Res h) = map Res (drop r h).
Proof.
  unfold sys_drop, drop. induction h as [| x h IH]; [reflexivity |].
  cbn [map]. rewrite !filter_cons, IH.
  destruct (decide (x = r)) as [-> | Hne]; repeat case_decide;
    try reflexivity; exfalso; naive_solver.
Qed.

Lemma sys_drop_app r h1 h2 :
  sys_drop r (h1 ++ h2) = sys_drop r h1 ++ sys_drop r h2.
Proof. unfold sys_drop. apply filter_app. Qed.

(** Events of the driver proper act on the driver's resources only. *)
Lemma sys_fold_drv l : forall h tl,
  (forall r, sys_drop (Res r) tl = tl) ->
  fold_left sys_step (map Drv l) (map Res h ++ tl)
  = map Res (fold_left step_held l h) ++ tl.
Proof.
  induction l as [| e l IH]; intros h tl Htl; [reflexivity |].
  cbn [map fold_left]. rewrite <- IH by assumption. f_equal.
  unfold sys_step, step_held. cbn [sys_acquired sys_released].
  destruct (acquired e) as [r |]; cbn [fmap option_fmap option_map];
    [reflexivity |].
  destruct (released e) as [r |]; cbn [fmap option_fmap option_map];
    [| reflexivity].
  now rewrite sys_drop_app, sys_drop_res, Htl.
Qed.

Lemma sys_releases_drv l : sys_releases (map Drv l) = map Res (releases l).
Proof.
  unfold sys_releases, releases. induction l as [| e l IH]; [reflexivity |].
  cbn [map omap list_omap sys_released]. rewrite IH.
  now destruct (released e).
Qed.

Lemma sys_acquisitions_drv l :
  sys_acquisitions (map Drv l) = map Res (acquisitions l).
Proof.
  unfold sys_acquisitions, acquisitions.
  induction l as [| e l IH]; [reflexivity |].
  cbn [map omap list_omap sys_acquired]. rewrite IH.
  now destruct (acquired e).
Qed.

(** [ltdcfb_probe] once it has a context and a panel: the rest is
    [ltdcfb_register] and one of two endings. *)
Lemma probe_reaches_register pp s dt pn :
  dma_set_mask_and_coherent pp = 0 ->
  fb_kzalloc pp = true ->
  of_node pp = Some dt ->
  ltdcfb_of_init dt = (0, pn) ->
  let run := ltdcfb_register (bus pp) (probe_world pn (regs s)) in
  let t := trace s ++ [Dma_set_mask_and_coherent 0; Kzalloc_fb true]
                   ++ map Drv (log (snd run)) in
  ltdcfb_probe pp s
  = if fst run =? 0
    then (fst run,
          {| sys_ctx := ctx (snd run); regs := mmio (snd run);
             trace := t ++ [Dev_set_drvdata] |})
    else (fst run,
          {| sys_ctx := ctx (snd run); regs := mmio (snd run);
             trace := t ++ [Drv (Dev_err "failed probing Framebuffer device");
                            Kfree_fb] |}).
Proof.
  intros Hd Hk Hn Hi run t. subst t run.
  unfold ltdcfb_probe, in_driver. rewrite Hd, Hk, Hn, Hi.
  cbn [negb Z.eqb sys_ctx set_sys_ctx sys_emit regs trace].
  fold (probe_world pn (regs s)).
  destruct (ltdcfb_register (bus pp) (probe_world pn (regs s))) as [r w].
  cbn [fst snd]. destruct (r =? 0); unfold sys_emit;
    cbn [sys_ctx regs trace]; rewrite <- !app_assoc; cbn [app];
    reflexivity.
Qed.

Lemma probe_zero_conditions pp s :
  fst (ltdcfb_probe pp s) = 0 ->
  dma_set_mask_and_coherent pp = 0
  /\ fb_kzalloc pp = true
  /\ (exists dt, of_node pp = Some dt /\ fst (ltdcfb_of_init dt) = 0)
  /\ all_granted (bus pp).
Proof.
  destruct (Z.eq_dec (dma_set_mask_and_coherent pp) 0) as [Hd | Hd].
  2: { unfold ltdcfb_probe. rewrite (eqb_false _ Hd). cbn [negb fst].
       contradiction. }
  destruct (fb_kzalloc pp) eqn:Hk.
  2: { unfold ltdcfb_probe. rewrite Hd, Hk. cbn [negb Z.eqb fst].
       discriminate. }
  destruct (of_node pp) as [dt |] eqn:Hn.
  2: { unfold ltdcfb_probe. rewrite Hd, Hk, Hn. cbn [negb Z.eqb fst].
       discriminate. }
  destruct (ltdcfb_of_init dt) as [r pn] eqn:Hi.
  destruct (Z.eq_dec r 0) as [-> | Hr].
  2: { unfold ltdcfb_probe. rewrite Hd, Hk, Hn, Hi, (eqb_false _ Hr).
       cbn [negb Z.eqb fst]. discriminate. }
  rewrite (probe_reaches_register pp s dt pn Hd Hk Hn Hi). cbn zeta.
  set (run := ltdcfb_register (bus pp) (probe_world pn (regs s))).
  intros H.
  assert (E : fst run = 0) by (destruct (fst run =? 0); exact H).
  split; [exact Hd |]. split; [reflexivity |]. split.
  - exists dt. split; [reflexivity | now rewrite Hi].
  - now apply (register_zero_granted (bus pp) (probe_world pn (regs s))).
Qed.

Lemma conditions_probe_zero pp s dt :
  dma_set_mask_and_coherent pp = 0 ->
  fb_kzalloc pp = true ->
  of_node pp = Some dt ->
  fst (ltdcfb_of_init dt) = 0 ->
  all_granted (bus pp) ->
  fst (ltdcfb_probe pp s) = 0.
Proof.
  intros Hd Hk Hn Hi G.
  destruct (ltdcfb_of_init dt) as [r pn] eqn:Ei. cbn [fst] in Hi. subst r.
  rewrite (probe_reaches_register pp s dt pn Hd Hk Hn Ei). cbn zeta.
  rewrite (granted_register_zero (bus pp) (probe_world pn (regs s)) G).
  reflexivity.
Qed.

(** X16: [ltdcfb_probe] returns 0 exactly when the DMA mask is accepted,
    the context is allocated, the device has a device-tree node that
    [ltdcfb_of_init] accepts, and [ltdcfb_register] is granted all it asks
    for. *)
Theorem probe_succeeds_iff pp s :
  fst (ltdcfb_probe pp s) = 0
  <-> dma_set_mask_and_coherent pp = 0
      /\ fb_kzalloc pp = true
      /\ (exists dt, of_node pp = Some dt /\ fst (ltdcfb_of_init dt) = 0)
      /\ all_granted (bus pp).
Proof.
  split.
  - apply probe_zero_conditions.
  - intros (Hd & Hk & (dt & Hn & Hi) & G).
    now apply (conditions_probe_zero pp s dt).
Qed.

Lemma sys_step_acquire h e r :
  sys_acquired e = Some r -> sys_step h e = r :: h.
Proof. intros H. unfold sys_step. now rewrite H. Qed.

Lemma sys_step_release h e r :
  sys_acquired e = None -> sys_released e = Some r ->
  sys_step h e = sys_drop r h.
Proof. intros H1 H2. unfold sys_step. now rewrite H1, H2. Qed.

Lemma sys_step_skip h e :
  sys_acquired e = None -> sys_released e = None -> sys_step h e = h.
Proof. intros H1 H2. unfold sys_step. now rewrite H1, H2. Qed.

Lemma sys_drop_nil r : sys_drop r [] = [].
Proof. reflexivity. Qed.

Lemma sys_drop_cons_eq r h : sys_drop r (r :: h) = sys_drop r h.
Proof. unfold sys_drop. rewrite filter_cons. now case_decide. Qed.

Lemma sys_drop_cons_ne r r' h :
  r' <> r -> sys_drop r (r' :: h) = r' :: sys_drop r h.
Proof. intros H. unfold sys_drop. rewrite filter_cons. now case_decide. Qed.

Lemma sys_drop_context h : sys_drop R_context (map Res h) = map Res h.
Proof.
  induction h as [| x h IH]; [reflexivity |].
  cbn [map]. rewrite sys_drop_cons_ne by discriminate. now rewrite IH.
Qed.

Ltac sys_side :=
  cbn [sys_acquired sys_released acquired released
       fmap option_fmap option_map];
  reflexivity.

(** Runs [sys_step] over an explicit list of events, one at a time. *)
Ltac sys_eval :=
  repeat match goal with
  | |- context [fold_left sys_step (?e :: ?l) ?h] =>
      change (fold_left sys_step (e :: l) h)
        with (fold_left sys_step l (sys_step h e));
      first [ rewrite (sys_step_skip h e) by sys_side
            | erewrite (sys_step_acquire h e) by sys_side
            | erewrite (sys_step_release h e) by sys_side ]
  end;
  cbn [fold_left];
  repeat (rewrite sys_drop_nil || rewrite sys_drop_cons_eq
          || rewrite sys_drop_cons_ne by discriminate).

(** The holdings after the opening of a successful look at the device
    tree: the context, under whatever the driver proper holds. *)
Lemma sys_held_probe l rest :
  sys_held (Dma_set_mask_and_coherent 0 :: Kzalloc_fb true
              :: map Drv l ++ rest)
  = fold_left sys_step rest (map Res (held l) ++ [R_context]).
Proof.
  unfold sys_held, held. sys_eval.
  rewrite fold_left_app. f_equal.
  apply (sys_fold_drv l [] [R_context]).
  intros r. now rewrite sys_drop_cons_ne by discriminate.
Qed.

(** X17: what a failed [ltdcfb_probe] of a cold device returns and
    leaves allocated.  A refused DMA mask or a failed allocation of the
    context leave nothing.  A missing device-tree node, or one that
    [ltdcfb_of_init] rejects, gives [-ENODEV] whatever the cause, and the
    context stays allocated.  Once [ltdcfb_register] runs, its return value
    is the result; on failure the context is freed and what stays held is
    what [ltdcfb_register] left, on success the context is held on top of
    it. *)
Theorem probe_fate pp r :
  let res := ltdcfb_probe pp (cold r) in
  let h := sys_held (trace (snd res)) in
  (dma_set_mask_and_coherent pp <> 0 ->
     fst res = dma_set_mask_and_coherent pp /\ h = [])
  /\ (dma_set_mask_and_coherent pp = 0 -> fb_kzalloc pp = false ->
        fst res = - ENOMEM /\ h = [])
  /\ (dma_set_mask_and_coherent pp = 0 -> fb_kzalloc pp = true ->
        (of_node pp = None
         \/ exists dt, of_node pp = Some dt /\ fst (ltdcfb_of_init dt) <> 0) ->
        fst res = - ENODEV /\ h = [R_context])
  /\ (forall dt,
        dma_set_mask_and_coherent pp = 0 -> fb_kzalloc pp = true ->
        of_node pp = Some dt -> fst (ltdcfb_of_init dt) = 0 ->
        let run := ltdcfb_register (bus pp)
                     (probe_world (snd (ltdcfb_of_init dt)) r) in
        fst res = fst run
        /\ (fst run <> 0 -> h = map Res (held (log (snd run))))
        /\ (fst run = 0 ->
              h = map Res (held (log (snd run))) ++ [R_context])).
Proof.
  cbn zeta. split; [| split; [| split]].
  - intros Hd. unfold ltdcfb_probe. rewrite (eqb_false _ Hd).
    cbn [negb fst snd]. split; reflexivity.
  - intros Hd Hk. unfold ltdcfb_probe. rewrite Hd, Hk.
    cbn [negb Z.eqb fst snd]. split; reflexivity.
  - intros Hd Hk [Hn | (dt & Hn & Hi)]; unfold ltdcfb_probe;
      rewrite Hd, Hk, Hn; cbn [negb Z.eqb fst snd].
    + split; reflexivity.
    + destruct (ltdcfb_of_init dt) as [ret pn]. cbn [fst] in Hi.
      rewrite (eqb_false _ Hi). cbn [negb fst snd]. split; reflexivity.
  - intros dt Hd Hk Hn Hi.
    destruct (ltdcfb_of_init dt) as [ret pn] eqn:Ei. cbn [fst snd] in *.
    subst ret.
    rewrite (probe_reaches_register pp (cold r) dt pn Hd Hk Hn Ei).
    cbn zeta. change (regs (cold r)) with r.
    change (trace (cold r)) with (@nil sys_event).
    set (run := ltdcfb_register (bus pp) (probe_world pn r)).
    destruct (Z.eqb_spec (fst run) 0) as [E | E]; cbn [fst snd trace app].
    + split; [reflexivity |]. split; [contradiction |]. intros _.
      rewrite sys_held_probe. now sys_eval.
    + split; [reflexivity |]. split; [| contradiction]. intros _.
      rewrite sys_held_probe. sys_eval.
      rewrite sys_drop_app, sys_drop_context, sys_drop_cons_eq, sys_drop_nil.
      apply app_nil_r.
Qed.

Lemma probe_fate_witness :
  fst (ltdcfb_probe wrong_panel_platform (cold ∅)) = - ENODEV
  /\ sys_held (trace (snd (ltdcfb_probe wrong_panel_platform (cold ∅))))
     = [R_context]
  /\ sys_held (trace (snd (ltdcfb_probe irq_busy_probe_platform (cold ∅))))
     = [Res R_regs]
  /\ fst (ltdcfb_probe good_probe_platform (cold ∅)) = 0.
Proof.
  pose proof (probe_fate wrong_panel_platform ∅) as (_ & _ & Hnode & _).
  pose proof (probe_fate irq_busy_probe_platform ∅) as (_ & _ & _ & Hbusy).
  pose proof (probe_fate good_probe_platform ∅) as (_ & _ & _ & Hgood).
  cbn zeta in Hnode, Hbusy, Hgood.
  destruct (Hnode eq_refl eq_refl) as [Hr Hh].
  { right. eexists. split; [reflexivity | vm_compute; discriminate]. }
  destruct (Hbusy _ eq_refl eq_refl eq_refl eq_refl) as (_ & Hleft & _).
  destruct (Hgood _ eq_refl eq_refl eq_refl eq_refl) as (Hret & _).
  split; [exact Hr |]. split; [exact Hh |]. split.
  - rewrite Hleft by (vm_compute; discriminate). vm_compute. reflexivity.
  - rewrite Hret. vm_compute. reflexivity.
Defined.

(** [ltdcfb_remove] when the colour map and the buffer are there. *)
Lemma remove_unfolded cmap_len s :
  cmap_len <> 0 -> screen_base (sys_ctx s) <> 0 ->
  ltdcfb_remove cmap_len s
  = (0,
     {| sys_ctx := sys_ctx s;
        regs := <[LTDC_L1CR :=
                    u32 (Z.land (sys_peek LTDC_L1CR s)
                                (u32 (Z.lnot CNTL_LCDEN)))]> (regs s);
        trace :=
          trace s ++
          [Drv (Readl LTDC_L1CR (sys_peek LTDC_L1CR s));
           Drv (Writel (u32 (Z.land (sys_peek LTDC_L1CR s)
                                    (u32 (Z.lnot CNTL_LCDEN)))) LTDC_L1CR);
           Unregister_framebuffer;
           Drv Fb_dealloc_cmap;
           Drv (Dma_free_wc (fix_smem_len (fb_fix (sys_ctx s))));
           Drv Iounmap; Drv Clk_unprepare; Drv Clk_put; Kfree_fb] |}).
Proof.
  intros Hc Hb. unfold ltdcfb_remove, in_driver, ltdcfb_disable, readl.
  cbn [fst snd sys_emit sys_ctx regs trace ctx mmio log writel emit app map].
  rewrite (eqb_false _ Hc). cbn [negb sys_emit sys_ctx regs trace].
  rewrite (eqb_false _ Hb). cbn [negb sys_emit sys_ctx regs trace].
  unfold sys_emit. cbn [sys_ctx regs trace].
  rewrite <- !app_assoc. cbn [app]. reflexivity.
Qed.

Lemma driver_events_app t1 t2 :
  driver_events (t1 ++ t2) = driver_events t1 ++ driver_events t2.
Proof. apply omap_app. Qed.

Lemma driver_events_drv l : driver_events (map Drv l) = l.
Proof.
  induction l as [| e l IH]; [reflexivity |].
  cbn [map]. change (driver_events (Drv e :: map Drv l))
    with (e :: driver_events (map Drv l)). now rewrite IH.
Qed.

(** X18: a successful [ltdcfb_probe] of a cold device followed by
    [ltdcfb_remove], with the colour map and the buffer in place.
    [ltdcfb_remove] returns 0 and makes exactly these calls, in this
    order: it reads the layer control register and writes it back with the
    enable bit cleared, so the layer is disabled first; then
    [unregister_framebuffer], [fb_dealloc_cmap], [dma_free_wc] on the
    522240 bytes, [iounmap], [clk_unprepare], [clk_put] and [kfree].  The
    frame buffer, the colour map, the buffer, the register mapping, the
    clock's preparation, the clock handle and the context are thus given
    back in the reverse order of their acquisition.  Two things are never
    undone: the two interrupts, which no call frees and which are all that
    is left of the resources above, and the clock's enable, which no call
    lowers: the clock is enabled once after the probe and still enabled
    once after the removal. *)
Theorem probe_then_remove pp r cmap_len :
  fst (ltdcfb_probe pp (cold r)) = 0 ->
  cmap_len <> 0 ->
  screen_base (sys_ctx (snd (ltdcfb_probe pp (cold r)))) <> 0 ->
  let s1 := snd (ltdcfb_probe pp (cold r)) in
  let res := ltdcfb_remove cmap_len s1 in
  let i := Res (R_irq (u32 (ltdc_irq (bus pp)))) in
  let e := Res (R_irq (u32 (ltdc_error_irq (bus pp)))) in
  let v := sys_peek LTDC_L1CR s1 in
  fst res = 0
  /\ trace (snd res)
     = trace s1 ++
       [Drv (Readl LTDC_L1CR v);
        Drv (Writel (u32 (Z.land v (u32 (Z.lnot CNTL_LCDEN)))) LTDC_L1CR);
        Unregister_framebuffer; Drv Fb_dealloc_cmap;
        Drv (Dma_free_wc (480 * 272 * 4)); Drv Iounmap; Drv Clk_unprepare;
        Drv Clk_put; Kfree_fb]
  /\ sys_acquisitions (trace (snd res))
     = [R_context; Res R_clk; Res R_clk_prepared; Res R_regs; i; e;
        Res R_buffer; Res R_cmap; Res R_framebuffer]
  /\ sys_releases (trace (snd res))
     = [Res R_framebuffer; Res R_cmap; Res R_buffer; Res R_regs;
        Res R_clk_prepared; Res R_clk; R_context]
  /\ sys_held (trace (snd res)) = [e; i]
  /\ sys_clk_enable_count (trace s1) = 1%nat
  /\ sys_clk_enable_count (trace (snd res)) = 1%nat
  /\ Z.testbit (sys_peek LTDC_L1CR (snd res)) 0 = false.
Proof.
  intros Hret Hc Hb. cbn zeta.
  rewrite (remove_unfolded _ _ Hc Hb). cbn [fst snd trace regs].
  apply probe_zero_conditions in Hret.
  destruct Hret as (Hd & Hk & (dt & Hn & Hi) & G).
  destruct (ltdcfb_of_init dt) as [ret pn] eqn:Ei. cbn [fst] in Hi.
  subst ret. clear Hb.
  rewrite (probe_reaches_register pp (cold r) dt pn Hd Hk Hn Ei).
  cbn zeta. change (regs (cold r)) with r.
  change (trace (cold r)) with (@nil sys_event).
  pose proof (granted_register_zero _ (probe_world pn r) G) as Hzero.
  assert (Hlen :
    fix_smem_len
      (fb_fix (ctx (snd (ltdcfb_register (bus pp) (probe_world pn r)))))
    = 480 * 272 * 4).
  { apply (ModeFacts.register_success_context
             (bus pp) (probe_world pn r)).
    destruct (ltdcfb_register (bus pp) (probe_world pn r)) as [z w'].
    cbn [fst] in Hzero. now subst z. }
  pose proof (register_enable_count (bus pp) (probe_world pn r)) as Hcnt.
  destruct G as (G1 & G2 & G').
  rewrite G1, G2 in Hcnt. cbn in Hcnt.
  assert (G : all_granted (bus pp)) by (unfold all_granted; tauto).
  clear G'.
  rewrite Hzero.
  cbn [Z.eqb fst snd trace regs sys_ctx app].
  rewrite Hlen.
  destruct (granted_run (bus pp) (probe_world pn r) G)
    as (l & Hl & Hh & Hr & Ha).
  change (log (probe_world pn r)) with (@nil event) in Hl.
  cbn [app] in Hl. rewrite Hl in *. clear Hl.
  split; [reflexivity |]. split; [reflexivity |].
  split; [| split; [| split; [| split; [| split]]]].
  - unfold sys_acquisitions. cbn [omap list_omap sys_acquired].
    rewrite !omap_app. fold (sys_acquisitions (map Drv l)).
    rewrite sys_acquisitions_drv, Ha. reflexivity.
  - unfold sys_releases. cbn [omap list_omap sys_released].
    rewrite !omap_app. fold (sys_releases (map Drv l)).
    rewrite sys_releases_drv, Hr. reflexivity.
  - rewrite <- app_assoc. rewrite sys_held_probe. unfold held.
    rewrite Hh. cbn [app map]. sys_eval. reflexivity.
  - unfold sys_clk_enable_count, driver_events. cbn [omap list_omap].
    rewrite !omap_app. fold (driver_events (map Drv l)).
    rewrite driver_events_drv. cbn [omap list_omap].
    rewrite !clk_enable_count_app, Hcnt. reflexivity.
  - unfold sys_clk_enable_count, driver_events. cbn [omap list_omap].
    rewrite !omap_app. fold (driver_events (map Drv l)).
    rewrite driver_events_drv. cbn [omap list_omap].
    rewrite !clk_enable_count_app, Hcnt. reflexivity.
  - unfold sys_peek. cbn [regs]. rewrite lookup_insert_eq.
    cbn [from_option id]. rewrite U32Facts.u32_idem.
    rewrite U32Facts.u32_testbit, Z.land_spec by lia.
    rewrite andb_false_r. apply andb_false_r.
Qed.

Lemma probe_then_remove_witness :
  let s1 := snd (ltdcfb_probe good_probe_platform (cold ∅)) in
  let res := ltdcfb_remove 256 s1 in
  sys_held (trace (snd res)) = [Res (R_irq 89); Res (R_irq 88)]
  /\ sys_clk_enable_count (trace (snd res)) = 1%nat.
Proof.
  intros s1 res.
  destruct (probe_then_remove good_probe_platform ∅ 256)
    as (_ & _ & _ & _ & Hheld & _ & Hcount & _);
    [vm_compute; solve [reflexivity | discriminate] ..|].
  split; [exact Hheld | exact Hcount].
Defined.

End ProbeFacts.

(** ** The Ethernet glue *)

Module DwmacFacts.

Import Dwmac.

(** One goal per way through [stm32_dwmac_probe]. *)
Ltac dwmac_paths a :=
  unfold stm32_dwmac_probe, stm32_dwmac_init, stm32_dwmac_exit, PTR_ERR;
  cbn [tx_clk rx_clk bsp_priv];
  destruct (Z.eqb_spec (get_platform_resources a) 0) as [Hres | Hres];
  cbn [negb];
  [ destruct (IS_ERR (probe_config_dt a)) eqn:Hcfg;
    [| destruct (dwmac_kzalloc a) eqn:Hk; cbn [negb];
       [ destruct (IS_ERR (get_tx_clk a)) eqn:Htx; cbn [orb];
         [| destruct (IS_ERR (get_rx_clk a)) eqn:Hrx;
            [| destruct (IS_ERR (syscon_regmap a)) eqn:Hmap;
               [| destruct (Z.eqb_spec (fst (syscon_offset a)) 0)
                    as [Hoff | Hoff]; cbn [negb] ];
               cbn [Z.eqb negb];
               destruct (Z.eqb_spec (dvr_probe a) 0) as [Hdvr | Hdvr];
               cbn [negb] ] ]
       |] ]
  |].

Lemma IS_ERR_nonzero ptr : IS_ERR ptr = true -> ptr <> 0.
Proof. unfold IS_ERR. intros H ->. cbn in H. discriminate. Qed.

Ltac calls_simpl :=
  cbn [fst snd]; rewrite <- ?app_assoc; cbn [app];
  unfold enables, disables; cbn [omap list_omap].

(** X19: clocks across [stm32_dwmac_probe].  The probe either enables no
    clock, or enables the transmit clock and then the receive clock, once
    each; when it returns 0 it disables none, and when it fails it has
    disabled, in the same order, every clock it enabled. *)
Theorem dwmac_probe_clock_balance a :
  let ret := fst (fst (stm32_dwmac_probe a [])) in
  let t := snd (stm32_dwmac_probe a []) in
  (enables t = [] \/ enables t = [get_tx_clk a; get_rx_clk a])
  /\ (ret = 0 -> enables t = [get_tx_clk a; get_rx_clk a]
                 /\ disables t = [])
  /\ (ret <> 0 -> disables t = enables t).
Proof.
  cbn zeta. dwmac_paths a; calls_simpl.
  all: split; [first [left; reflexivity | right; reflexivity] |].
  all: split; intros E;
    first [ split; reflexivity | reflexivity | exfalso ];
    first [ contradiction | discriminate
          | match goal with
            | H : IS_ERR _ = true |- _ => now apply IS_ERR_nonzero in H
            end ].
Qed.

Lemma dwmac_probe_clock_balance_witness :
  enables (snd (stm32_dwmac_probe good_answers []))
  = [0x20003000; 0x20003040]
  /\ disables (snd (stm32_dwmac_probe good_answers [])) = []
  /\ disables (snd (stm32_dwmac_probe refused_answers []))
     = enables (snd (stm32_dwmac_probe refused_answers [])).
Proof.
  pose proof (dwmac_probe_clock_balance good_answers) as (_ & Hok & _).
  pose proof (dwmac_probe_clock_balance refused_answers) as (_ & _ & Hko).
  cbn zeta in Hok, Hko.
  destruct (Hok eq_refl) as [He Hd].
  split; [exact He |]. split; [exact Hd |].
  apply Hko. vm_compute. discriminate.
Defined.

(** X20: [stm32_dwmac_probe] returns 0 exactly when the platform
    resources and the configuration are obtained, the private data is
    allocated, both clocks are found and the MAC core accepts the device.
    A missing system-controller regmap or offset does not fail the probe:
    it only leaves [phy_sel] at -1. *)
Theorem dwmac_probe_outcome a :
  let ret := fst (fst (stm32_dwmac_probe a [])) in
  let plat := snd (fst (stm32_dwmac_probe a [])) in
  (ret = 0 <->
     get_platform_resources a = 0
     /\ IS_ERR (probe_config_dt a) = false
     /\ dwmac_kzalloc a = true
     /\ IS_ERR (get_tx_clk a) = false
     /\ IS_ERR (get_rx_clk a) = false
     /\ dvr_probe a = 0)
  /\ (forall pd, plat = Some pd ->
        (IS_ERR (syscon_regmap a) = true \/ fst (syscon_offset a) <> 0 ->
           phy_sel (bsp_priv pd) = -1)
        /\ (IS_ERR (syscon_regmap a) = false ->
            fst (syscon_offset a) = 0 ->
            phy_sel (bsp_priv pd) = s32 (snd (syscon_offset a)))).
Proof.
  cbn zeta. dwmac_paths a; cbn [fst snd].
  all: split;
    [ split;
      [ intros E; try (exfalso;
          first [ contradiction | discriminate
                | match goal with
                  | H : IS_ERR _ = true |- _ =>
                      now apply IS_ERR_nonzero in H
                  end ]);
        repeat split; assumption
      | intros (H1 & H2 & H3 & H4 & H5 & H6);
        first [ assumption | reflexivity | exfalso ];
        first [ contradiction | discriminate | congruence ] ]
    | intros pd [= <-] || (intros pd H; discriminate H) ].
  all: cbn [phy_sel bsp_priv]; split;
    [ intros [H | H]; first [ reflexivity | discriminate H | contradiction ]
    | intros H1 H2; first [ reflexivity | discriminate H1 | contradiction ] ].
Qed.

Lemma dwmac_probe_outcome_witness :
  exists pd,
    snd (fst (stm32_dwmac_probe refused_answers [])) = Some pd
    /\ phy_sel (bsp_priv pd) = -1.
Proof.
  eexists. split; [reflexivity |].
  apply (proj1 (proj2 (dwmac_probe_outcome refused_answers) _ eq_refl)).
  left. reflexivity.
Defined.

End DwmacFacts.

(** ** The controller after registration; the layer switch *)

Module ControllerFacts.

Import WorldFacts RegisterFacts LayerFacts Inputs.

(** The register file [program_controller] leaves, write by write. *)
Lemma mmio_program_controller w :
  let m := mode (panel (ctx w)) in
  mmio (program_controller w)
  = <[LTDC_L1PFCR := u32 LTDC_ARGB]>
      (<[LTDC_L1CFBLR := u32 (length_word (ctx w))]>
         (<[LTDC_L1CFBAR := u32 (start_address (ctx w))]>
            (<[LTDC_L1CR := u32 (Z.lor (peek LTDC_L1CR w) CNTL_LCDEN)]>
               (<[LTDC_GCR := u32 1]>
                  (<[LTDC_TWCR := u32 (twcr_value m)]>
                     (<[LTDC_AWCR := u32 (awcr_value m)]>
                        (<[LTDC_BPCR := u32 (bpcr_value m)]>
                           (<[LTDC_SSCR := u32 (sscr_value m)]>
                              (<[LTDC_IER := u32 0xf]> (mmio w)))))))))).
Proof.
  intros m. unfold program_controller.
  rewrite mmio_set_start, mmio_emit, mmio_enable, !mmio_writel.
  rewrite !peek_writel_ne by (vm_compute; discriminate).
  reflexivity.
Qed.

Lemma peek_program_controller_L1CR w :
  peek LTDC_L1CR (program_controller w)
  = u32 (Z.lor (peek LTDC_L1CR w) CNTL_LCDEN).
Proof.
  unfold peek at 1. rewrite mmio_program_controller.
  rewrite !lookup_insert_ne by (vm_compute; discriminate).
  rewrite lookup_insert_eq. cbn [from_option id].
  apply U32Facts.u32_idem.
Qed.

(** X21: the controller after a successful [ltdcfb_register]: all four
    interrupt sources are enabled (0xF), the global control register holds
    1, the pixel format is ARGB (0), the layer-enable bit is set while
    every other bit of the layer control register is as before, and no
    register outside the ten programmed ones has changed. *)
Theorem register_success_controller p w w' :
  ltdcfb_register p w = (0, w') ->
  peek LTDC_IER w' = 0xf
  /\ peek LTDC_GCR w' = 1
  /\ peek LTDC_L1PFCR w' = LTDC_ARGB
  /\ Z.testbit (peek LTDC_L1CR w') 0 = true
  /\ (forall i, 0 < i ->
        Z.testbit (peek LTDC_L1CR w') i = Z.testbit (peek LTDC_L1CR w) i)
  /\ (forall off, ~ In off programming_order ->
        mmio w' !! off = mmio w !! off).
Proof.
  intros Hreg.
  destruct (register_success p w w' Hreg)
    as (r_start & r_end & base & dma & w0 & _ & _ & _ & Hm & ->).
  assert (Hp : forall off, peek off w0 = peek off w)
    by (intros off; unfold peek; now rewrite Hm).
  assert (Hbits : forall i, 0 <= i ->
            Z.testbit (peek LTDC_L1CR (program_controller w0)) i
            = Z.testbit (peek LTDC_L1CR w) i || (i =? 0)).
  { intros i Hi. rewrite peek_program_controller_L1CR, <- peek_enable.
    rewrite enable_bits by assumption. now rewrite Hp. }
  repeat rewrite peek_emit.
  split; [| split; [| split; [| split; [| split]]]].
  - unfold peek. rewrite mmio_program_controller.
    rewrite !lookup_insert_ne by (vm_compute; discriminate).
    now rewrite lookup_insert_eq.
  - unfold peek. rewrite mmio_program_controller.
    rewrite !lookup_insert_ne by (vm_compute; discriminate).
    now rewrite lookup_insert_eq.
  - unfold peek. rewrite mmio_program_controller.
    now rewrite lookup_insert_eq.
  - rewrite Hbits by lia. apply orb_true_r.
  - intros i Hi. rewrite Hbits by lia.
    destruct (Z.eqb_spec i 0); [lia | apply orb_false_r].
  - intros off Hoff. rewrite !mmio_emit, mmio_program_controller, Hm.
    unfold programming_order in Hoff. cbn [In] in Hoff.
    rewrite !lookup_insert_ne by (intros E; apply Hoff; rewrite <- E; tauto).
    reflexivity.
Qed.

Lemma register_success_controller_witness :
  let w' :=
    snd (ltdcfb_register good_platform
           (fresh_world (panel_of mode_480x272 32))) in
  peek LTDC_GCR w' = 1 /\ Z.testbit (peek LTDC_L1CR w') 0 = true.
Proof.
  intros w'.
  destruct (register_success_controller
              good_platform (fresh_world (panel_of mode_480x272 32)) w'
              eq_refl) as (_ & Hg & _ & Hl & _).
  split; [exact Hg | exact Hl].
Defined.

(** X22: of [ltdcfb_enable] and [ltdcfb_disable] the last one applied
    decides: disabling and then enabling leaves the registers as enabling
    alone does, and enabling and then disabling leaves them as disabling
    alone does. *)
Theorem layer_switch_last_wins w :
  mmio (ltdcfb_enable (ltdcfb_disable w)) = mmio (ltdcfb_enable w)
  /\ mmio (ltdcfb_disable (ltdcfb_enable w)) = mmio (ltdcfb_disable w).
Proof.
  split.
  - rewrite (mmio_enable (ltdcfb_disable w)), (mmio_disable w).
    rewrite insert_insert_eq, (mmio_enable w). f_equal.
    rewrite <- (peek_enable (ltdcfb_disable w)), <- (peek_enable w).
    apply peek_eq_of_bits. intros i Hi.
    rewrite !enable_bits, disable_bits by lia.
    now destruct (Z.testbit _ i), (i =? 0).
  - rewrite (mmio_disable (ltdcfb_enable w)), (mmio_enable w).
    rewrite insert_insert_eq, (mmio_disable w). f_equal.
    rewrite <- (peek_disable (ltdcfb_enable w)), <- (peek_disable w).
    apply peek_eq_of_bits. intros i Hi.
    rewrite !disable_bits, enable_bits by lia.
    now destruct (Z.testbit _ i), (i =? 0).
Qed.

End ControllerFacts.
